(** * Inference and Validation notebook: the train/validate driver

    A shallow embedding of the code cells of
    [intro-to-pytorch/Part 5 - Inference and Validation (Exercises).ipynb]:
    the two classifiers (cells 3 and 16), the accuracy computation
    (cells 7-11), the epoch loops (cells 13 and 17) and the single-sample
    inference path (cell 19).

    Numbers.  Python floats and tensor elements are idealised as exact
    extended rationals ([fval]): a rational, or one of the three IEEE
    specials.  Rounding is outside the model.  Where the forward pass
    needs [exp] and [log] the scalar type is a parameter; [Ieee]
    instantiates it with finite reals, the two infinities and NaN, where
    a finite result beyond the float32 range overflows. *)

From Stdlib Require Import ZArith QArith List Bool Lia Lra Lqa.
From Stdlib Require String DecimalString.
From Stdlib Require Import Reals Qreals.
Import ListNotations.

Set Implicit Arguments.

(* ================================================================== *)
(** * Python outcomes and the store-passing exception monad            *)
(* ================================================================== *)

Module Py.

(** The built-in exceptions that the cells can raise. *)
Inductive exn : Type :=
| ZeroDivisionError   (* [x / 0] on a Python int or float *)
| IndexError          (* target out of bounds, [images[0]] on an empty batch *)
| RuntimeError        (* shape mismatch in [view], [linear] or [topk] *)
| ValueError          (* batch size of the input differs from the target's *)
| StopIteration.      (* [next] on an exhausted iterator *)

Inductive outcome (A : Type) : Type :=
| Ok (a : A)
| Raise (e : exn).
Arguments Ok {A} a.
Arguments Raise {A} e.

(** Pure fallible code: the error monad. *)
Definition obind {A B} (c : outcome A) (k : A -> outcome B) : outcome B :=
  match c with
  | Ok a => k a
  | Raise e => Raise e
  end.

(** Code that mutates the notebook's globals: the store survives an
    exception, as the objects of a Python session do. *)
Definition M (St A : Type) : Type := St -> outcome A * St.

Definition ret {St A} (a : A) : M St A := fun s => (Ok a, s).

Definition bind {St A B} (c : M St A) (k : A -> M St B) : M St B :=
  fun s =>
    match c s with
    | (Ok a, s') => k a s'
    | (Raise e, s') => (Raise e, s')
    end.

Definition lift {St A} (c : outcome A) : M St A := fun s => (c, s).

Definition modify {St} (f : St -> St) : M St unit := fun s => (Ok tt, f s).

Definition gets {St A} (f : St -> A) : M St A := fun s => (Ok (f s), s).

(** [for x in xs: acc = body(acc, x)] *)
Fixpoint for_each {St A X} (body : A -> X -> M St A) (acc : A) (xs : list X)
  : M St A :=
  match xs with
  | [] => ret acc
  | x :: rest => bind (body acc x) (fun acc' => for_each body acc' rest)
  end.

End Py.

Import Py.

Declare Scope py_scope.
Delimit Scope py_scope with py.
Notation "x <- c ;; k" := (bind c (fun x => k))
  (at level 61, c at next level, right associativity) : py_scope.
Notation "c ;;; k" := (bind c (fun _ => k))
  (at level 61, right associativity) : py_scope.
Notation "x <~ c ;; k" := (obind c (fun x => k))
  (at level 61, c at next level, right associativity) : py_scope.

(* ================================================================== *)
(** * Numbers                                                          *)
(* ================================================================== *)

Module Num.

Local Open Scope Q_scope.

(** An IEEE value without rounding. *)
Inductive fval : Type :=
| Fin (q : Q)
| PInf
| NInf
| NaN.

Definition fl_eq (a b : fval) : Prop :=
  match a, b with
  | Fin x, Fin y => x == y
  | PInf, PInf | NInf, NInf | NaN, NaN => True
  | _, _ => False
  end.

Definition fl_add (a b : fval) : fval :=
  match a, b with
  | NaN, _ | _, NaN => NaN
  | PInf, NInf | NInf, PInf => NaN
  | PInf, _ | _, PInf => PInf
  | NInf, _ | _, NInf => NInf
  | Fin x, Fin y => Fin (x + y)
  end.

Definition fl_neg (a : fval) : fval :=
  match a with
  | Fin x => Fin (- x)
  | PInf => NInf
  | NInf => PInf
  | NaN => NaN
  end.

(** Division of a float by a count [n >= 0]; IEEE gives an infinity or
    NaN for [n = 0] and raises nothing. *)
Definition fl_div_count (a : fval) (n : nat) : fval :=
  match n with
  | O =>
      match a with
      | Fin x => match x ?= 0 with Gt => PInf | Lt => NInf | Eq => NaN end
      | other => other
      end
  | S _ =>
      match a with
      | Fin x => Fin (x / inject_Z (Z.of_nat n))
      | other => other
      end
  end.

(** Multiplication by a positive integer constant. *)
Definition fl_mul_pos (a : fval) (k : positive) : fval :=
  match a with
  | Fin x => Fin (x * inject_Z (Zpos k))
  | other => other
  end.

Definition fl_sum (xs : list fval) : fval := fold_left fl_add xs (Fin 0).

(** [a <= b] in the order [topk] uses: NaN is the greatest value. *)
Definition fl_leb (a b : fval) : bool :=
  match a, b with
  | _, NaN => true
  | NaN, _ => false
  | _, PInf => true
  | PInf, _ => false
  | NInf, _ => true
  | _, NInf => false
  | Fin x, Fin y => Qle_bool x y
  end.

(** The values the driver's variables hold: [running_loss] is an int
    and then a float, [test_loss] and [accuracy] are an int and then a
    0-dim tensor. *)
Inductive pyval : Type :=
| PyInt (z : Z)
| PyFloat (x : fval)
| PyTensor (x : fval).

(** [a + b]: a tensor operand makes the result a tensor, else a float
    operand makes it a float. *)
Definition py_add (a b : pyval) : pyval :=
  match a, b with
  | PyInt x, PyInt y => PyInt (x + y)
  | PyInt x, PyFloat y => PyFloat (fl_add (Fin (inject_Z x)) y)
  | PyFloat x, PyInt y => PyFloat (fl_add x (Fin (inject_Z y)))
  | PyFloat x, PyFloat y => PyFloat (fl_add x y)
  | PyInt x, PyTensor y => PyTensor (fl_add (Fin (inject_Z x)) y)
  | PyTensor x, PyInt y => PyTensor (fl_add x (Fin (inject_Z y)))
  | PyFloat x, PyTensor y => PyTensor (fl_add x y)
  | PyTensor x, PyFloat y => PyTensor (fl_add x y)
  | PyTensor x, PyTensor y => PyTensor (fl_add x y)
  end.

(** [a / len(loader)].  Python's own numbers raise on a zero divisor; a
    tensor does not. *)
Definition py_truediv (a : pyval) (n : nat) : outcome pyval :=
  match a with
  | PyInt x =>
      match n with
      | O => Raise ZeroDivisionError
      | S _ => Ok (PyFloat (Fin (inject_Z x / inject_Z (Z.of_nat n))))
      end
  | PyFloat x =>
      match n with
      | O => Raise ZeroDivisionError
      | S _ => Ok (PyFloat (fl_div_count x n))
      end
  | PyTensor x => Ok (PyTensor (fl_div_count x n))
  end.

(** [a * 100] *)
Definition py_mul100 (a : pyval) : pyval :=
  match a with
  | PyInt x => PyInt (x * 100)
  | PyFloat x => PyFloat (fl_mul_pos x 100)
  | PyTensor x => PyTensor (fl_mul_pos x 100)
  end.

End Num.

Import Num.

(* ================================================================== *)
(** * The framework operations the cells call                          *)
(* ================================================================== *)

Module Torch.

Local Open Scope py_scope.

(** A 2-D float tensor, one row per sample. *)
Definition tensor2 : Type := list (list fval).

(** The element of [row] at the target index; a target outside
    [0, len(row)) is out of bounds. *)
Definition pick (row : list fval) (t : Z) : outcome fval :=
  if (t <? 0)%Z then Raise IndexError
  else match nth_error row (Z.to_nat t) with
       | Some v => Ok v
       | None => Raise IndexError
       end.

Fixpoint nll_sum (log_ps : tensor2) (labels : list Z) (acc : fval)
  : outcome fval :=
  match log_ps, labels with
  | [], [] => Ok acc
  | row :: rows, t :: ts =>
      v <~ pick row t ;;
      nll_sum rows ts (fl_add acc (fl_neg v))
  | _, _ => Raise ValueError
  end.

(** Modelled from the spec: [criterion = nn.NLLLoss()] is the framework's
    and not part of the notebook.  Section 4.2: given log-probabilities
    and integer labels, return the negative mean log-probability assigned
    to the true class; fail if a label index falls outside
    [0, numClasses).  The batch sizes of input and target have to agree. *)
Definition nll_loss (log_ps : tensor2) (labels : list Z) : outcome fval :=
  if Nat.eqb (length log_ps) (length labels)
  then s <~ nll_sum log_ps labels (Fin 0) ;;
       Ok (fl_div_count s (length labels))
  else Raise ValueError.

(** Index of the greatest element of [x :: rest], scanning left to right
    and keeping the earlier index on a tie. *)
Fixpoint argmax_from (best_i : nat) (best : fval) (i : nat) (row : list fval)
  : nat :=
  match row with
  | [] => best_i
  | x :: rest =>
      if fl_leb x best then argmax_from best_i best (S i) rest
      else argmax_from i x (S i) rest
  end.

Definition topk1_row (row : list fval) : outcome Z :=
  match row with
  | [] => Raise RuntimeError
  | x :: rest => Ok (Z.of_nat (argmax_from 0 x 1 rest))
  end.

(** Modelled from the spec: [ps.topk(1, dim=1)] is the framework's.  Cell
    6 describes it: the highest value of each row and its index.  Section
    4.4 leaves the index on a tie to the implementation; here it is the
    first.  Only the indices [top_class] are returned, the cells never
    read [top_p]. *)
Fixpoint topk1 (ps : tensor2) : outcome (list Z) :=
  match ps with
  | [] => Ok []
  | row :: rows =>
      c <~ topk1_row row ;;
      cs <~ topk1 rows ;;
      Ok (c :: cs)
  end.

(** [labels.view( *top_class.shape )]: the element counts have to agree. *)
Definition view_as (labels : list Z) (top_class : list Z) : outcome (list Z) :=
  if Nat.eqb (length labels) (length top_class) then Ok labels
  else Raise RuntimeError.

(** [equals = top_class == labels.view( *top_class.shape )] (cell 9) *)
Definition equals (top_class labels : list Z) : outcome (list bool) :=
  labels' <~ view_as labels top_class ;;
  Ok (map (fun p => Z.eqb (fst p) (snd p)) (combine top_class labels')).

(** [equals.type(torch.FloatTensor)] *)
Definition to_float (bs : list bool) : list fval :=
  map (fun b : bool => if b then Fin 1 else Fin 0) bs.

(** [torch.mean]: NaN for an empty tensor. *)
Definition mean (xs : list fval) : fval := fl_div_count (fl_sum xs) (length xs).

(** [torch.mean(equals.type(torch.FloatTensor))] for given predicted
    classes (cells 9 and 11). *)
Definition accuracy_of_classes (top_class labels : list Z) : outcome fval :=
  eq <~ equals top_class labels ;;
  Ok (mean (to_float eq)).

(** The accuracy lines of cells 7-11 and of the validation loops. *)
Definition batch_accuracy (ps : tensor2) (labels : list Z) : outcome fval :=
  top_class <~ topk1 ps ;;
  accuracy_of_classes top_class labels.

End Torch.

Import Torch.

(* ================================================================== *)
(** * The f-string of the epoch report                                 *)
(* ================================================================== *)

Module Fmt.

Import String.
Local Open Scope string_scope.
Local Open Scope Z_scope.

Definition digits (n : Z) : string :=
  DecimalString.NilZero.string_of_uint (N.to_uint (Z.to_N n)).

Definition pad3 (s : string) : string :=
  match String.length s with
  | 1%nat => "00" ++ s
  | 2%nat => "0" ++ s
  | _ => s
  end.

(** Nearest integer to [num/den >= 0], ties to even. *)
Definition round_half_even (num den : Z) : Z :=
  let lo := num / den in
  match 2 * (num mod den) ?= den with
  | Lt => lo
  | Gt => lo + 1
  | Eq => if Z.even lo then lo else lo + 1
  end.

(** [format(q, ".3f")] *)
Definition format_3f_Q (q : Q) : string :=
  let n := round_half_even (Z.abs (Qnum q) * 1000) (Zpos (Qden q)) in
  (if Qnum q <? 0 then "-" else "")
    ++ digits (n / 1000) ++ "." ++ pad3 (digits (n mod 1000)).

Definition format_3f_fval (x : fval) : string :=
  match x with
  | Fin q => format_3f_Q q
  | PInf => "inf"
  | NInf => "-inf"
  | NaN => "nan"
  end.

(** [f"{v:.3f}"]; a 0-dim tensor formats as its [item()]. *)
Definition format_3f (v : pyval) : string :=
  match v with
  | PyInt z => format_3f_Q (inject_Z z)
  | PyFloat x | PyTensor x => format_3f_fval x
  end.

Definition format_nat (n : nat) : string := digits (Z.of_nat n).

(** [f"Epoch {e+1} of {epochs}  |  Train Loss: {..:.3f}  |  Test Loss:
    {..:.3f}  |  Accuracy: {..:.3f}%"] *)
Definition report_line (e epochs : nat) (train test acc100 : pyval) : string :=
  "Epoch " ++ format_nat (e + 1) ++ " of " ++ format_nat epochs
    ++ "  |  Train Loss: " ++ format_3f train
    ++ "  |  Test Loss: " ++ format_3f test
    ++ "  |  Accuracy: " ++ format_3f acc100 ++ "%".

End Fmt.

(* ================================================================== *)
(** * The training and validation driver (cells 13 and 17)             *)
(* ================================================================== *)

Module Driver.

Section Driver.

Local Open Scope py_scope.

(** What stands behind [model] and [optimizer] in the framework:
    parameters, their gradients, the recorded graph, the optimizer's
    moments, the random generator. *)
Variable Net : Type.

(** A batch of images as the loader yields it. *)
Variable Images : Type.

(** [model(images)], under the grad flag and the training flag in force.
    It may draw dropout masks and record the graph, and it may raise. *)
Variable forward : bool -> bool -> Images -> Net -> outcome tensor2 * Net.

(** [torch.exp] *)
Variable torch_exp : tensor2 -> tensor2.

(** [optimizer.zero_grad()], [train_loss.backward()], [optimizer.step()] *)
Variable zero_grad : Net -> Net.
Variable backward : Net -> Net.
Variable optimizer_step : Net -> Net.

Definition batch : Type := (Images * list Z)%type.

(** The globals of the notebook session that the loops touch. *)
Record state : Type := mkState {
  training : bool;              (* [model.training] *)
  grad_enabled : bool;          (* [torch.is_grad_enabled()] *)
  net : Net;
  train_losses : list pyval;
  test_losses : list pyval;
  stdout : list String.string
}.

Definition set_training (b : bool) (s : state) : state :=
  mkState b (grad_enabled s) (net s) (train_losses s) (test_losses s) (stdout s).

Definition set_grad_enabled (b : bool) (s : state) : state :=
  mkState (training s) b (net s) (train_losses s) (test_losses s) (stdout s).

Definition set_net (n : Net) (s : state) : state :=
  mkState (training s) (grad_enabled s) n (train_losses s) (test_losses s)
          (stdout s).

Definition append_train_losses (v : pyval) (s : state) : state :=
  mkState (training s) (grad_enabled s) (net s) (train_losses s ++ [v])
          (test_losses s) (stdout s).

Definition append_test_losses (v : pyval) (s : state) : state :=
  mkState (training s) (grad_enabled s) (net s) (train_losses s)
          (test_losses s ++ [v]) (stdout s).

(** [s] and [s'] differ in the framework state at most. *)
Definition same_globals (s s' : state) : Prop :=
  training s' = training s /\ grad_enabled s' = grad_enabled s
  /\ train_losses s' = train_losses s /\ test_losses s' = test_losses s
  /\ stdout s' = stdout s.

Definition print (line : String.string) : M state unit :=
  modify (fun s => mkState (training s) (grad_enabled s) (net s)
                           (train_losses s) (test_losses s)
                           (stdout s ++ [line])).

(** [model.eval()] and [model.train()] *)
Definition model_eval : M state unit := modify (set_training false).
Definition model_train : M state unit := modify (set_training true).

Definition on_net (f : Net -> Net) : M state unit :=
  modify (fun s => set_net (f (net s)) s).

Definition call_model (images : Images) : M state tensor2 :=
  fun s =>
    let (r, n') := forward (grad_enabled s) (training s) images (net s) in
    (r, set_net n' s).

(** [with torch.no_grad(): body]: a context manager, so the previous flag
    is put back when the body returns and when it raises. *)
Definition with_no_grad {A} (body : M state A) : M state A :=
  fun s =>
    let prev := grad_enabled s in
    let (r, s') := body (set_grad_enabled false s) in
    (r, set_grad_enabled prev s').

(** [xs[-1]] *)
Definition last_entry (xs : list pyval) : outcome pyval :=
  match xs with
  | [] => Raise IndexError
  | x :: rest => Ok (last rest x)
  end.

(** The body of [for images, labels in trainloader:] up to
    [optimizer.step()]; the result is [train_loss.item()]. *)
Definition train_step (b : batch) : M state fval :=
  on_net zero_grad ;;;
  log_ps <- call_model (fst b) ;;
  train_loss <- lift (nll_loss log_ps (snd b)) ;;
  on_net backward ;;;
  on_net optimizer_step ;;;
  ret train_loss.

(** The whole body, ending in [running_loss += train_loss.item()]. *)
Definition train_batch (running_loss : pyval) (b : batch) : M state pyval :=
  item <- train_step b ;;
  ret (py_add running_loss (PyFloat item)).

(** The values [train_loss.item()] takes over one pass, in order. *)
Fixpoint per_batch_losses (trainloader : list batch) : M state (list fval) :=
  match trainloader with
  | [] => ret []
  | b :: rest =>
      item <- train_step b ;;
      items <- per_batch_losses rest ;;
      ret (item :: items)
  end.

(** The body of [for images, labels in testloader:] without the two
    [+=]: the batch's loss and its accuracy. *)
Definition validation_step (b : batch) : M state (fval * fval) :=
  log_ps <- call_model (fst b) ;;
  loss <- lift (nll_loss log_ps (snd b)) ;;
  let ps := torch_exp log_ps in
  accuracy <- lift (batch_accuracy ps (snd b)) ;;
  ret (loss, accuracy).

(** The whole body; the accumulator is the pair [(test_loss, accuracy)]. *)
Definition validation_batch (acc : pyval * pyval) (b : batch)
  : M state (pyval * pyval) :=
  r <- validation_step b ;;
  ret (py_add (fst acc) (PyTensor (fst r)),
       py_add (snd acc) (PyTensor (snd r))).

(** The per-batch losses and accuracies of one validation pass. *)
Fixpoint per_batch_metrics (testloader : list batch)
  : M state (list (fval * fval)) :=
  match testloader with
  | [] => ret []
  | b :: rest =>
      r <- validation_step b ;;
      rs <- per_batch_metrics rest ;;
      ret (r :: rs)
  end.

(** The averaging and the report that end the [else:] block. *)
Definition epoch_report (epochs e n_train n_test : nat)
           (running_loss test_loss accuracy : pyval) : M state unit :=
  x <- lift (py_truediv running_loss n_train) ;;
  modify (append_train_losses x) ;;;
  y <- lift (py_truediv test_loss n_test) ;;
  modify (append_test_losses y) ;;;
  tl <- bind (gets train_losses) (fun l => lift (last_entry l)) ;;
  vl <- bind (gets test_losses) (fun l => lift (last_entry l)) ;;
  a <- lift (py_truediv accuracy n_test) ;;
  print (Fmt.report_line e epochs tl vl (py_mul100 a)).

(** One turn of [for e in range(epochs):].  The inner [for] has no
    [break], so its [else:] block always runs.  [switch_mode] tells cell
    17 (with [model.eval()] and [model.train()]) from cell 13 (without). *)
Definition epoch (switch_mode : bool) (epochs : nat)
           (trainloader testloader : list batch) (e : nat) : M state unit :=
  running_loss <- for_each train_batch (PyInt 0) trainloader ;;
  acc <- with_no_grad
           ((if switch_mode then model_eval else ret tt) ;;;
            for_each validation_batch (PyInt 0, PyInt 0) testloader) ;;
  epoch_report epochs e (length trainloader) (length testloader)
               running_loss (fst acc) (snd acc) ;;;
  (if switch_mode then model_train else ret tt).

(** A loader, seen from the loop: the batches it yields in the pass of
    each epoch.  Both loaders are built with [shuffle=True] (cell 1), so
    the batches of two passes need not be the same. *)
Definition loader : Type := nat -> list batch.

(** [for e in range(epochs):] over the epochs [es]; an exception ends
    the loop. *)
Definition run_epochs (switch_mode : bool) (epochs : nat)
           (trainloader testloader : loader) (es : list nat)
  : M state unit :=
  for_each (fun _ e =>
              epoch switch_mode epochs (trainloader e) (testloader e) e)
           tt es.

(** [epochs = 30] *)
Definition epochs : nat := 30.

(** The session after [model = ...()] and [train_losses, test_losses =
    [], []]: a fresh module is in training mode, grad is enabled. *)
Definition init_state (n : Net) : state := mkState true true n [] [] [].

(** Cell 13: [Classifier], no mode switch. *)
Definition cell13 (trainloader testloader : loader) (n : Net)
  : outcome unit * state :=
  run_epochs false epochs trainloader testloader (seq 0 epochs) (init_state n).

(** Cell 17: [DropoutClassifier], [model.eval()] before the validation
    pass and [model.train()] after the report. *)
Definition cell17 (trainloader testloader : loader) (n : Net)
  : outcome unit * state :=
  run_epochs true epochs trainloader testloader (seq 0 epochs) (init_state n).

End Driver.

End Driver.

(* ================================================================== *)
(** * The two classifiers (cells 3 and 16) and inference (cell 19)     *)
(* ================================================================== *)

(** The arithmetic the layers need, whatever the element type is. *)
Class Scalar (S : Type) : Type := {
  s_of_Q : Q -> S;
  s_add : S -> S -> S;
  s_sub : S -> S -> S;
  s_mul : S -> S -> S;
  s_div : S -> S -> S;
  s_max : S -> S -> S;
  s_exp : S -> S;
  s_log : S -> S
}.

Module Model.

Section Net.

Local Open Scope py_scope.

Context {S : Type} `{Scalar S}.

(** The random generator of the framework and one Bernoulli draw from
    it: [true] with the given probability. *)
Variable RNG : Type.
Variable bernoulli : Q -> RNG -> bool * RNG.

Definition tensor : Type := list (list S).

(** An input tensor: a batch of images (N x C x H x W) as the loaders
    yield it, or rows (N x D) as cell 19 passes. *)
Inductive input : Type :=
| Batch4 (images : list (list (list (list S))))
| Batch2 (rows : list (list S)).

Definition shape0 (x : input) : nat :=
  match x with
  | Batch4 images => length images
  | Batch2 rows => length rows
  end.

(** [x.view(x.shape[0], -1)]: with no sample the size behind [-1] is
    ambiguous and the call raises. *)
Definition view_flat (x : input) : outcome tensor :=
  match shape0 x with
  | O => Raise RuntimeError
  | _ =>
      match x with
      | Batch4 images => Ok (map (fun img => concat (concat img)) images)
      | Batch2 rows => Ok rows
      end
  end.

(** [nn.Linear(in_features, out_features)] *)
Record Linear : Type := mkLinear {
  in_features : nat;
  out_features : nat;
  weight : list (list S);       (* out_features x in_features *)
  bias : list S                 (* out_features *)
}.

Definition dot (w x : list S) : S :=
  fold_left (fun acc p => s_add acc (s_mul (fst p) (snd p))) (combine w x)
            (s_of_Q 0).

(** One row through [x @ W.T + b]; the row has to have [in_features]
    elements. *)
Definition linear_row (l : Linear) (x : list S) : outcome (list S) :=
  if Nat.eqb (length x) (in_features l)
  then Ok (map (fun wb => s_add (dot (fst wb) x) (snd wb))
               (combine (weight l) (bias l)))
  else Raise RuntimeError.

Fixpoint linear (l : Linear) (x : tensor) : outcome tensor :=
  match x with
  | [] => Ok []
  | row :: rows =>
      r <~ linear_row l row ;;
      rs <~ linear l rows ;;
      Ok (r :: rs)
  end.

(** [F.relu] *)
Definition relu (x : tensor) : tensor := map (map (s_max (s_of_Q 0))) x.

Definition sum_exp (row : list S) : S :=
  fold_right (fun z acc => s_add (s_exp z) acc) (s_of_Q 0) row.

(** Modelled from the spec: [F.log_softmax(x, dim=1)] is the framework's.
    Glossary: the log of the normalized exponential distribution over
    the class scores of a row. *)
Definition log_softmax (x : tensor) : tensor :=
  map (fun row => map (fun z => s_log (s_div (s_exp z) (sum_exp row))) row) x.

(** [torch.exp] *)
Definition torch_exp (x : tensor) : tensor := map (map s_exp) x.

(** The four layers that [Classifier.__init__] creates and
    [DropoutClassifier] inherits. *)
Record Classifier : Type := mkClassifier {
  fc1 : Linear;
  fc2 : Linear;
  fc3 : Linear;
  fc4 : Linear
}.

(** [Classifier.forward] (cell 3) *)
Definition Classifier_forward (self : Classifier) (x : input)
  : outcome tensor :=
  x <~ view_flat x ;;
  x <~ linear (fc1 self) x ;;
  let x := relu x in
  x <~ linear (fc2 self) x ;;
  let x := relu x in
  x <~ linear (fc3 self) x ;;
  let x := relu x in
  x <~ linear (fc4 self) x ;;
  Ok (log_softmax x).

(** One unit in training mode: zeroed with probability [p], else scaled
    by [1/(1-p)]. *)
Definition dropout_unit (p : Q) (v : S) : M RNG S :=
  fun g =>
    let (drop, g') := bernoulli p g in
    (Ok (if drop then s_of_Q 0
         else s_mul v (s_div (s_of_Q 1) (s_sub (s_of_Q 1) (s_of_Q p)))),
     g').

Fixpoint map_M {A B} (f : A -> M RNG B) (xs : list A) : M RNG (list B) :=
  match xs with
  | [] => ret []
  | x :: rest =>
      y <- f x ;;
      ys <- map_M f rest ;;
      ret (y :: ys)
  end.

(** Modelled from the spec: [nn.Dropout(p)] is the framework's.  Section
    4.1: during training each unit is independently zeroed with
    probability [p] and the survivors are rescaled by [1/(1-p)]; in
    evaluation mode the step is the identity (cell 14: [model.eval()]
    "sets the model to evaluation mode where the dropout probability is
    0"). *)
Definition dropout (p : Q) (training : bool) (x : tensor) : M RNG tensor :=
  if training then map_M (map_M (dropout_unit p)) x
  else ret x.

(** [self.dropout = nn.Dropout(p=.2)] *)
Definition dropout_p : Q := 2 # 10.

(** [DropoutClassifier.forward] (cell 16), under the module's training
    flag. *)
Definition DropoutClassifier_forward (self : Classifier) (training : bool)
           (x : input) : M RNG tensor :=
  x <- lift (view_flat x) ;;
  x <- lift (linear (fc1 self) x) ;;
  x <- dropout dropout_p training (relu x) ;;
  x <- lift (linear (fc2 self) x) ;;
  x <- dropout dropout_p training (relu x) ;;
  x <- lift (linear (fc3 self) x) ;;
  x <- dropout dropout_p training (relu x) ;;
  x <- lift (linear (fc4 self) x) ;;
  ret (log_softmax x).

(** What cell 19 works on: the trained [model] with its flag, and the
    generator. *)
Record session : Type := mkSession {
  model : Classifier;
  model_training : bool;
  rng : RNG
}.

Definition model_eval : M session unit :=
  modify (fun s => mkSession (model s) false (rng s)).

Definition model_forward (x : input) : M session tensor :=
  fun s =>
    let (r, g') := DropoutClassifier_forward (model s) (model_training s) x
                                             (rng s) in
    (r, mkSession (model s) (model_training s) g').

(** A batch as the test loader yields it: images and labels. *)
Definition image_batch : Type := (list (list (list (list S))) * list Z)%type.

(** The test loader of cell 1 is built with [shuffle=True]: a fresh
    iterator draws the order of the samples from the generator.  Given
    the generator, the batches the iterator is going to yield, and the
    generator after the draw. *)
Variable testloader_iter : RNG -> list image_batch * RNG.

(** [dataiter = iter(testloader)] *)
Definition iter_testloader : M session (list image_batch) :=
  fun s =>
    let (batches, g') := testloader_iter (rng s) in
    (Ok batches, mkSession (model s) (model_training s) g').

(** [dataiter.next()] on a fresh iterator *)
Definition dataiter_next (batches : list image_batch) : outcome image_batch :=
  match batches with
  | [] => Raise StopIteration
  | b :: _ => Ok b
  end.

(** [images[0]] *)
Definition first_image (images : list (list (list (list S))))
  : outcome (list (list (list S))) :=
  match images with
  | [] => Raise IndexError
  | img :: _ => Ok img
  end.

(** [img.view(1, 784)] *)
Definition view_1_784 (img : list (list (list S))) : outcome (list (list S)) :=
  let flat := concat (concat img) in
  if Nat.eqb (length flat) 784 then Ok [flat] else Raise RuntimeError.

(** Cell 19 from [img = img.view(1, 784)] to [ps = torch.exp(output)];
    [ps] goes to the display helper. *)
Definition infer_image (img : list (list (list S))) : M session tensor :=
  img <- lift (view_1_784 img) ;;
  output <- model_forward (Batch2 img) ;;
  ret (torch_exp output).

(** The single-sample path on a given image: cell 19 without the three
    lines that fetch the image. *)
Definition single_sample (img : list (list (list S))) : M session tensor :=
  model_eval ;;;
  infer_image img.

(** Cell 19 from [model.eval()] to [ps = torch.exp(output)]. *)
Definition inference : M session tensor :=
  model_eval ;;;
  dataiter <- iter_testloader ;;
  b <- lift (dataiter_next dataiter) ;;
  img <- lift (first_image (fst b)) ;;
  infer_image img.

(** The shapes [Classifier.__init__] gives the layers. *)
Definition linear_shape (n_in n_out : nat) (l : Linear) : bool :=
  Nat.eqb (in_features l) n_in && Nat.eqb (out_features l) n_out
  && Nat.eqb (length (weight l)) n_out
  && forallb (fun w => Nat.eqb (length w) n_in) (weight l)
  && Nat.eqb (length (bias l)) n_out.

Definition classifier_shape (c : Classifier) : bool :=
  linear_shape 784 256 (fc1 c) && linear_shape 256 128 (fc2 c)
  && linear_shape 128 64 (fc3 c) && linear_shape 64 10 (fc4 c).

(** Every row of [x] has [n] elements. *)
Definition rows_of (n : nat) (x : tensor) : Prop :=
  forall row, In row x -> length row = n.

(** A non-empty batch whose samples have 784 elements each. *)
Definition input_shape (x : input) : bool :=
  negb (Nat.eqb (shape0 x) 0)
  && match x with
     | Batch4 images =>
         forallb (fun img => Nat.eqb (length (concat (concat img))) 784) images
     | Batch2 rows => forallb (fun r => Nat.eqb (length r) 784) rows
     end.

End Net.

End Model.

(* ================================================================== *)
(** * The accuracy aggregation on its own                              *)
(* ================================================================== *)

Module Metrics.

Local Open Scope py_scope.

(** A validation batch as the accuracy lines see it: the predicted
    classes and the labels. *)
Definition scored_batch : Type := (list Z * list Z)%type.

(** [accuracy = 0] and then [accuracy += torch.mean(...)] per batch. *)
Fixpoint accumulate (accuracy : pyval) (bs : list scored_batch)
  : outcome pyval :=
  match bs with
  | [] => Ok accuracy
  | b :: rest =>
      a <~ accuracy_of_classes (fst b) (snd b) ;;
      accumulate (py_add accuracy (PyTensor a)) rest
  end.

(** [accuracy/len(testloader)] after the pass. *)
Definition epoch_accuracy (bs : list scored_batch) : outcome pyval :=
  accuracy <~ accumulate (PyInt 0) bs ;;
  py_truediv accuracy (length bs).

(** The samples of a batch whose predicted class is the label. *)
Definition count_correct (top_class labels : list Z) : nat :=
  length (filter (fun p => Z.eqb (fst p) (snd p)) (combine top_class labels)).

Definition total_correct (bs : list scored_batch) : nat :=
  fold_right (fun b n => (count_correct (fst b) (snd b) + n)%nat) 0%nat bs.

Definition total_samples (bs : list scored_batch) : nat :=
  fold_right (fun b n => (length (snd b) + n)%nat) 0%nat bs.

(** Correct samples over all samples of the split. *)
Definition overall_fraction (bs : list scored_batch) : Q :=
  inject_Z (Z.of_nat (total_correct bs))
  / inject_Z (Z.of_nat (total_samples bs)).

(** The sum over the batches of correct samples over batch size. *)
Definition sum_of_means (bs : list scored_batch) : Q :=
  fold_right (fun b q => inject_Z (Z.of_nat (count_correct (fst b) (snd b)))
                         / inject_Z (Z.of_nat (length (fst b))) + q)
             0 bs.

(** [bs] has the batch sizes [sizes]. *)
Definition has_sizes (bs : list scored_batch) (sizes : list nat) : Prop :=
  Forall2 (fun b n => length (fst b) = n /\ length (snd b) = n) bs sizes.

(** The value [v] is the tensor holding the rational [q]. *)
Definition is_tensor_of (v : outcome pyval) (q : Q) : Prop :=
  exists x, v = Ok (PyTensor x) /\ fl_eq x (Fin q).

(** [c] indexes a greatest element of [row]. *)
Definition is_argmax (row : list fval) (c : Z) : Prop :=
  (0 <= c < Z.of_nat (length row))%Z
  /\ forall x, In x row -> fl_leb x (nth (Z.to_nat c) row NaN) = true.

(** The log-probability each sample gives its true class. *)
Definition true_class_log_ps (log_ps : tensor2) (labels : list Z)
  : list fval :=
  map (fun p => nth (Z.to_nat (snd p)) (fst p) NaN) (combine log_ps labels).

Definition in_range (C : nat) (t : Z) : Prop := (0 <= t < Z.of_nat C)%Z.

End Metrics.

(* ================================================================== *)
(** * Float arithmetic with special values and overflow                *)
(* ================================================================== *)

Module Ieee.

Local Open Scope R_scope.

(** A tensor element as the layers see it: a finite number, one of the
    two infinities, or NaN.  A finite result is not rounded, and it
    overflows to an infinity beyond the largest float32.  Zero carries
    no sign and nothing underflows. *)
Inductive xreal : Type :=
| XFin (r : R)
| XPInf
| XNInf
| XNaN.

(** The largest finite float32, [(2 - 2^-23) * 2^127]. *)
Definition fmax : R := IZR (2 ^ 128 - 2 ^ 104).

Definition overflow (r : R) : xreal :=
  if Rlt_dec fmax r then XPInf
  else if Rlt_dec r (- fmax) then XNInf
  else XFin r.

Definition x_neg (a : xreal) : xreal :=
  match a with
  | XFin r => XFin (- r)
  | XPInf => XNInf
  | XNInf => XPInf
  | XNaN => XNaN
  end.

Definition x_add (a b : xreal) : xreal :=
  match a, b with
  | XNaN, _ | _, XNaN => XNaN
  | XFin x, XFin y => overflow (x + y)
  | XPInf, XNInf | XNInf, XPInf => XNaN
  | XPInf, _ | _, XPInf => XPInf
  | XNInf, _ | _, XNInf => XNInf
  end.

Definition x_sub (a b : xreal) : xreal := x_add a (x_neg b).

(** An infinity times zero is NaN. *)
Definition x_mul (a b : xreal) : xreal :=
  match a, b with
  | XNaN, _ | _, XNaN => XNaN
  | XFin x, XFin y => overflow (x * y)
  | XFin x, XPInf | XPInf, XFin x =>
      if Req_dec_T x 0 then XNaN else if Rlt_dec 0 x then XPInf else XNInf
  | XFin x, XNInf | XNInf, XFin x =>
      if Req_dec_T x 0 then XNaN else if Rlt_dec 0 x then XNInf else XPInf
  | XPInf, XPInf | XNInf, XNInf => XPInf
  | XPInf, XNInf | XNInf, XPInf => XNInf
  end.

(** Zero over zero and an infinity over an infinity are NaN. *)
Definition x_div (a b : xreal) : xreal :=
  match a, b with
  | XNaN, _ | _, XNaN => XNaN
  | XFin x, XFin y =>
      if Req_dec_T y 0
      then if Req_dec_T x 0 then XNaN
           else if Rlt_dec 0 x then XPInf else XNInf
      else overflow (x / y)
  | XFin _, XPInf | XFin _, XNInf => XFin 0
  | XPInf, XFin y => if Rlt_dec y 0 then XNInf else XPInf
  | XNInf, XFin y => if Rlt_dec y 0 then XPInf else XNInf
  | _, _ => XNaN
  end.

(** The maximum as [F.relu] takes it: NaN goes through. *)
Definition x_max (a b : xreal) : xreal :=
  match a, b with
  | XNaN, _ | _, XNaN => XNaN
  | XPInf, _ | _, XPInf => XPInf
  | XNInf, v | v, XNInf => v
  | XFin x, XFin y => if Rle_dec x y then XFin y else XFin x
  end.

Definition x_exp (a : xreal) : xreal :=
  match a with
  | XFin r => overflow (exp r)
  | XPInf => XPInf
  | XNInf => XFin 0
  | XNaN => XNaN
  end.

Definition x_log (a : xreal) : xreal :=
  match a with
  | XFin r =>
      if Rlt_dec 0 r then XFin (ln r)
      else if Req_dec_T r 0 then XNInf else XNaN
  | XPInf => XPInf
  | XNInf => XNaN
  | XNaN => XNaN
  end.

#[export] Instance Scalar_X : Scalar xreal := {|
  s_of_Q := fun q => XFin (Q2R q);
  s_add := x_add;
  s_sub := x_sub;
  s_mul := x_mul;
  s_div := x_div;
  s_max := x_max;
  s_exp := x_exp;
  s_log := x_log
|}.

(** The sum of a row of numbers. *)
Definition Rsum (row : list R) : R := fold_right Rplus 0 row.

(** A probability distribution as the spec checks it: non-negative
    elements that sum to 1 within 1e-5. *)
Definition is_distribution (ps : list xreal) : Prop :=
  exists rs,
    ps = map XFin rs
    /\ (forall p, In p rs -> 0 <= p)
    /\ Rabs (Rsum rs - 1) <= 1 / 100000.

(** A layer of the given shape with every weight and bias zero. *)
Definition zero_linear (n_in n_out : nat) : Model.Linear (S := xreal) :=
  Model.mkLinear n_in n_out (repeat (repeat (XFin 0) n_in) n_out)
                 (repeat (XFin 0) n_out).

Definition zero_classifier : Model.Classifier (S := xreal) :=
  Model.mkClassifier (zero_linear 784 256) (zero_linear 256 128)
                     (zero_linear 128 64) (zero_linear 64 10).

(** The same layers, with NaN for the ten biases of the last one. *)
Definition nan_classifier : Model.Classifier (S := xreal) :=
  Model.mkClassifier (zero_linear 784 256) (zero_linear 256 128)
                     (zero_linear 128 64)
                     (Model.mkLinear 64 10 (repeat (repeat (XFin 0) 64) 10)
                                     (repeat XNaN 10)).

(** One blank 1 x 28 x 28 image. *)
Definition blank_image : list (list (list xreal)) :=
  [repeat (repeat (XFin 0) 28) 28].

Definition blank_batch : Model.input (S := xreal) :=
  Model.Batch4 [blank_image].

End Ieee.

(* ================================================================== *)
(** * A synthetic split with tabulated model outputs                   *)
(* ================================================================== *)

(** Section 5 asks for a controlled, synthetic data set to test the
    driver on.  Here the model is a table: the "images" of a batch are
    the log-probabilities the model returns for it, and the framework
    state counts the optimizer steps. *)
Module Synthetic.

Local Open Scope Q_scope.

Definition Net : Type := nat.
Definition Images : Type := tensor2.

Definition forward (grad training : bool) (images : Images) (n : Net)
  : outcome tensor2 * Net := (Ok images, n).

(** A rational stand-in for [exp]: positive, strictly increasing, exact
    at 0 and at minus infinity. *)
Definition exp_standin (x : fval) : fval :=
  match x with
  | Fin q => if Qle_bool q 0 then Fin (1 / (1 - q)) else Fin (1 + q)
  | PInf => PInf
  | NInf => Fin 0
  | NaN => NaN
  end.

Definition torch_exp (x : tensor2) : tensor2 := map (map exp_standin) x.

Definition zero_grad (n : Net) : Net := n.
Definition backward (n : Net) : Net := n.
Definition optimizer_step (n : Net) : Net := S n.

Definition batch : Type := Driver.batch Images.

(** Two training batches of one sample each, with losses 0.4 and 0.6. *)
Definition trainloader : list batch :=
  [ ([[Fin (-(4 # 10)); Fin (-(11 # 10))]], [0%Z]);
    ([[Fin (-(8 # 10)); Fin (-(6 # 10))]], [1%Z]) ].

(** One validation batch of two samples, one of them classified right. *)
Definition testloader : list batch :=
  [ ([[Fin (-(2 # 10)); Fin (-(17 # 10))];
      [Fin (-(3 # 10)); Fin (-(13 # 10))]], [0%Z; 1%Z]) ].

(** Two validation batches of two samples and of one, as a loader leaves
    them when the last batch is incomplete: every sample classified
    right, and the last sample classified wrong. *)
Definition testloader_uneven_right : list batch :=
  [ ([[Fin (-(2 # 10)); Fin (-(17 # 10))];
      [Fin (-(13 # 10)); Fin (-(3 # 10))]], [0%Z; 1%Z]);
    ([[Fin (-(2 # 10)); Fin (-(17 # 10))]], [0%Z]) ].

Definition testloader_uneven_mixed : list batch :=
  [ ([[Fin (-(2 # 10)); Fin (-(17 # 10))];
      [Fin (-(13 # 10)); Fin (-(3 # 10))]], [0%Z; 1%Z]);
    ([[Fin (-(2 # 10)); Fin (-(17 # 10))]], [1%Z]) ].

(** A validation batch over ten classes whose label is 10. *)
Definition bad_testloader : list batch :=
  [ ([repeat (Fin (-(23 # 10))) 10], [10%Z]) ].

Definition per_batch_losses (train : list batch)
  : M (Driver.state Net) (list fval) :=
  Driver.per_batch_losses forward zero_grad backward optimizer_step train.

Definition epoch (switch_mode : bool) (epochs : nat)
           (train test : list batch) (e : nat)
  : M (Driver.state Net) unit :=
  Driver.epoch forward torch_exp zero_grad backward optimizer_step
               switch_mode epochs train test e.

(** The loaders of the synthetic split yield the same batches in every
    pass. *)
Definition cell13 (train test : list batch) (n : Net)
  : outcome unit * Driver.state Net :=
  Driver.cell13 forward torch_exp zero_grad backward optimizer_step
                (fun _ => train) (fun _ => test) n.

Definition cell17 (train test : list batch) (n : Net)
  : outcome unit * Driver.state Net :=
  Driver.cell17 forward torch_exp zero_grad backward optimizer_step
                (fun _ => train) (fun _ => test) n.

End Synthetic.

(* ================================================================== *)
(** * Notions for the further properties of the cells                  *)
(* ================================================================== *)

Module Obs.

Local Open Scope Q_scope.

(** The two kinds of entries the histories hold. *)
Definition is_pyfloat (v : pyval) : bool :=
  match v with PyFloat _ => true | _ => false end.

Definition is_pytensor (v : pyval) : bool :=
  match v with PyTensor _ => true | _ => false end.

(** A finite value between 0 and [hi]. *)
Definition between_0_and (hi : Q) (x : fval) : Prop :=
  exists q, x = Fin q /\ 0 <= q <= hi.

(** The session in which the validation loop starts, [s] being the
    session the training loop left: grad off, and eval mode in cell 17. *)
Definition validation_start {Net : Type} (switch_mode : bool)
           (s : Driver.state Net) : Driver.state Net :=
  let s2 := Driver.set_grad_enabled false s in
  if switch_mode then Driver.set_training false s2 else s2.

(** A forward pass that only answers when the grad flag and the training
    flag agree, and one that only answers in training mode. *)
Definition matched_flags {Net Images : Type}
           (forward : bool -> bool -> Images -> Net -> outcome tensor2 * Net)
  : bool -> bool -> Images -> Net -> outcome tensor2 * Net :=
  fun grad training images n =>
    if Bool.eqb grad training then forward grad training images n
    else (Raise RuntimeError, n).

Definition training_only {Net Images : Type}
           (forward : bool -> bool -> Images -> Net -> outcome tensor2 * Net)
  : bool -> bool -> Images -> Net -> outcome tensor2 * Net :=
  fun grad training images n =>
    if training then forward grad training images n
    else (Raise RuntimeError, n).

End Obs.

(* ================================================================== *)
(** * Facts about the numbers                                          *)
(* ================================================================== *)

Import Metrics.

Lemma fl_eq_refl (a : fval) : fl_eq a a.
Proof. destruct a; simpl; auto with qarith. Qed.

Lemma fl_eq_sym (a b : fval) : fl_eq a b -> fl_eq b a.
Proof. destruct a, b; simpl; auto with qarith. Qed.

Lemma fl_eq_trans (a b c : fval) : fl_eq a b -> fl_eq b c -> fl_eq a c.
Proof.
  destruct a, b, c; simpl; try tauto.
  intros H1 H2. now rewrite H1.
Qed.

#[export] Instance fl_eq_Equivalence : Equivalence fl_eq.
Proof.
  split; [exact fl_eq_refl | exact fl_eq_sym | exact fl_eq_trans].
Qed.

#[export] Instance fl_add_Proper : Proper (fl_eq ==> fl_eq ==> fl_eq) fl_add.
Proof.
  intros a a' Ha b b' Hb.
  destruct a, a'; simpl in Ha; try contradiction;
    destruct b, b'; simpl in Hb; try contradiction; simpl; auto.
  now rewrite Ha, Hb.
Qed.

#[export] Instance fl_neg_Proper : Proper (fl_eq ==> fl_eq) fl_neg.
Proof.
  intros a a' Ha.
  destruct a, a'; simpl in Ha; try contradiction; simpl; auto.
  now rewrite Ha.
Qed.

Lemma fl_div_count_Proper (n : nat) :
  Proper (fl_eq ==> fl_eq) (fun a => fl_div_count a n).
Proof.
  intros a a' Ha.
  destruct a, a'; simpl in Ha; try contradiction; destruct n; simpl; auto.
  - rewrite Ha. destruct (q0 ?= 0)%Q; simpl; auto.
  - now rewrite Ha.
Qed.

Lemma fl_neg_add (a b : fval) :
  fl_eq (fl_neg (fl_add a b)) (fl_add (fl_neg a) (fl_neg b)).
Proof.
  destruct a, b; simpl; auto. ring.
Qed.

Lemma fl_neg_div_count (a : fval) (n : nat) :
  fl_eq (fl_neg (fl_div_count a n)) (fl_div_count (fl_neg a) n).
Proof.
  destruct a, n; simpl; auto.
  - destruct (Qcompare_spec q 0) as [E | L | G];
      destruct (Qcompare_spec (- q) 0) as [E' | L' | G']; simpl; auto; lra.
  - field. now destruct n.
Qed.

Lemma fold_fl_add_Proper (xs : list fval) (a a' : fval) :
  fl_eq a a' -> fl_eq (fold_left fl_add xs a) (fold_left fl_add xs a').
Proof.
  revert a a'. induction xs as [| x xs IH]; intros a a' Ha; simpl; auto.
  apply IH. now rewrite Ha.
Qed.

(** A sum of finite values is the finite sum. *)
Lemma fold_fl_add_Fin (qs : list Q) (q : Q) :
  fold_left fl_add (map Fin qs) (Fin q) = Fin (fold_left Qplus qs q).
Proof.
  revert q. induction qs as [| x qs IH]; intros q; simpl; auto.
Qed.

Lemma fl_leb_refl (a : fval) : fl_leb a a = true.
Proof.
  destruct a; simpl; auto. apply Qle_bool_iff. apply Qle_refl.
Qed.

Lemma fl_leb_trans (a b c : fval) :
  fl_leb a b = true -> fl_leb b c = true -> fl_leb a c = true.
Proof.
  destruct a, b, c; simpl; auto; try discriminate.
  rewrite !Qle_bool_iff. apply Qle_trans.
Qed.

Lemma fl_leb_total (a b : fval) : fl_leb a b = false -> fl_leb b a = true.
Proof.
  destruct a, b; simpl; auto; try discriminate.
  intros Hf. apply Qle_bool_iff.
  destruct (Qlt_le_dec q0 q) as [Hlt | Hle].
  - now apply Qlt_le_weak.
  - apply Qle_bool_iff in Hle. congruence.
Qed.

(* ================================================================== *)
(** * Facts about the accuracy lines                                   *)
(* ================================================================== *)

Lemma argmax_from_spec (d : fval) (rest : list fval) :
  forall (pre : list fval) (best_i : nat) (best : fval),
    (best_i < length pre)%nat ->
    nth best_i pre d = best ->
    (forall x, In x pre -> fl_leb x best = true) ->
    let c := argmax_from best_i best (length pre) rest in
    (c < length (pre ++ rest))%nat
    /\ forall x, In x (pre ++ rest) -> fl_leb x (nth c (pre ++ rest) d) = true.
Proof.
  induction rest as [| x rest IH]; intros pre best_i best Hlt Hnth Hmax; simpl.
  - rewrite app_nil_r. split; [exact Hlt |]. now rewrite Hnth.
  - assert (Hlen : S (length pre) = length (pre ++ [x]))
      by (rewrite length_app; simpl; lia).
    replace (pre ++ x :: rest) with ((pre ++ [x]) ++ rest)
      by (now rewrite <- app_assoc).
    rewrite Hlen.
    destruct (fl_leb x best) eqn:Hx.
    + apply IH.
      * rewrite <- Hlen. lia.
      * now rewrite app_nth1.
      * intros y Hy. apply in_app_or in Hy as [Hy | [Hy | []]]; subst; auto.
    + apply IH.
      * rewrite <- Hlen. lia.
      * apply nth_middle.
      * intros y Hy. apply in_app_or in Hy as [Hy | [Hy | []]]; subst.
        -- apply fl_leb_trans with (nth best_i pre d); auto.
           now apply fl_leb_total.
        -- apply fl_leb_refl.
Qed.

Lemma topk1_row_spec (row : list fval) :
  row <> [] -> exists c, topk1_row row = Ok c /\ is_argmax row c.
Proof.
  destruct row as [| x rest]; [congruence | intros _].
  simpl. eexists; split; [reflexivity |].
  destruct (@argmax_from_spec NaN rest [x] 0%nat x) as [Hlt Hmax];
    simpl; auto.
  - intros y [<- | []]. apply fl_leb_refl.
  - simpl in Hlt, Hmax. unfold is_argmax. rewrite Nat2Z.id. split.
    + simpl length. lia.
    + exact Hmax.
Qed.

Lemma topk1_spec (ps : tensor2) :
  (forall row, In row ps -> row <> []) ->
  exists top_class, topk1 ps = Ok top_class /\ Forall2 is_argmax ps top_class.
Proof.
  induction ps as [| row rows IH]; intros Hne; simpl.
  - exists []. split; auto.
  - destruct (@topk1_row_spec row) as [c [Hc Harg]]; [apply Hne; now left |].
    destruct IH as [cs [Hcs Hall]]; [intros r Hr; apply Hne; now right |].
    rewrite Hc, Hcs. simpl. exists (c :: cs). split; auto.
Qed.

Lemma Forall2_length_eq {A B} (R : A -> B -> Prop) (xs : list A) (ys : list B) :
  Forall2 R xs ys -> length xs = length ys.
Proof. induction 1; simpl; congruence. Qed.

(** The sum of the 0/1 tensor counts the [true]s. *)
Lemma sum_to_float (bs : list bool) (q : Q) :
  exists q', fold_left fl_add (to_float bs) (Fin q) = Fin q'
             /\ (q' == q + inject_Z (Z.of_nat (length (filter (fun b => b) bs))))%Q.
Proof.
  revert q. induction bs as [| b bs IH]; intros q; simpl.
  - exists q. split; auto. simpl. ring.
  - destruct b; simpl.
    + destruct (IH (q + 1)%Q) as [q' [E Hq]]. exists q'. split; auto.
      rewrite Hq. rewrite Zpos_P_of_succ_nat, <- Z.add_1_r, inject_Z_plus.
      simpl. ring.
    + destruct (IH (q + 0)%Q) as [q' [E Hq]]. exists q'. split; auto.
      rewrite Hq. ring.
Qed.

Lemma filter_map_eqb (pairs : list (Z * Z)) :
  length (filter (fun b : bool => b)
                 (map (fun p => Z.eqb (fst p) (snd p)) pairs))
  = length (filter (fun p => Z.eqb (fst p) (snd p)) pairs).
Proof.
  induction pairs as [| p pairs IH]; simpl; auto.
  destruct (Z.eqb (fst p) (snd p)); simpl; congruence.
Qed.

(** The accuracy of a batch whose predicted classes are given. *)
Lemma accuracy_of_classes_spec (top_class labels : list Z) :
  length labels = length top_class -> top_class <> [] ->
  exists a, accuracy_of_classes top_class labels = Ok a
            /\ fl_eq a (Fin (inject_Z (Z.of_nat (count_correct top_class labels))
                             / inject_Z (Z.of_nat (length top_class)))).
Proof.
  intros Hlen Hne. unfold accuracy_of_classes, equals, view_as.
  rewrite Hlen, Nat.eqb_refl. simpl.
  eexists; split; [reflexivity |].
  unfold mean, fl_sum.
  destruct (sum_to_float
              (map (fun p => Z.eqb (fst p) (snd p)) (combine top_class labels)) 0)
    as [q' [E Hq]].
  rewrite E. unfold to_float. rewrite !length_map, length_combine, Hlen, Nat.min_id.
  destruct (length top_class) as [| n] eqn:Hn.
  - destruct top_class; [congruence | discriminate].
  - simpl fl_div_count. simpl fl_eq. rewrite Hq, filter_map_eqb.
    unfold count_correct. field.
    intro Hz. apply (inject_Z_injective (Z.of_nat (S n)) 0) in Hz. lia.
Qed.


(** C4.  For a batch of probability rows [ps] (no row empty) and as many
    labels, the per-batch accuracy the cells compute is defined, and it
    is the number of samples whose arg-max class [top_class] equals the
    label, over the number of samples.  For the predicted classes
    [9,9,0,0] and the labels [9,0,0,0] it is 3/4 = 0.75. *)
Theorem batch_accuracy_is_fraction_correct :
  (forall (ps : tensor2) (labels : list Z),
      ps <> [] -> (forall row, In row ps -> row <> []) ->
      length labels = length ps ->
      exists top_class a,
        Forall2 is_argmax ps top_class
        /\ batch_accuracy ps labels = Ok a
        /\ fl_eq a (Fin (inject_Z (Z.of_nat (count_correct top_class labels))
                         / inject_Z (Z.of_nat (length ps)))))
  /\ (exists q, accuracy_of_classes [9; 9; 0; 0]%Z [9; 0; 0; 0]%Z = Ok (Fin q)
                /\ (q == 75 # 100)%Q).
Proof.
  split.
  - intros ps labels Hne Hrows Hlen.
    destruct (topk1_spec ps Hrows) as [top_class [Htop Harg]].
    pose proof (Forall2_length_eq Harg) as Hl.
    destruct (@accuracy_of_classes_spec top_class labels) as [a [Ha Hq]].
    + congruence.
    + destruct top_class; [destruct ps; [congruence | discriminate] | congruence].
    + exists top_class, a. split; [exact Harg |]. split.
      * unfold batch_accuracy. rewrite Htop. exact Ha.
      * now rewrite Hl.
  - exists (3 # 4)%Q. split; reflexivity.
Qed.

Lemma batch_accuracy_is_fraction_correct_witness :
  exists top_class a,
    Forall2 is_argmax [[Fin (1 # 10); Fin (9 # 10)]; [Fin (7 # 10); Fin (3 # 10)]]
            top_class
    /\ batch_accuracy [[Fin (1 # 10); Fin (9 # 10)]; [Fin (7 # 10); Fin (3 # 10)]]
                      [1; 1]%Z = Ok a
    /\ fl_eq a (Fin (inject_Z (Z.of_nat (count_correct top_class [1; 1]%Z))
                     / inject_Z (Z.of_nat 2))).
Proof.
  apply (proj1 batch_accuracy_is_fraction_correct
               [[Fin (1 # 10); Fin (9 # 10)]; [Fin (7 # 10); Fin (3 # 10)]]
               [1; 1]%Z).
  - discriminate.
  - intros row [<- | [<- | []]]; discriminate.
  - reflexivity.
Defined.

(* ================================================================== *)
(** * Facts about the loss                                             *)
(* ================================================================== *)

Lemma pick_in_range (C : nat) (row : list fval) (t : Z) :
  length row = C -> in_range C t -> pick row t = Ok (nth (Z.to_nat t) row NaN).
Proof.
  intros Hlen [H0 HC]. unfold pick.
  destruct (Z.ltb_spec t 0); [lia |].
  rewrite (@nth_error_nth' _ row (Z.to_nat t) NaN); [reflexivity | lia].
Qed.

Lemma pick_out_of_range (C : nat) (row : list fval) (t : Z) :
  length row = C -> ~ in_range C t -> pick row t = Raise IndexError.
Proof.
  intros Hlen Hout. unfold pick, in_range in *.
  destruct (Z.ltb_spec t 0); [reflexivity |].
  destruct (nth_error row (Z.to_nat t)) eqn:E; [| reflexivity].
  assert (Hsome : nth_error row (Z.to_nat t) <> None) by congruence.
  apply nth_error_Some in Hsome. lia.
Qed.

Lemma pick_cases (row : list fval) (t : Z) :
  (exists v, pick row t = Ok v) \/ pick row t = Raise IndexError.
Proof.
  unfold pick. destruct (t <? 0)%Z; [now right |].
  destruct (nth_error row (Z.to_nat t)); [left; eauto | now right].
Qed.

Lemma nll_sum_in_range (C : nat) (log_ps : tensor2) :
  forall (labels : list Z) (acc : fval),
    (forall row, In row log_ps -> length row = C) ->
    length log_ps = length labels ->
    Forall (in_range C) labels ->
    nll_sum log_ps labels acc
    = Ok (fold_left (fun a v => fl_add a (fl_neg v))
                    (true_class_log_ps log_ps labels) acc).
Proof.
  induction log_ps as [| row rows IH]; intros [| t ts] acc Hrows Hlen Hin;
    simpl in *; try discriminate; auto.
  inversion Hin; subst.
  rewrite (@pick_in_range C); auto. simpl.
  apply IH; auto.
Qed.

Lemma nll_sum_out_of_range (C : nat) (log_ps : tensor2) :
  forall (labels : list Z) (acc : fval),
    (forall row, In row log_ps -> length row = C) ->
    length log_ps = length labels ->
    Exists (fun t => ~ in_range C t) labels ->
    nll_sum log_ps labels acc = Raise IndexError.
Proof.
  induction log_ps as [| row rows IH]; intros [| t ts] acc Hrows Hlen Hex;
    simpl in *; try discriminate.
  - inversion Hex.
  - inversion Hex; subst.
    + rewrite (@pick_out_of_range C); auto.
    + destruct (pick_cases row t) as [[v Hv] | Hr]; rewrite ?Hv, ?Hr; simpl; auto.
Qed.

Lemma fold_neg_sum (vs : list fval) :
  forall a b, fl_eq a (fl_neg b) ->
    fl_eq (fold_left (fun a v => fl_add a (fl_neg v)) vs a)
          (fl_neg (fold_left fl_add vs b)).
Proof.
  induction vs as [| v vs IH]; intros a b Hab; simpl; auto.
  apply IH. rewrite Hab. symmetry. apply fl_neg_add.
Qed.

(** C8.  On log-probabilities with [C] columns and as many labels as
    rows: when every label is in [0, C) the loss is the negated mean of
    the log-probabilities the samples give their true classes; when some
    label is outside [0, C) the computation fails with an index error. *)
Theorem nll_loss_contract (C : nat) (log_ps : tensor2) (labels : list Z) :
  (forall row, In row log_ps -> length row = C) ->
  length log_ps = length labels ->
  (Forall (in_range C) labels ->
   exists v, nll_loss log_ps labels = Ok v
             /\ fl_eq v (fl_neg (mean (true_class_log_ps log_ps labels))))
  /\ (Exists (fun t => ~ in_range C t) labels ->
      nll_loss log_ps labels = Raise IndexError).
Proof.
  intros Hrows Hlen. unfold nll_loss. rewrite Hlen, Nat.eqb_refl. split.
  - intros Hin. rewrite (@nll_sum_in_range C); auto. simpl.
    eexists; split; [reflexivity |].
    unfold mean, fl_sum, true_class_log_ps.
    rewrite length_map, length_combine, Hlen, Nat.min_id.
    rewrite fl_neg_div_count. apply fl_div_count_Proper.
    apply fold_neg_sum. simpl. ring.
  - intros Hex. rewrite (@nll_sum_out_of_range C); auto.
Qed.

Lemma nll_loss_contract_witness :
  exists v, nll_loss [[Fin (-(2 # 10)); Fin (-(17 # 10))];
                      [Fin (-(3 # 10)); Fin (-(13 # 10))]] [0; 1]%Z = Ok v
            /\ fl_eq v (fl_neg (mean (true_class_log_ps
                                        [[Fin (-(2 # 10)); Fin (-(17 # 10))];
                                         [Fin (-(3 # 10)); Fin (-(13 # 10))]]
                                        [0; 1]%Z))).
Proof.
  refine (proj1 (@nll_loss_contract 2 _ _ _ _) _).
  - intros row [<- | [<- | []]]; reflexivity.
  - reflexivity.
  - repeat constructor; unfold in_range; simpl; lia.
Defined.

(** A label equal to the number of classes is out of bounds. *)
Example nll_loss_label_10 :
  nll_loss [repeat (Fin (-(23 # 10))) 10] [10%Z] = Raise IndexError.
Proof. reflexivity. Qed.

(* ================================================================== *)
(** * Facts about the driver                                           *)
(* ================================================================== *)

Section DriverFacts.

Import Driver.

Variable Net : Type.
Variable Images : Type.
Variable forward : bool -> bool -> Images -> Net -> outcome tensor2 * Net.
Variable torch_exp : tensor2 -> tensor2.
Variables zero_grad backward optimizer_step : Net -> Net.

#[local] Abbreviation state := (Driver.state Net).
#[local] Abbreviation batch := (Driver.batch Images).
#[local] Abbreviation train_step :=
  (Driver.train_step forward zero_grad backward optimizer_step).
#[local] Abbreviation train_batch :=
  (Driver.train_batch forward zero_grad backward optimizer_step).
#[local] Abbreviation per_batch_losses :=
  (Driver.per_batch_losses forward zero_grad backward optimizer_step).
#[local] Abbreviation validation_step := (Driver.validation_step forward torch_exp).
#[local] Abbreviation validation_batch := (Driver.validation_batch forward torch_exp).
#[local] Abbreviation per_batch_metrics := (Driver.per_batch_metrics forward torch_exp).
#[local] Abbreviation epoch :=
  (Driver.epoch forward torch_exp zero_grad backward optimizer_step).
#[local] Abbreviation run_epochs :=
  (Driver.run_epochs forward torch_exp zero_grad backward optimizer_step).
#[local] Abbreviation cell17 :=
  (Driver.cell17 forward torch_exp zero_grad backward optimizer_step).

(** Case analysis on every division of the averaging step. *)
Ltac case_truediv :=
  repeat match goal with
         | |- context [py_truediv ?a ?n] => destruct (py_truediv a n)
         end.

Lemma same_globals_refl (s : state) : same_globals s s.
Proof. unfold same_globals; auto. Qed.

Lemma same_globals_trans (s1 s2 s3 : state) :
  same_globals s1 s2 -> same_globals s2 s3 -> same_globals s1 s3.
Proof. unfold same_globals; intuition congruence. Qed.

Lemma call_model_frame images (s : state) :
  same_globals s (snd (call_model forward images s)).
Proof.
  unfold call_model. destruct (forward _ _ _ _); simpl.
  unfold same_globals; simpl; auto.
Qed.

Lemma train_step_frame (b : batch) (s : state) :
  same_globals s (snd (train_step b s)).
Proof.
  unfold Driver.train_step, bind, on_net, modify, lift, ret, call_model.
  simpl. destruct (forward _ _ _ _) as [[log_ps | e] n']; simpl.
  - destruct (nll_loss log_ps (snd b)); simpl; unfold same_globals; simpl; auto.
  - unfold same_globals; simpl; auto.
Qed.

Lemma validation_step_frame (b : batch) (s : state) :
  same_globals s (snd (validation_step b s)).
Proof.
  unfold Driver.validation_step, bind, lift, ret, call_model.
  destruct (forward _ _ _ _) as [[log_ps | e] n']; simpl.
  - destruct (nll_loss log_ps (snd b)); simpl.
    + destruct (batch_accuracy _ _); simpl; unfold same_globals; simpl; auto.
    + unfold same_globals; simpl; auto.
  - unfold same_globals; simpl; auto.
Qed.

(** The training loop is the sum of the per-batch losses. *)
Lemma train_loop_spec (trainloader : list batch) :
  forall (acc : pyval) (s : state),
    for_each train_batch acc trainloader s
    = match per_batch_losses trainloader s with
      | (Ok items, s1) => (Ok (fold_left py_add (map PyFloat items) acc), s1)
      | (Raise e, s1) => (Raise e, s1)
      end.
Proof.
  induction trainloader as [| b rest IH]; intros acc s; simpl; auto.
  unfold bind. unfold Driver.train_batch at 1. unfold bind, ret.
  destruct (train_step b s) as [[item | e] s1]; auto.
  rewrite IH.
  destruct (per_batch_losses rest s1) as [[items | e] s2]; auto.
Qed.

Lemma validation_loop_spec (testloader : list batch) :
  forall (acc : pyval * pyval) (s : state),
    for_each validation_batch acc testloader s
    = match per_batch_metrics testloader s with
      | (Ok rs, s1) =>
          (Ok (fold_left py_add (map (fun r => PyTensor (fst r)) rs) (fst acc),
               fold_left py_add (map (fun r => PyTensor (snd r)) rs) (snd acc)),
           s1)
      | (Raise e, s1) => (Raise e, s1)
      end.
Proof.
  induction testloader as [| b rest IH]; intros acc s; simpl.
  - unfold ret. now destruct acc.
  - unfold bind. unfold Driver.validation_batch at 1. unfold bind, ret.
    destruct (validation_step b s) as [[r | e] s1]; auto.
    rewrite IH.
    destruct (per_batch_metrics rest s1) as [[rs | e] s2]; auto.
Qed.

Lemma per_batch_losses_frame (trainloader : list batch) :
  forall s : state, same_globals s (snd (per_batch_losses trainloader s))
    /\ forall items, fst (per_batch_losses trainloader s) = Ok items ->
                     length items = length trainloader.
Proof.
  induction trainloader as [| b rest IH]; intros s; simpl.
  - split; [apply same_globals_refl |]. intros items H; inversion H; auto.
  - unfold bind. pose proof (train_step_frame b s) as F1.
    destruct (train_step b s) as [[item | e] s1]; simpl in *.
    + destruct (IH s1) as [F2 L2].
      destruct (per_batch_losses rest s1) as [[items | e] s2]; simpl in *.
      * split; [eapply same_globals_trans; eauto |].
        intros its H; inversion H; subst; simpl. f_equal. now apply L2.
      * split; [eapply same_globals_trans; eauto | discriminate].
    + split; [auto | discriminate].
Qed.

Lemma per_batch_metrics_frame (testloader : list batch) :
  forall s : state, same_globals s (snd (per_batch_metrics testloader s))
    /\ forall rs, fst (per_batch_metrics testloader s) = Ok rs ->
                  length rs = length testloader.
Proof.
  induction testloader as [| b rest IH]; intros s; simpl.
  - split; [apply same_globals_refl |]. intros items H; inversion H; auto.
  - unfold bind. pose proof (validation_step_frame b s) as F1.
    destruct (validation_step b s) as [[item | e] s1]; simpl in *.
    + destruct (IH s1) as [F2 L2].
      destruct (per_batch_metrics rest s1) as [[items | e] s2]; simpl in *.
      * split; [eapply same_globals_trans; eauto |].
        intros its H; inversion H; subst; simpl. f_equal. now apply L2.
      * split; [eapply same_globals_trans; eauto | discriminate].
    + split; [auto | discriminate].
Qed.

(** Sums that start from the int 0. *)
Lemma sum_floats (items : list fval) (a : fval) :
  fold_left py_add (map PyFloat items) (PyFloat a)
  = PyFloat (fold_left fl_add items a).
Proof.
  revert a. induction items as [| x xs IH]; intros a; simpl; auto.
Qed.

Lemma sum_tensors (items : list fval) (a : fval) :
  fold_left py_add (map PyTensor items) (PyTensor a)
  = PyTensor (fold_left fl_add items a).
Proof.
  revert a. induction items as [| x xs IH]; intros a; simpl; auto.
Qed.

Lemma sum_floats_from_0 (items : list fval) :
  items <> [] ->
  fold_left py_add (map PyFloat items) (PyInt 0) = PyFloat (fl_sum items).
Proof.
  destruct items as [| x xs]; [congruence | intros _].
  unfold fl_sum. simpl fold_left. apply sum_floats.
Qed.

Lemma sum_tensors_from_0 (items : list fval) :
  items <> [] ->
  fold_left py_add (map PyTensor items) (PyInt 0) = PyTensor (fl_sum items).
Proof.
  destruct items as [| x xs]; [congruence | intros _].
  unfold fl_sum. simpl fold_left. apply sum_tensors.
Qed.


Lemma last_entry_app (xs : list pyval) (x : pyval) :
  last_entry (xs ++ [x]) = Ok x.
Proof.
  unfold last_entry. destruct xs as [| y ys]; simpl; auto.
  now rewrite last_last.
Qed.

(** The averaging and the report, case by case. *)
Lemma epoch_report_cases (epochs e n_train n_test : nat)
      (running_loss test_loss accuracy : pyval) (s : state) :
  epoch_report epochs e n_train n_test running_loss test_loss accuracy s
  = match py_truediv running_loss n_train with
    | Raise ex => (Raise ex, s)
    | Ok x =>
        match py_truediv test_loss n_test with
        | Raise ex => (Raise ex, append_train_losses x s)
        | Ok y =>
            match py_truediv accuracy n_test with
            | Raise ex =>
                (Raise ex, append_test_losses y (append_train_losses x s))
            | Ok a =>
                (Ok tt,
                 mkState (training s) (grad_enabled s) (net s)
                         (train_losses s ++ [x]) (test_losses s ++ [y])
                         (stdout s
                            ++ [Fmt.report_line e epochs x y (py_mul100 a)]))
            end
        end
    end.
Proof.
  unfold epoch_report, bind, lift, modify, gets, print.
  destruct (py_truediv running_loss n_train) as [x | ex]; auto.
  destruct (py_truediv test_loss n_test) as [y | ex]; auto.
  simpl. rewrite !last_entry_app.
  destruct (py_truediv accuracy n_test) as [a | ex]; auto.
Qed.

(** One epoch, case by case, in terms of the per-batch values. *)
Lemma epoch_cases (switch_mode : bool) (epochs : nat)
      (trainloader testloader : list batch) (e : nat) (s : state) :
  epoch switch_mode epochs trainloader testloader e s
  = match per_batch_losses trainloader s with
    | (Raise ex, s1) => (Raise ex, s1)
    | (Ok items, s1) =>
        let s2 := set_grad_enabled false s1 in
        let s2 := if switch_mode then set_training false s2 else s2 in
        match per_batch_metrics testloader s2 with
        | (Raise ex, s3) => (Raise ex, set_grad_enabled (grad_enabled s1) s3)
        | (Ok rs, s3) =>
            match
              epoch_report
                epochs e (length trainloader) (length testloader)
                (fold_left py_add (map PyFloat items) (PyInt 0))
                (fold_left py_add (map (fun r => PyTensor (fst r)) rs) (PyInt 0))
                (fold_left py_add (map (fun r => PyTensor (snd r)) rs) (PyInt 0))
                (set_grad_enabled (grad_enabled s1) s3)
            with
            | (Ok _, s4) =>
                (Ok tt, if switch_mode then set_training true s4 else s4)
            | (Raise ex, s4) => (Raise ex, s4)
            end
        end
    end.
Proof.
  unfold Driver.epoch. unfold bind at 1. rewrite train_loop_spec.
  destruct (per_batch_losses trainloader s) as [[items | ex] s1]; auto.
  unfold bind at 1. unfold with_no_grad.
  destruct switch_mode; unfold bind at 1; unfold model_eval, modify, ret;
    simpl grad_enabled; rewrite validation_loop_spec.
  - destruct (per_batch_metrics testloader _) as [[rs | ex] s3]; auto.
  - destruct (per_batch_metrics testloader _) as [[rs | ex] s3]; auto.
Qed.


Lemma py_truediv_raises (a : pyval) (n : nat) (ex : exn) :
  py_truediv a n = Raise ex -> ex = ZeroDivisionError /\ n = 0%nat.
Proof.
  destruct a, n; simpl; intros H; inversion H; auto.
Qed.

Lemma py_truediv_positive (a : pyval) (n : nat) :
  exists v, py_truediv a (S n) = Ok v.
Proof. destruct a; simpl; eauto. Qed.

Lemma py_truediv_float (v : fval) (n : nat) :
  py_truediv (PyFloat v) (S n) = Ok (PyFloat (fl_div_count v (S n))).
Proof. reflexivity. Qed.

Lemma run_epochs_cons (switch_mode : bool) (epochs : nat)
      (trainloader testloader : loader Images) (e : nat) (es : list nat)
      (s : state) :
  run_epochs switch_mode epochs trainloader testloader (e :: es) s
  = match epoch switch_mode epochs (trainloader e) (testloader e) e s with
    | (Ok _, s1) => run_epochs switch_mode epochs trainloader testloader es s1
    | (Raise ex, s1) => (Raise ex, s1)
    end.
Proof.
  unfold Driver.run_epochs. simpl. unfold bind.
  destruct (epoch switch_mode epochs (trainloader e) (testloader e) e s)
    as [[[] | ex] s1]; auto.
Qed.

(** The mode flag after an epoch of cell 17, by outcome. *)
Lemma epoch_mode_cases (epochs : nat) (trainloader testloader : list batch)
      (e : nat) (s : state) :
  let out := epoch true epochs trainloader testloader e s in
  match fst out with
  | Ok _ => training (snd out) = true
  | Raise ex =>
      for_each train_batch (PyInt 0) trainloader s = (Raise ex, snd out)
      \/ training (snd out) = false
  end.
Proof.
  rewrite epoch_cases, train_loop_spec.
  destruct (per_batch_losses trainloader s) as [[items | ex] s1]; simpl;
    [| now left].
  match goal with
  | |- context [per_batch_metrics testloader ?s2] =>
      destruct (per_batch_metrics_frame testloader s2) as [[Ht _] _];
      destruct (per_batch_metrics testloader s2) as [[rs | ex] s3]
  end; simpl in *; [| now right].
  rewrite epoch_report_cases.
  case_truediv; simpl; auto.
Qed.

(** The mode flag is not touched by an epoch of cell 13. *)
Lemma epoch_mode_cell13 (epochs : nat) (trainloader testloader : list batch)
      (e : nat) (s : state) :
  training (snd (epoch false epochs trainloader testloader e s)) = training s.
Proof.
  rewrite epoch_cases.
  destruct (per_batch_losses_frame trainloader s) as [[Ht _] _].
  destruct (per_batch_losses trainloader s) as [[items | ex] s1]; simpl in *;
    auto.
  match goal with
  | |- context [per_batch_metrics testloader ?s2] =>
      destruct (per_batch_metrics_frame testloader s2) as [[Hv _] _];
      destruct (per_batch_metrics testloader s2) as [[rs | ex] s3]
  end; simpl in *; [| congruence].
  rewrite epoch_report_cases.
  case_truediv; simpl; congruence.
Qed.

(** C1, as the code has it.  Cell 17: when an epoch returns, the model
    is in train mode and the loop goes on to the next epoch from there;
    when it raises, either the training pass raised, or the validation
    pass or the averaging did and the model is left in eval mode, and in
    both cases the loop ends there.  Cell 13 never changes the mode. *)
Theorem mode_after_epoch (epochs : nat) (trainloader testloader : loader Images)
        (e : nat) (es : list nat) (s : state) :
  let out := epoch true epochs (trainloader e) (testloader e) e s in
  match fst out with
  | Ok _ =>
      training (snd out) = true
      /\ run_epochs true epochs trainloader testloader (e :: es) s
         = run_epochs true epochs trainloader testloader es (snd out)
  | Raise ex =>
      (for_each train_batch (PyInt 0) (trainloader e) s = (Raise ex, snd out)
       \/ training (snd out) = false)
      /\ run_epochs true epochs trainloader testloader (e :: es) s
         = (Raise ex, snd out)
  end
  /\ training (snd (epoch false epochs (trainloader e) (testloader e) e s))
     = training s.
Proof.
  split; [| apply epoch_mode_cell13].
  rewrite run_epochs_cons.
  pose proof (epoch_mode_cases epochs (trainloader e) (testloader e) e s) as Hm.
  destruct (epoch true epochs (trainloader e) (testloader e) e s)
    as [[[] | ex] s1]; simpl in *; auto.
Qed.


(** C2, as the code has it.  When a split is empty the epoch never
    returns, nothing is printed and no validation loss is recorded, and
    the exception ends the run.  The exception is the one the training
    pass raises, else the one the validation pass of this epoch raises,
    else the [ZeroDivisionError] of the unguarded division. *)
Theorem empty_split_raises (switch_mode : bool) (epochs : nat)
        (trainloader testloader : list batch) (e : nat) (s : state) :
  trainloader = [] \/ testloader = [] ->
  let out := epoch switch_mode epochs trainloader testloader e s in
  let pl := per_batch_losses trainloader s in
  let pm := per_batch_metrics testloader
                              (Obs.validation_start switch_mode (snd pl)) in
  fst out = match fst pl with
            | Raise ex => Raise ex
            | Ok _ =>
                match fst pm with
                | Raise ex => Raise ex
                | Ok _ => Raise ZeroDivisionError
                end
            end
  /\ stdout (snd out) = stdout s
  /\ test_losses (snd out) = test_losses s
  /\ forall (trainloaders testloaders : loader Images) (es : list nat),
      trainloaders e = trainloader -> testloaders e = testloader ->
      run_epochs switch_mode epochs trainloaders testloaders (e :: es) s = out.
Proof.
  intros Hempty. cbv zeta.
  assert (Hrun : forall ex,
             fst (epoch switch_mode epochs trainloader testloader e s)
             = Raise ex ->
             forall (trainloaders testloaders : loader Images) (es : list nat),
               trainloaders e = trainloader -> testloaders e = testloader ->
               run_epochs switch_mode epochs trainloaders testloaders
                          (e :: es) s
               = epoch switch_mode epochs trainloader testloader e s).
  { intros ex Hex trl tel es <- <-. rewrite run_epochs_cons.
    destruct (epoch switch_mode epochs (trl e) (tel e) e s) as [[[] | ex'] s1];
      [discriminate | reflexivity]. }
  revert Hrun. rewrite epoch_cases. unfold Obs.validation_start.
  destruct (per_batch_losses_frame trainloader s) as [[_ [_ [_ [Ht1 Ht2]]]] Hlen].
  destruct (per_batch_losses trainloader s) as [[items | ex] s1]; simpl in *;
    [| intros Hrun; repeat split; eauto].
  specialize (Hlen items eq_refl).
  match goal with
  | |- context [per_batch_metrics testloader ?s2] =>
      pose proof (per_batch_metrics_frame testloader s2) as [[_ [_ [_ [Hv1 Hv2]]]] Hl];
      assert (Hs2 : stdout s2 = stdout s1 /\ test_losses s2 = test_losses s1)
        by (destruct switch_mode; simpl; auto);
      destruct Hs2 as [Hs21 Hs22];
      destruct (per_batch_metrics testloader s2) as [[rs | ex] s3]
  end; simpl in *.
  2:{ intros Hrun. repeat split; try congruence. eauto. }
  specialize (Hl rs eq_refl).
  rewrite epoch_report_cases.
  destruct Hempty as [-> | ->].
  - destruct items; [| discriminate]. simpl.
    intros Hrun. repeat split; try congruence. eauto.
  - destruct rs; [| discriminate]. simpl.
    destruct (py_truediv _ (length trainloader)) as [x | ex] eqn:Hx; simpl.
    + intros Hrun. repeat split; try congruence. eauto.
    + apply py_truediv_raises in Hx as [-> _].
      intros Hrun. repeat split; try congruence. eauto.
Qed.

(** One more entry in each list and one more line after an epoch. *)
Lemma epoch_history (switch_mode : bool) (epochs : nat)
      (trainloader testloader : list batch) (e : nat) (s s' : state) :
  epoch switch_mode epochs trainloader testloader e s = (Ok tt, s') ->
  exists items s1 y line,
    per_batch_losses trainloader s = (Ok items, s1)
    /\ length items = length trainloader
    /\ train_losses s' = train_losses s ++ [PyFloat (mean items)]
    /\ test_losses s' = test_losses s ++ [y]
    /\ stdout s' = stdout s ++ [line]
    /\ exists vl acc,
        line = Fmt.report_line e epochs (PyFloat (mean items)) vl acc.
Proof.
  rewrite epoch_cases.
  destruct (per_batch_losses_frame trainloader s)
    as [[_ [_ [Ht0 [Ht1 Ht2]]]] Hlen].
  destruct (per_batch_losses trainloader s) as [[items | ex] s1]; simpl in *;
    [| discriminate].
  specialize (Hlen items eq_refl).
  match goal with
  | |- context [per_batch_metrics testloader ?s2] =>
      pose proof (per_batch_metrics_frame testloader s2)
        as [[_ [_ [Hv0 [Hv1 Hv2]]]] _];
      assert (Hs2 : stdout s2 = stdout s1 /\ test_losses s2 = test_losses s1
                    /\ train_losses s2 = train_losses s1)
        by (destruct switch_mode; simpl; auto);
      destruct Hs2 as [Hs21 [Hs22 Hs23]];
      destruct (per_batch_metrics testloader s2) as [[rs | ex] s3]
  end; simpl in *; [| discriminate].
  rewrite epoch_report_cases.
  destruct trainloader as [| b rest].
  { destruct items; [| discriminate]. simpl. discriminate. }
  assert (Hne : items <> []) by (destruct items; [discriminate | congruence]).
  rewrite (@sum_floats_from_0 items Hne). simpl length.
  rewrite py_truediv_float.
  replace (fl_div_count (fl_sum items) (S (length rest))) with (mean items)
    by (unfold mean; now rewrite Hlen).
  destruct (py_truediv _ (length testloader)) as [y | ex]; [| discriminate].
  destruct (py_truediv _ (length testloader)) as [a | ex]; [| discriminate].
  intros H. exists items, s1, y.
  exists (Fmt.report_line e epochs (PyFloat (mean items)) y (py_mul100 a)).
  destruct switch_mode; inversion H; subst s'; clear H;
    cbn [train_losses test_losses stdout set_training set_grad_enabled] in *;
    repeat split; try congruence; eauto.
Qed.


Lemma validation_step_scored (b : batch) (s s1 : state) (r : fval * fval) :
  validation_step b s = (Ok r, s1) ->
  exists log_ps top_class,
    topk1 (torch_exp log_ps) = Ok top_class
    /\ accuracy_of_classes top_class (snd b) = Ok (snd r).
Proof.
  unfold Driver.validation_step, bind, lift, ret, call_model.
  destruct (forward _ _ _ _) as [[log_ps | e] n']; [| discriminate].
  destruct (nll_loss log_ps (snd b)) as [loss | e]; [| discriminate].
  unfold batch_accuracy.
  destruct (topk1 (torch_exp log_ps)) as [top_class | e] eqn:Htop;
    [| discriminate].
  simpl. destruct (accuracy_of_classes top_class (snd b)) as [a | e] eqn:Ha;
    [| discriminate].
  intros H0; inversion H0; subst. exists log_ps, top_class. auto.
Qed.

Lemma run_epochs_app (switch_mode : bool) (epochs : nat)
      (trainloader testloader : loader Images) (es1 es2 : list nat)
      (s : state) :
  run_epochs switch_mode epochs trainloader testloader (es1 ++ es2) s
  = match run_epochs switch_mode epochs trainloader testloader es1 s with
    | (Ok _, s1) =>
        run_epochs switch_mode epochs trainloader testloader es2 s1
    | (Raise ex, s1) => (Raise ex, s1)
    end.
Proof.
  unfold Driver.run_epochs. revert s.
  induction es1 as [| e es1 IH]; intros s; simpl; auto.
  unfold bind.
  destruct (epoch switch_mode epochs (trainloader e) (testloader e) e s)
    as [[[] | ex] s1]; auto.
Qed.

(** A run that returns has added one entry per epoch to each list. *)
Lemma run_epochs_history (switch_mode : bool) (epochs : nat)
      (trainloader testloader : loader Images) (es : list nat) :
  forall s s' : state,
    run_epochs switch_mode epochs trainloader testloader es s = (Ok tt, s') ->
    exists xs ys lines,
      length xs = length es /\ length ys = length es
      /\ length lines = length es
      /\ train_losses s' = train_losses s ++ xs
      /\ test_losses s' = test_losses s ++ ys
      /\ stdout s' = stdout s ++ lines.
Proof.
  unfold Driver.run_epochs.
  induction es as [| e es IH]; intros s s' H; simpl in H.
  - inversion H; subst. exists [], [], []. rewrite !app_nil_r. auto 10.
  - unfold bind in H.
    destruct (epoch switch_mode epochs (trainloader e) (testloader e) e s)
      as [[[] | ex] s1] eqn:He; [| discriminate].
    apply epoch_history in He
      as (items & s0 & y & line & _ & _ & Ht & Hv & Hp & _).
    apply IH in H as (xs & ys & lines & Lx & Ly & Ll & Hx & Hy & Hl).
    exists (PyFloat (mean items) :: xs), (y :: ys), (line :: lines).
    simpl. rewrite Lx, Ly, Ll, Hx, Hy, Hl, Ht, Hv, Hp, <- !app_assoc.
    auto 10.
Qed.

Lemma firstn_length_app {A} (k : nat) (a b : list A) :
  length a = k -> firstn k (a ++ b) = a.
Proof.
  intros <-. rewrite firstn_app, firstn_all, Nat.sub_diag. simpl.
  apply app_nil_r.
Qed.

(** C9.  When the run of cell 17 returns, it has gone through the 30
    epochs: both histories and the output hold 30 entries, and the
    histories after the first [k] epochs are the first [k] entries of the
    final ones, so every epoch appended one entry to each list and left
    the earlier entries as they were. *)
Theorem thirty_epochs_history (trainloader testloader : loader Images)
        (n : Net) (s' : state) :
  cell17 trainloader testloader n = (Ok tt, s') ->
  length (train_losses s') = 30%nat
  /\ length (test_losses s') = 30%nat
  /\ length (stdout s') = 30%nat
  /\ forall k, (k <= 30)%nat ->
       exists s_k,
         run_epochs true Driver.epochs trainloader testloader (seq 0 k)
                    (init_state n) = (Ok tt, s_k)
         /\ train_losses s_k = firstn k (train_losses s')
         /\ test_losses s_k = firstn k (test_losses s').
Proof.
  unfold Driver.cell17. intros H.
  pose proof (run_epochs_history _ _ _ _ _ _ H)
    as (xs & ys & lines & Lx & Ly & Ll & Hx & Hy & Hl).
  rewrite length_seq in Lx, Ly, Ll. simpl in Hx, Hy, Hl.
  rewrite Hx, Hy, Hl. repeat split; auto.
  intros k Hk.
  assert (Hseq : seq 0 Driver.epochs = seq 0 k ++ seq k (Driver.epochs - k)).
  { replace (seq 0 Driver.epochs) with (seq 0 (k + (Driver.epochs - k)))
      by (f_equal; unfold Driver.epochs; lia).
    now rewrite seq_app. }
  rewrite Hseq, run_epochs_app in H.
  destruct (run_epochs true Driver.epochs trainloader testloader (seq 0 k)
                       (init_state n)) as [[[] | ex] s_k] eqn:Hrun;
    [| discriminate].
  exists s_k. split; [reflexivity |].
  pose proof (run_epochs_history _ _ _ _ _ _ Hrun)
    as (xs1 & ys1 & l1 & Lx1 & Ly1 & _ & Hx1 & Hy1 & _).
  pose proof (run_epochs_history _ _ _ _ _ _ H)
    as (xs2 & ys2 & l2 & _ & _ & _ & Hx2 & Hy2 & _).
  rewrite length_seq in Lx1, Ly1. simpl in Hx1, Hy1.
  rewrite Hx1 in Hx2. rewrite Hy1 in Hy2.
  rewrite <- Hx, <- Hy, Hx2, Hy2, Hx1, Hy1.
  now rewrite !firstn_length_app.
Qed.

End DriverFacts.

(* ================================================================== *)
(** * Mean of batch means against the overall fraction                 *)
(* ================================================================== *)

Lemma fl_eq_Fin_inv (a : fval) (q : Q) :
  fl_eq a (Fin q) -> exists x, a = Fin x /\ (x == q)%Q.
Proof. destruct a; simpl; try contradiction. eauto. Qed.

Lemma inject_nat_nonzero (n : nat) :
  (0 < n)%nat -> ~ (inject_Z (Z.of_nat n) == 0)%Q.
Proof.
  intros Hn Hz. apply (proj1 (inject_Z_injective (Z.of_nat n) 0)) in Hz. lia.
Qed.

Lemma has_sizes_length (bs : list scored_batch) (sizes : list nat) :
  has_sizes bs sizes -> length bs = length sizes.
Proof. apply Forall2_length_eq. Qed.

(** The accumulator after a pass over well-formed batches. *)
Lemma accumulate_spec (bs : list scored_batch) :
  forall (sizes : list nat) (q0 : Q),
    has_sizes bs sizes -> (forall n, In n sizes -> (0 < n)%nat) ->
    exists q, accumulate (PyTensor (Fin q0)) bs = Ok (PyTensor (Fin q))
              /\ (q == q0 + sum_of_means bs)%Q.
Proof.
  induction bs as [| b rest IH]; intros sizes q0 Hs Hpos;
    inversion Hs as [| b' n rest' sizes' [Hb1 Hb2] Hrest]; subst; simpl.
  - exists q0. split; auto. ring.
  - destruct (@accuracy_of_classes_spec (fst b) (snd b)) as [a [Ha Hq]].
    + congruence.
    + intros E. rewrite E in Hpos. specialize (Hpos 0%nat (or_introl eq_refl)).
      simpl in Hpos. lia.
    + apply fl_eq_Fin_inv in Hq as [x [-> Hx]]. rewrite Ha. simpl.
      destruct (IH sizes' (q0 + x)%Q Hrest) as [q [E Hq]].
      * intros n Hn. apply Hpos. now right.
      * exists q. split; auto. rewrite Hq, Hx. ring.
Qed.

(** The reported accuracy is the sum of the batch means over the number
    of batches. *)
Lemma epoch_accuracy_spec (bs : list scored_batch) (sizes : list nat) :
  sizes <> [] -> has_sizes bs sizes -> (forall n, In n sizes -> (0 < n)%nat) ->
  is_tensor_of (epoch_accuracy bs)
               (sum_of_means bs / inject_Z (Z.of_nat (length bs))).
Proof.
  intros Hne Hs Hpos. unfold epoch_accuracy, is_tensor_of.
  destruct bs as [| b rest]; inversion Hs as [| b' n rest' sizes' [Hb1 Hb2] Hrest];
    subst; [congruence |].
  simpl accumulate.
  destruct (@accuracy_of_classes_spec (fst b) (snd b)) as [a [Ha Hq]].
  - congruence.
  - intros E. rewrite E in Hpos. specialize (Hpos 0%nat (or_introl eq_refl)).
    simpl in Hpos. lia.
  - apply fl_eq_Fin_inv in Hq as [x [-> Hx]]. rewrite Ha. simpl obind at 1.
    simpl py_add.
    destruct (@accumulate_spec rest sizes' (inject_Z 0 + x)%Q Hrest) as [q [E Hq]].
    + intros m Hm. apply Hpos. now right.
    + rewrite E. simpl. eexists; split; [reflexivity |].
      simpl. rewrite Hq, Hx. unfold Qdiv. ring.
Qed.

Lemma is_tensor_of_unique (v : outcome pyval) (p q : Q) :
  is_tensor_of v p -> is_tensor_of v q -> (p == q)%Q.
Proof.
  intros [x [E1 H1]] [y [E2 H2]]. rewrite E1 in E2. inversion E2; subst.
  destruct y; simpl in *; try contradiction. now rewrite <- H1, <- H2.
Qed.

Lemma is_tensor_of_Qeq (v : outcome pyval) (p q : Q) :
  (p == q)%Q -> is_tensor_of v p -> is_tensor_of v q.
Proof.
  intros Hpq [x [E H]]. exists x. split; auto.
  destruct x; simpl in *; auto. now rewrite H.
Qed.

(** Batches of equal size [n]. *)
Lemma equal_sizes_sums (n : nat) (bs : list scored_batch) :
  (0 < n)%nat ->
  (forall b, In b bs -> length (fst b) = n /\ length (snd b) = n) ->
  (sum_of_means bs
   == inject_Z (Z.of_nat (total_correct bs)) / inject_Z (Z.of_nat n))%Q
  /\ total_samples bs = (length bs * n)%nat.
Proof.
  intros Hn. induction bs as [| b rest IH]; intros Hall; simpl.
  - split; auto. unfold Qdiv. ring.
  - destruct (Hall b (or_introl eq_refl)) as [H1 H2].
    destruct IH as [IH1 IH2]; [intros b' Hb'; apply Hall; now right |].
    split.
    + rewrite IH1, H1, Nat2Z.inj_add, inject_Z_plus. field.
      now apply inject_nat_nonzero.
    + rewrite IH2, H2. lia.
Qed.

Lemma has_sizes_all (bs : list scored_batch) (sizes : list nat) (n : nat) :
  has_sizes bs sizes -> (forall m, In m sizes -> m = n) ->
  forall b, In b bs -> length (fst b) = n /\ length (snd b) = n.
Proof.
  induction 1 as [| b m bs' sizes' [H1 H2] Hrest IH]; intros Hall b' Hin.
  - destruct Hin.
  - destruct Hin as [<- | Hin].
    + rewrite H1, H2. split; apply Hall; now left.
    + apply IH; auto. intros k Hk. apply Hall. now right.
Qed.

(** The batches that tell the two averages apart: every sample of one
    batch is classified right, every other sample wrong. *)
Lemma count_correct_all_wrong (m : nat) :
  count_correct (repeat 0%Z m) (repeat 1%Z m) = 0%nat.
Proof. unfold count_correct. induction m; simpl; auto. Qed.

Lemma count_correct_all_right (m : nat) :
  count_correct (repeat 0%Z m) (repeat 0%Z m) = m.
Proof. unfold count_correct. induction m; simpl; auto. Qed.

Lemma wrong_batches (l : list nat) :
  let bs := map (fun m => (repeat 0%Z m, repeat 1%Z m)) l in
  has_sizes bs l /\ (sum_of_means bs == 0)%Q /\ total_correct bs = 0%nat
  /\ total_samples bs = list_sum l.
Proof.
  induction l as [| m l IH]; simpl.
  - repeat split; auto. constructor.
  - destruct IH as (H1 & H2 & H3 & H4). repeat split.
    + constructor; auto. simpl. now rewrite !repeat_length.
    + rewrite H2, count_correct_all_wrong. unfold Qdiv. simpl. ring.
    + now rewrite H3, count_correct_all_wrong.
    + now rewrite H4, repeat_length.
Qed.

Lemma sums_app (a b : list scored_batch) :
  (sum_of_means (a ++ b) == sum_of_means a + sum_of_means b)%Q
  /\ total_correct (a ++ b) = (total_correct a + total_correct b)%nat
  /\ total_samples (a ++ b) = (total_samples a + total_samples b)%nat.
Proof.
  induction a as [| x a IH]; simpl.
  - repeat split; auto. ring.
  - destruct IH as (H1 & H2 & H3). repeat split; try lia.
    rewrite H1. ring.
Qed.

Lemma has_sizes_app (a b : list scored_batch) (sa sb : list nat) :
  has_sizes a sa -> has_sizes b sb -> has_sizes (a ++ b) (sa ++ sb).
Proof. apply Forall2_app. Qed.

Lemma Qdiv_eq_cross (a b c d : Q) :
  ~ (b == 0)%Q -> ~ (d == 0)%Q -> (a / b == c / d)%Q -> (a * d == c * b)%Q.
Proof.
  intros Hb Hd H. transitivity (a / b * b * d)%Q; [field; auto |].
  rewrite H. field; auto.
Qed.

(** If the two averages agree on every outcome, each batch size times
    the number of batches is the number of samples. *)
Lemma agreement_forces_size (sizes : list nat) (n : nat) :
  (forall m, In m sizes -> (0 < m)%nat) ->
  (forall bs, has_sizes bs sizes ->
              is_tensor_of (epoch_accuracy bs) (overall_fraction bs)) ->
  In n sizes -> (n * length sizes = list_sum sizes)%nat.
Proof.
  intros Hpos Hagree Hin.
  destruct (in_split n sizes Hin) as (l1 & l2 & ->).
  set (w := fun m : nat => (repeat 0%Z m, repeat 1%Z m)).
  set (bs := map w l1 ++ (repeat 0%Z n, repeat 0%Z n) :: map w l2).
  destruct (wrong_batches l1) as (S1 & M1 & C1 & T1).
  destruct (wrong_batches l2) as (S2 & M2 & C2 & T2).
  fold w in S1, M1, C1, T1, S2, M2, C2, T2.
  assert (Hn : (0 < n)%nat) by (apply Hpos, in_elt).
  assert (Hs : has_sizes bs (l1 ++ n :: l2)).
  { apply has_sizes_app; auto. constructor; auto.
    simpl. now rewrite repeat_length. }
  assert (Hne : l1 ++ n :: l2 <> []) by (now destruct l1).
  pose proof (epoch_accuracy_spec Hne Hs Hpos) as Hmean.
  pose proof (Hagree bs Hs) as Hfrac.
  pose proof (is_tensor_of_unique Hmean Hfrac) as Heq.
  rewrite (has_sizes_length Hs) in Heq.
  unfold overall_fraction in Heq.
  destruct (sums_app (map w l1) ((repeat 0%Z n, repeat 0%Z n) :: map w l2))
    as (A1 & A2 & A3).
  subst bs. unfold scored_batch in *. rewrite A1, A2, A3 in Heq. simpl in Heq.
  rewrite M1, M2, C1, C2, T1, T2, count_correct_all_right, !repeat_length in Heq.
  rewrite list_sum_app. simpl list_sum.
  assert (Hk : (0 < length (l1 ++ n :: l2))%nat)
    by (rewrite length_app; simpl; lia).
  assert (HN : (0 < list_sum l1 + (n + list_sum l2))%nat) by lia.
  replace (0 + (n + 0))%nat with n in Heq by lia.
  assert (E : (inject_Z (Z.of_nat n) * inject_Z (Z.of_nat (length (l1 ++ n :: l2)))
               == inject_Z (Z.of_nat (list_sum l1 + (n + list_sum l2))))%Q).
  { pose proof (inject_nat_nonzero Hn) as Z1.
    pose proof (inject_nat_nonzero Hk) as Z2.
    pose proof (inject_nat_nonzero HN) as Z3.
    symmetry.
    rewrite <- (Qmult_1_l (inject_Z (Z.of_nat (list_sum l1 + (n + list_sum l2))))).
    apply Qdiv_eq_cross; auto.
    etransitivity; [| exact Heq]. field. split; auto. }
  rewrite <- inject_Z_mult in E. apply (proj1 (inject_Z_injective _ _)) in E.
  apply Nat2Z.inj. now rewrite Nat2Z.inj_mul.
Qed.

(* ================================================================== *)
(** * The driver on the synthetic split                                *)
(* ================================================================== *)

Section SyntheticRuns.

Import String.

(** C1 fails on the code.  A validation batch whose label is out of
    range makes the loss raise inside the validation pass of cell 17; the
    exception leaves the loop and the model stays in eval mode. *)
Lemma mode_not_restored_on_error :
  fst (Synthetic.cell17 Synthetic.trainloader Synthetic.bad_testloader 0%nat)
  = Raise IndexError
  /\ Driver.training
       (snd (Synthetic.cell17 Synthetic.trainloader Synthetic.bad_testloader
                              0%nat))
     = false.
Proof. split; vm_compute; reflexivity. Qed.

(** In cell 13 the same batch raises as well, and the model is in train
    mode as it always is there. *)
Example cell13_keeps_train_mode :
  fst (Synthetic.cell13 Synthetic.trainloader Synthetic.bad_testloader 0%nat)
  = Raise IndexError
  /\ Driver.training
       (snd (Synthetic.cell13 Synthetic.trainloader Synthetic.bad_testloader
                              0%nat))
     = true.
Proof. split; vm_compute; reflexivity. Qed.

(** C2 fails on the code.  With an empty validation split the averaging
    divides by [len(testloader) = 0]: the run stops with Python's
    [ZeroDivisionError], after the training loss of the epoch has been
    recorded. *)
Lemma empty_split_divides_by_zero :
  fst (Synthetic.cell17 Synthetic.trainloader [] 0%nat)
  = Raise ZeroDivisionError
  /\ List.length (Driver.train_losses
               (snd (Synthetic.cell17 Synthetic.trainloader [] 0%nat)))
     = 1%nat.
Proof. split; vm_compute; reflexivity. Qed.

Lemma empty_split_raises_witness :
  let out := Synthetic.epoch true 30 Synthetic.trainloader [] 0
                             (Driver.init_state 0%nat) in
  let pl := Synthetic.per_batch_losses Synthetic.trainloader
                                       (Driver.init_state 0%nat) in
  let pm := Driver.per_batch_metrics
              Synthetic.forward Synthetic.torch_exp []
              (Obs.validation_start true (snd pl)) in
  fst out = match fst pl with
            | Raise ex => Raise ex
            | Ok _ =>
                match fst pm with
                | Raise ex => Raise ex
                | Ok _ => Raise ZeroDivisionError
                end
            end
  /\ Driver.stdout (snd out) = Driver.stdout (Driver.init_state 0%nat)
  /\ Driver.test_losses (snd out)
     = Driver.test_losses (Driver.init_state 0%nat)
  /\ forall (trainloaders testloaders : Driver.loader Synthetic.Images)
            (es : list nat),
      trainloaders 0%nat = Synthetic.trainloader -> testloaders 0%nat = [] ->
      Driver.run_epochs Synthetic.forward Synthetic.torch_exp
                        Synthetic.zero_grad Synthetic.backward
                        Synthetic.optimizer_step true 30 trainloaders
                        testloaders (0%nat :: es) (Driver.init_state 0%nat)
      = out.
Proof.
  apply (@empty_split_raises Synthetic.Net Synthetic.Images Synthetic.forward
                             Synthetic.torch_exp Synthetic.zero_grad
                             Synthetic.backward Synthetic.optimizer_step).
  right. reflexivity.
Defined.

(** C5.  When an epoch returns, the entry it appended to [train_losses],
    which is also the training loss of its report line, is the sum of
    the per-batch training losses divided by the number of training
    batches.  On the synthetic split with the per-batch losses 0.4 and
    0.6 the entry is 1/2 and the line reads 0.500. *)
Theorem epoch_reports_mean_training_loss :
  (forall (Net Images : Type)
          (forward : bool -> bool -> Images -> Net -> outcome tensor2 * Net)
          (torch_exp : tensor2 -> tensor2)
          (zero_grad backward optimizer_step : Net -> Net)
          (switch_mode : bool) (epochs : nat)
          (trainloader testloader : list (Driver.batch Images)) (e : nat)
          (s s' : Driver.state Net),
      Driver.epoch forward torch_exp zero_grad backward optimizer_step
                   switch_mode epochs trainloader testloader e s = (Ok tt, s') ->
      exists items s1,
        Driver.per_batch_losses forward zero_grad backward optimizer_step
                                trainloader s = (Ok items, s1)
        /\ List.length items = List.length trainloader
        /\ Driver.train_losses s'
           = Driver.train_losses s
               ++ [PyFloat (fl_div_count (fl_sum items) (List.length trainloader))]
        /\ exists vl acc,
            Driver.stdout s'
            = Driver.stdout s
                ++ [Fmt.report_line
                      e epochs
                      (PyFloat (fl_div_count (fl_sum items)
                                             (List.length trainloader)))
                      vl acc])
  /\ (exists s1 s' q,
         Synthetic.per_batch_losses Synthetic.trainloader
                                    (Driver.init_state 0%nat)
         = (Ok [Fin (4 # 10); Fin (6 # 10)], s1)
         /\ Synthetic.epoch true 30 Synthetic.trainloader Synthetic.testloader
                            0 (Driver.init_state 0%nat) = (Ok tt, s')
         /\ Driver.train_losses s' = [PyFloat (Fin q)]
         /\ (q == 5 # 10)%Q
         /\ Fmt.format_3f (PyFloat (Fin q)) = "0.500"%string
         /\ Driver.stdout s'
            = ["Epoch 1 of 30  |  Train Loss: 0.500  |  Test Loss: 0.750  |  Accuracy: 50.000%"%string]).
Proof.
  split.
  - intros Net Images forward torch_exp zero_grad backward optimizer_step
           switch_mode epochs trainloader testloader e s s' H.
    apply epoch_history in H
      as (items & s1 & y & line & Hl & Hlen & Ht & _ & Hp & vl & acc & ->).
    exists items, s1. unfold mean in *. rewrite Hlen in *.
    repeat split; auto. exists vl, acc. exact Hp.
  - eexists. eexists. exists (100 # 200)%Q.
    split; [vm_compute; reflexivity |].
    split; [vm_compute; reflexivity |].
    repeat split.
Qed.

Lemma epoch_reports_mean_training_loss_witness :
  exists items s1,
    Synthetic.per_batch_losses Synthetic.trainloader (Driver.init_state 0%nat)
    = (Ok items, s1)
    /\ List.length items = List.length Synthetic.trainloader
    /\ Driver.train_losses
         (snd (Synthetic.epoch true 30 Synthetic.trainloader
                               Synthetic.testloader 0
                               (Driver.init_state 0%nat)))
       = Driver.train_losses (Driver.init_state 0%nat)
           ++ [PyFloat (fl_div_count (fl_sum items)
                                     (List.length Synthetic.trainloader))]
    /\ exists vl acc,
        Driver.stdout
          (snd (Synthetic.epoch true 30 Synthetic.trainloader
                                Synthetic.testloader 0
                                (Driver.init_state 0%nat)))
        = Driver.stdout (Driver.init_state 0%nat)
            ++ [Fmt.report_line
                  0 30
                  (PyFloat (fl_div_count (fl_sum items)
                                         (List.length Synthetic.trainloader)))
                  vl acc].
Proof.
  apply (proj1 epoch_reports_mean_training_loss
               Synthetic.Net Synthetic.Images Synthetic.forward
               Synthetic.torch_exp Synthetic.zero_grad Synthetic.backward
               Synthetic.optimizer_step true 30%nat Synthetic.trainloader
               Synthetic.testloader 0%nat (Driver.init_state 0%nat)).
  vm_compute. reflexivity.
Defined.

Lemma thirty_epochs_history_witness :
  let s' := snd (Synthetic.cell17 Synthetic.trainloader Synthetic.testloader
                                  0%nat) in
  List.length (Driver.train_losses s') = 30%nat
  /\ List.length (Driver.test_losses s') = 30%nat
  /\ List.length (Driver.stdout s') = 30%nat
  /\ forall k, (k <= 30)%nat ->
       exists s_k,
         Driver.run_epochs Synthetic.forward Synthetic.torch_exp
                           Synthetic.zero_grad Synthetic.backward
                           Synthetic.optimizer_step true Driver.epochs
                           (fun _ => Synthetic.trainloader)
                           (fun _ => Synthetic.testloader)
                           (seq 0 k) (Driver.init_state 0%nat) = (Ok tt, s_k)
         /\ Driver.train_losses s_k = firstn k (Driver.train_losses s')
         /\ Driver.test_losses s_k = firstn k (Driver.test_losses s').
Proof.
  apply (@thirty_epochs_history
           Synthetic.Net Synthetic.Images Synthetic.forward
           Synthetic.torch_exp Synthetic.zero_grad Synthetic.backward
           Synthetic.optimizer_step (fun _ => Synthetic.trainloader)
           (fun _ => Synthetic.testloader) 0%nat).
  vm_compute. reflexivity.
Defined.

End SyntheticRuns.

(* ================================================================== *)
(** * Facts about the classifiers                                      *)
(* ================================================================== *)

Section ModelFacts.

Import Model.

Context {S : Type} `{Scalar S}.
Variable RNG : Type.
Variable bernoulli : Q -> RNG -> bool * RNG.
Variable testloader_iter : RNG -> list (image_batch (S := S)) * RNG.

(** In evaluation mode the dropout step hands its input on and draws
    nothing. *)
Lemma dropout_eval (p : Q) (x : tensor (S := S)) (g : RNG) :
  dropout bernoulli p false x g = (Ok x, g).
Proof. reflexivity. Qed.

(** Section 8, the degenerate boundary: when every draw says "drop",
    dropout in training mode zeroes every unit. *)
Lemma dropout_train_all_dropped (p : Q) :
  (forall g, fst (bernoulli p g) = true) ->
  forall (x : tensor (S := S)) (g : RNG),
    fst (dropout bernoulli p true x g)
    = Ok (map (map (fun _ => s_of_Q 0)) x).
Proof.
  intros Hdrop.
  assert (Hrow : forall (row : list S) (g : RNG),
             fst (map_M (dropout_unit bernoulli p) row g)
             = Ok (map (fun _ => s_of_Q 0) row)).
  { induction row as [| v row IH]; intros g; simpl; auto.
    unfold bind, ret. unfold dropout_unit at 1.
    pose proof (Hdrop g) as Hg. destruct (bernoulli p g) as [d g1].
    simpl in Hg. subst d. specialize (IH g1).
    destruct (map_M (dropout_unit bernoulli p) row g1) as [[ys | e] g2];
      simpl in *; inversion IH; subst; auto. }
  induction x as [| row rows IH]; intros g; simpl; auto.
  unfold bind, ret. specialize (Hrow row g).
  destruct (map_M (dropout_unit bernoulli p) row g) as [[ys | e] g1];
    simpl in *; inversion Hrow; subst.
  specialize (IH g1). unfold dropout in IH.
  destruct (map_M (map_M (dropout_unit bernoulli p)) rows g1)
    as [[yss | e] g2]; simpl in *; inversion IH; subst; auto.
Qed.

(** The forward pass with dropout, in evaluation mode, is the forward
    pass without dropout, and the generator is not touched. *)
Lemma forward_eval (self : Classifier) (x : input) (g : RNG) :
  DropoutClassifier_forward bernoulli self false x g
  = (Classifier_forward self x, g).
Proof.
  unfold DropoutClassifier_forward, Classifier_forward, bind, lift, obind.
  destruct (view_flat x) as [x0 | e]; auto.
  destruct (linear (fc1 self) x0) as [x1 | e]; auto.
  rewrite dropout_eval.
  destruct (linear (fc2 self) (relu x1)) as [x2 | e]; auto.
  rewrite dropout_eval.
  destruct (linear (fc3 self) (relu x2)) as [x3 | e]; auto.
  rewrite dropout_eval.
  destruct (linear (fc4 self) (relu x3)) as [x4 | e]; auto.
Qed.

(** The single-sample path on a given image, as a function of the image
    and the parameters alone. *)
Lemma single_sample_eval (img : list (list (list S))) (s : session RNG) :
  single_sample bernoulli img s
  = (obind (view_1_784 img)
           (fun x =>
              obind (Classifier_forward (model s) (Batch2 x))
                    (fun output => Ok (torch_exp output))),
     mkSession (model s) false (rng s)).
Proof.
  unfold single_sample, infer_image, bind, model_eval, modify, lift,
    model_forward, ret. simpl.
  destruct (view_1_784 img) as [x | e]; simpl; auto.
  rewrite forward_eval.
  destruct (Classifier_forward (model s) (Batch2 x)); auto.
Qed.

(** Cell 19: the path on the first image of the first batch the
    shuffled loader yields. *)
Lemma inference_eval (s : session RNG) :
  inference bernoulli testloader_iter s
  = (obind (dataiter_next (fst (testloader_iter (rng s))))
           (fun b =>
              obind (first_image (fst b))
                    (fun img => fst (single_sample bernoulli img s))),
     mkSession (model s) false (snd (testloader_iter (rng s)))).
Proof.
  unfold inference, bind, model_eval, modify, iter_testloader, lift. simpl.
  destruct (testloader_iter (rng s)) as [batches g']. simpl.
  destruct (dataiter_next batches) as [b | e]; simpl; auto.
  destruct (first_image (fst b)) as [img | e]; simpl; auto.
  rewrite single_sample_eval. simpl.
  unfold infer_image, bind, lift, model_forward, ret. simpl.
  destruct (view_1_784 img) as [x | e]; simpl; auto.
  rewrite forward_eval.
  destruct (Classifier_forward (model s) (Batch2 x)); auto.
Qed.

(** C7.  In evaluation mode the dropout step is the identity, whatever
    the drop probability, so [DropoutClassifier.forward] in evaluation
    mode returns what [Classifier.forward] returns on the same input with
    the same four layers, and leaves the generator alone. *)
Theorem dropout_classifier_eval_is_classifier :
  (forall (p : Q) (x : tensor (S := S)) (g : RNG),
      dropout bernoulli p false x g = (Ok x, g))
  /\ (forall (self : Classifier) (x : input) (g : RNG),
         DropoutClassifier_forward bernoulli self false x g
         = (Classifier_forward self x, g)).
Proof. split; [exact dropout_eval | exact forward_eval]. Qed.

(** C10.  The single-sample path of cell 19 on a given image returns an
    outcome, probabilities or exception, that depends on the image and
    the parameters only: whatever the mode and the generator are before,
    two runs with the same parameters return the same outcome, and so
    does a second run right after the first, which leaves the parameters
    as they are. *)
Theorem inference_twice_identical (img : list (list (list S)))
        (m : Classifier) (t1 t2 : bool) (g1 g2 : RNG) :
  let run1 := single_sample bernoulli img (mkSession m t1 g1) in
  let run2 := single_sample bernoulli img (mkSession m t2 g2) in
  let again := single_sample bernoulli img (snd run1) in
  fst run1 = fst run2
  /\ fst again = fst run1
  /\ model (snd run1) = m.
Proof.
  simpl. rewrite !single_sample_eval. simpl. auto.
Qed.


(** ** Shapes *)

Lemma linear_row_ok (n_in n_out : nat) (l : Linear) (x : list S) :
  linear_shape n_in n_out l = true -> length x = n_in ->
  exists y, linear_row l x = Ok y /\ length y = n_out.
Proof.
  unfold linear_shape. rewrite !andb_true_iff, !Nat.eqb_eq.
  intros [[[[Hin _] Hw] _] Hb] Hx. unfold linear_row.
  rewrite Hx, Hin, Nat.eqb_refl. eexists; split; [reflexivity |].
  rewrite length_map, length_combine, Hw, Hb. apply Nat.min_id.
Qed.

Lemma linear_ok (n_in n_out : nat) (l : Linear) (x : tensor) :
  linear_shape n_in n_out l = true -> rows_of n_in x ->
  exists y, linear l x = Ok y /\ length y = length x /\ rows_of n_out y.
Proof.
  intros Hl. induction x as [| row rows IH]; intros Hx; simpl.
  - exists []. repeat split; auto. intros r [].
  - destruct (@linear_row_ok n_in n_out l row Hl) as [y [Hy Ly]];
      [apply Hx; now left |].
    destruct IH as [ys [Hys [Lys Rys]]]; [intros r Hr; apply Hx; now right |].
    rewrite Hy, Hys. simpl. exists (y :: ys). repeat split; simpl; auto.
    intros r [<- | Hr]; auto.
Qed.

Lemma relu_shape (n : nat) (x : tensor) :
  rows_of n x -> length (relu x) = length x /\ rows_of n (relu x).
Proof.
  intros Hx. unfold relu. split; [apply length_map |].
  intros row Hrow. apply in_map_iff in Hrow as [r [<- Hr]].
  rewrite length_map. now apply Hx.
Qed.

Lemma view_flat_ok (x : input) :
  input_shape x = true ->
  exists x0 : tensor (S := S), view_flat x = Ok x0 /\ length x0 = shape0 x /\ rows_of 784 x0.
Proof.
  unfold input_shape, view_flat. rewrite andb_true_iff, negb_true_iff.
  intros [Hne Hrows]. apply Nat.eqb_neq in Hne.
  destruct (shape0 x) as [| k] eqn:Hk; [congruence |].
  destruct x as [images | rows]; simpl in *;
    eexists; (split; [reflexivity |]); rewrite forallb_forall in Hrows.
  - rewrite length_map. split; auto.
    intros row Hrow. apply in_map_iff in Hrow as [img [<- Himg]].
    apply Nat.eqb_eq. now apply Hrows.
  - split; auto. intros row Hrow. apply Nat.eqb_eq. now apply Hrows.
Qed.

(** With the layers shaped as [__init__] shapes them and a batch of
    784-element samples, the forward pass returns: the log-softmax of
    one row of ten scores per sample. *)
Lemma Classifier_forward_ok (self : Classifier) (x : input) :
  classifier_shape self = true -> input_shape x = true ->
  exists scores : tensor (S := S),
    Classifier_forward self x = Ok (log_softmax scores)
    /\ length scores = shape0 x /\ rows_of 10 scores.
Proof.
  unfold classifier_shape. rewrite !andb_true_iff.
  intros [[[H1 H2] H3] H4] Hx. unfold Classifier_forward.
  destruct (view_flat_ok x Hx) as (x0 & E0 & L0 & R0). rewrite E0. simpl.
  destruct (@linear_ok _ _ _ x0 H1 R0) as (x1 & E1 & L1 & R1).
  rewrite E1. simpl. destruct (@relu_shape _ x1 R1) as [L1' R1'].
  destruct (@linear_ok _ _ _ (relu x1) H2 R1') as (x2 & E2 & L2 & R2).
  rewrite E2. simpl. destruct (@relu_shape _ x2 R2) as [L2' R2'].
  destruct (@linear_ok _ _ _ (relu x2) H3 R2') as (x3 & E3 & L3 & R3).
  rewrite E3. simpl. destruct (@relu_shape _ x3 R3) as [L3' R3'].
  destruct (@linear_ok _ _ _ (relu x3) H4 R3') as (x4 & E4 & L4 & R4).
  rewrite E4. simpl. exists x4. repeat split; auto. congruence.
Qed.

(** The same, with the scores named as what the last layer returns. *)
Lemma Classifier_forward_last_layer (self : Classifier) (x : input) :
  classifier_shape self = true -> input_shape x = true ->
  exists h scores : tensor (S := S),
    linear (fc4 self) h = Ok scores
    /\ Classifier_forward self x = Ok (log_softmax scores)
    /\ length scores = shape0 x /\ rows_of 10 scores.
Proof.
  unfold classifier_shape. rewrite !andb_true_iff.
  intros [[[H1 H2] H3] H4] Hx. unfold Classifier_forward.
  destruct (view_flat_ok x Hx) as (x0 & E0 & L0 & R0). rewrite E0. simpl.
  destruct (@linear_ok _ _ _ x0 H1 R0) as (x1 & E1 & L1 & R1).
  rewrite E1. simpl. destruct (@relu_shape _ x1 R1) as [L1' R1'].
  destruct (@linear_ok _ _ _ (relu x1) H2 R1') as (x2 & E2 & L2 & R2).
  rewrite E2. simpl. destruct (@relu_shape _ x2 R2) as [L2' R2'].
  destruct (@linear_ok _ _ _ (relu x2) H3 R2') as (x3 & E3 & L3 & R3).
  rewrite E3. simpl. destruct (@relu_shape _ x3 R3) as [L3' R3'].
  destruct (@linear_ok _ _ _ (relu x3) H4 R3') as (x4 & E4 & L4 & R4).
  rewrite E4. simpl. exists (relu x3), x4. repeat split; auto. congruence.
Qed.

End ModelFacts.

(* ================================================================== *)
(** * The exponentiated output in float arithmetic                     *)
(* ================================================================== *)

Section IeeeFacts.

Import Model Ieee.
Local Open Scope R_scope.

Lemma fmax_ge_1 : 1 <= fmax.
Proof. unfold fmax. apply (IZR_le 1). vm_compute. discriminate. Qed.

(** A result within the range is kept as it is. *)
Lemma overflow_in_range (r : R) :
  - fmax <= r <= fmax -> overflow r = XFin r.
Proof.
  intros [H1 H2]. unfold overflow.
  destruct (Rlt_dec fmax r); [Lra.lra |].
  destruct (Rlt_dec r (- fmax)); [Lra.lra | reflexivity].
Qed.

Lemma Rsum_exp_nonneg (row : list R) : 0 <= Rsum (map exp row).
Proof.
  induction row as [| z row IH]; simpl; [Lra.lra |].
  pose proof (exp_pos z). Lra.lra.
Qed.

Lemma Rsum_exp_pos (row : list R) : row <> [] -> 0 < Rsum (map exp row).
Proof.
  destruct row as [| z row]; [congruence | intros _]. simpl.
  pose proof (exp_pos z). pose proof (Rsum_exp_nonneg row). Lra.lra.
Qed.

Lemma Rsum_exp_elem (row : list R) (z : R) :
  In z row -> exp z <= Rsum (map exp row).
Proof.
  induction row as [| y row IH]; simpl; [contradiction |].
  pose proof (exp_pos y). pose proof (Rsum_exp_nonneg row).
  intros [-> | Hin]; [Lra.lra |]. specialize (IH Hin). Lra.lra.
Qed.

Lemma Rsum_map_div (d : R) (row : list R) :
  Rsum (map (fun v => v / d) row) = Rsum row / d.
Proof.
  unfold Rsum. induction row as [| v row IH]; simpl.
  - unfold Rdiv. now rewrite Rmult_0_l.
  - rewrite IH. now rewrite Rdiv_plus_distr.
Qed.

(** The sum of the exponentials of finite scores, when it does not
    overflow. *)
Lemma sum_exp_finite (rs : list R) :
  Rsum (map exp rs) <= fmax ->
  sum_exp (map XFin rs) = XFin (Rsum (map exp rs)).
Proof.
  pose proof fmax_ge_1 as Hf.
  induction rs as [| r rs IH]; intros Hle.
  - unfold sum_exp. simpl. f_equal. apply RMicromega.Q2R_0.
  - simpl map in *. simpl Rsum in *.
    pose proof (exp_pos r). pose proof (Rsum_exp_nonneg rs).
    change (sum_exp (XFin r :: map XFin rs))
      with (x_add (x_exp (XFin r)) (sum_exp (map XFin rs))).
    rewrite IH by Lra.lra. cbn [x_exp].
    rewrite overflow_in_range by Lra.lra. cbn [x_add].
    rewrite overflow_in_range by Lra.lra. reflexivity.
Qed.

(** Exponentiating the log-softmax of finite scores gives the
    normalized exponentials. *)
Lemma exp_log_softmax_finite (rs : list R) :
  rs <> [] -> Rsum (map exp rs) <= fmax ->
  torch_exp (log_softmax [map XFin rs])
  = [map XFin (map (fun v => v / Rsum (map exp rs)) (map exp rs))].
Proof.
  intros Hne Hle. pose proof fmax_ge_1 as Hf.
  pose proof (Rsum_exp_pos Hne) as Hpos.
  unfold torch_exp, log_softmax. cbn [map]. f_equal.
  rewrite sum_exp_finite by exact Hle. rewrite !map_map.
  apply map_ext_in. intros r Hr.
  pose proof (exp_pos r) as He. pose proof (Rsum_exp_elem rs r Hr) as Hel.
  set (T := Rsum (map exp rs)) in *.
  assert (Hq : 0 < exp r / T <= 1).
  { split; [apply Rdiv_lt_0_compat; Lra.lra |].
    apply Rmult_le_reg_r with T; [exact Hpos |].
    unfold Rdiv. rewrite Rmult_assoc, Rinv_l by Lra.lra. Lra.lra. }
  cbn [s_exp s_log s_div Scalar_X x_exp].
  rewrite overflow_in_range by Lra.lra. cbn [x_div].
  destruct (Req_dec_T T 0) as [E | _]; [Lra.lra |].
  rewrite overflow_in_range by Lra.lra. cbn [x_log].
  destruct (Rlt_dec 0 (exp r / T)) as [_ | N]; [| Lra.lra].
  cbn [x_exp]. rewrite exp_ln by Lra.lra.
  apply overflow_in_range. Lra.lra.
Qed.

Lemma softmax_is_distribution (rs : list R) :
  rs <> [] ->
  is_distribution
    (map XFin (map (fun v => v / Rsum (map exp rs)) (map exp rs))).
Proof.
  intros Hne. pose proof (Rsum_exp_pos Hne) as Hpos.
  eexists. split; [reflexivity |]. split.
  - intros p Hp. apply in_map_iff in Hp as [v [<- Hv]].
    apply in_map_iff in Hv as [z [<- _]].
    apply Rlt_le, Rdiv_lt_0_compat; [apply exp_pos | exact Hpos].
  - rewrite Rsum_map_div.
    replace (Rsum (map exp rs) / Rsum (map exp rs) - 1) with 0
      by (field; Lra.lra).
    rewrite Rabs_R0. Lra.lra.
Qed.

(** NaN goes through every operation of the softmax. *)
Lemma x_add_nan_r (a : xreal) : x_add a XNaN = XNaN.
Proof. destruct a; reflexivity. Qed.

Lemma x_div_nan_r (a : xreal) : x_div a XNaN = XNaN.
Proof. destruct a; reflexivity. Qed.

Lemma sum_exp_nan (row : list xreal) : In XNaN row -> sum_exp row = XNaN.
Proof.
  induction row as [| v row IH]; simpl; [contradiction |].
  intros [-> | Hin].
  - reflexivity.
  - change (sum_exp (v :: row)) with (x_add (x_exp v) (sum_exp row)).
    rewrite (IH Hin). apply x_add_nan_r.
Qed.

Lemma exp_log_softmax_nan (row : list xreal) :
  In XNaN row ->
  torch_exp (log_softmax [row]) = [repeat XNaN (length row)].
Proof.
  intros Hin. unfold torch_exp, log_softmax. cbn [map]. f_equal.
  rewrite (sum_exp_nan row Hin), map_map.
  cbn [s_exp s_log s_div Scalar_X].
  clear Hin. induction row as [| v row IH]; simpl; [reflexivity |].
  rewrite x_div_nan_r. simpl. now rewrite IH.
Qed.

(** A layer whose biases are NaN returns NaN everywhere. *)
Lemma linear_nan_bias (l : Linear) (h y : tensor) :
  linear l h = Ok y ->
  (forall b, In b (bias l) -> b = XNaN) ->
  forall row v, In row y -> In v row -> v = XNaN.
Proof.
  intros E Hb. revert y E.
  induction h as [| x h IH]; intros y E; simpl in E.
  - inversion E; subst. intros row v [].
  - unfold linear_row in E at 1.
    destruct (Nat.eqb (length x) (in_features l)); simpl in E;
      [| discriminate].
    destruct (linear l h) as [ys | e]; simpl in E; [| discriminate].
    inversion E; subst; clear E.
    intros row v [<- | Hrow] Hv; [| exact (IH ys eq_refl row v Hrow Hv)].
    apply in_map_iff in Hv as [[w b] [<- Hwb]]. simpl.
    apply in_combine_r in Hwb. rewrite (Hb b Hwb). apply x_add_nan_r.
Qed.

Lemma Forall2_map_self {A B : Type} (R : A -> B -> Prop) (f : A -> B)
      (l : list A) :
  (forall a, In a l -> R a (f a)) -> Forall2 R l (map f l).
Proof.
  induction l as [| a l IH]; intros Hall; simpl; constructor.
  - apply Hall. now left.
  - apply IH. intros b Hb. apply Hall. now right.
Qed.

(** ** From finite log-probabilities back to the scores *)

Lemma overflow_finite (r p : R) :
  overflow r = XFin p -> p = r /\ - fmax <= r <= fmax.
Proof.
  unfold overflow. destruct (Rlt_dec fmax r); [discriminate |].
  destruct (Rlt_dec r (- fmax)); [discriminate |].
  intros E; inversion E; subst. split; [reflexivity | Lra.lra].
Qed.

Lemma x_log_finite (a : xreal) (r : R) :
  x_log a = XFin r -> exists p, a = XFin p /\ 0 < p.
Proof.
  destruct a as [p | | |]; simpl; try discriminate.
  destruct (Rlt_dec 0 p); [eauto |].
  destruct (Req_dec_T p 0); discriminate.
Qed.

Lemma x_div_finite_pos (a b : xreal) (p : R) :
  x_div a b = XFin p -> 0 < p ->
  exists x y, a = XFin x /\ b = XFin y /\ y <> 0 /\ p = x / y.
Proof.
  destruct a as [x | | |], b as [y | | |]; simpl; try discriminate.
  - destruct (Req_dec_T y 0) as [Hy | Hy].
    + destruct (Req_dec_T x 0); [discriminate |].
      destruct (Rlt_dec 0 x); discriminate.
    + intros E _. apply overflow_finite in E as [-> _].
      exists x, y. repeat split; auto.
  - intros E; inversion E; subst. Lra.lra.
  - intros E; inversion E; subst. Lra.lra.
  - destruct (Rlt_dec y 0); discriminate.
  - destruct (Rlt_dec y 0); discriminate.
Qed.

Lemma x_exp_finite (z : xreal) (x : R) :
  x_exp z = XFin x ->
  (z = XNInf /\ x = 0) \/ exists r, z = XFin r /\ x = exp r /\ exp r <= fmax.
Proof.
  destruct z as [r | | |]; simpl; try discriminate.
  - intros E. apply overflow_finite in E as [-> [_ Hle]]. right.
    exists r. repeat split; auto.
  - intros E; inversion E; subst. now left.
Qed.

Lemma sum_exp_finite_inv (rs : list R) (y : R) :
  sum_exp (map XFin rs) = XFin y ->
  y = Rsum (map exp rs) /\ Rsum (map exp rs) <= fmax.
Proof.
  pose proof fmax_ge_1 as Hf. revert y.
  induction rs as [| r rs IH]; intros y.
  - unfold sum_exp. simpl. rewrite RMicromega.Q2R_0.
    intros E; inversion E; subst. split; [reflexivity | Lra.lra].
  - simpl map.
    change (sum_exp (XFin r :: map XFin rs))
      with (x_add (x_exp (XFin r)) (sum_exp (map XFin rs))).
    destruct (x_exp (XFin r)) as [e | | |] eqn:Ee;
      destruct (sum_exp (map XFin rs)) as [y' | | |] eqn:Es;
      simpl; try discriminate.
    intros E. apply overflow_finite in E as [-> [_ Hle]].
    destruct (IH y' eq_refl) as [-> _].
    apply x_exp_finite in Ee as [[N _] | (r' & Er & -> & _)];
      [discriminate |].
    inversion Er; subst r'. simpl. split; [reflexivity | exact Hle].
Qed.

Lemma all_finite (row : list xreal) :
  (forall v, In v row -> exists r, v = XFin r) ->
  exists rs, row = map XFin rs.
Proof.
  induction row as [| v row IH]; intros Hall; [exists []; reflexivity |].
  destruct (Hall v (or_introl eq_refl)) as [r ->].
  destruct IH as [rs ->]; [intros w Hw; apply Hall; now right |].
  exists (r :: rs). reflexivity.
Qed.

(** A row of finite log-probabilities comes from finite scores whose
    exponentials did not overflow in their sum. *)
Lemma finite_log_softmax_row (row : list xreal) :
  (forall v, In v (map (fun z => x_log (x_div (x_exp z) (sum_exp row))) row) ->
             exists r, v = XFin r) ->
  exists rs, row = map XFin rs /\ Rsum (map exp rs) <= fmax.
Proof.
  intros Hfin. pose proof fmax_ge_1 as Hf.
  assert (Hz : forall z, In z row ->
                 exists r y, z = XFin r /\ sum_exp row = XFin y).
  { intros z Hz.
    destruct (Hfin _ (in_map _ _ _ Hz)) as [l El].
    apply x_log_finite in El as (p & Ep & Hp).
    destruct (x_div_finite_pos _ _ Ep Hp) as (x & y & Ex & Ey & Hy & ->).
    apply x_exp_finite in Ex as [[-> ->] | (r & -> & -> & _)].
    - unfold Rdiv in Hp. rewrite Rmult_0_l in Hp. Lra.lra.
    - eauto. }
  destruct (all_finite row) as [rs ->].
  { intros v Hv. destruct (Hz v Hv) as (r & _ & -> & _). eauto. }
  exists rs. split; [reflexivity |].
  destruct rs as [| r rs]; [simpl; Lra.lra |].
  destruct (Hz (XFin r) (or_introl eq_refl)) as (_ & y & _ & Ey).
  now apply sum_exp_finite_inv in Ey.
Qed.




(** ** The zero classifier on a blank image *)

Lemma overflow_0 : overflow 0 = XFin 0.
Proof. apply overflow_in_range. pose proof fmax_ge_1. Lra.lra. Qed.

Lemma dot_zero_weights (w x : list xreal) :
  (forall v, In v w -> v = XFin 0) ->
  (forall v, In v x -> exists r, v = XFin r) ->
  dot w x = XFin 0.
Proof.
  unfold dot. cbn [s_of_Q s_add s_mul Scalar_X]. rewrite RMicromega.Q2R_0.
  revert x. induction w as [| a w IH]; intros x Hw Hx; [reflexivity |].
  destruct x as [| v x]; [reflexivity |]. simpl.
  rewrite (Hw a (or_introl eq_refl)).
  destruct (Hx v (or_introl eq_refl)) as [r ->]. cbn [x_mul].
  rewrite Rmult_0_l, overflow_0. cbn [x_add]. rewrite Rplus_0_l, overflow_0.
  apply IH; intros; [apply Hw | apply Hx]; now right.
Qed.

Lemma zero_linear_row (n_in n_out : nat) (x : list xreal) :
  length x = n_in -> (forall v, In v x -> exists r, v = XFin r) ->
  linear_row (zero_linear n_in n_out) x = Ok (repeat (XFin 0) n_out).
Proof.
  intros Hlen Hx. unfold linear_row, zero_linear. cbn [in_features weight bias].
  rewrite Hlen, Nat.eqb_refl. f_equal.
  assert (Hdot : dot (repeat (XFin 0) n_in) x = XFin 0).
  { apply dot_zero_weights; auto. intros v Hv. now apply repeat_spec in Hv. }
  induction n_out as [| k IH]; [reflexivity |].
  cbn [repeat combine map fst snd]. rewrite IH, Hdot. f_equal.
  cbn [s_add Scalar_X x_add]. rewrite Rplus_0_l. apply overflow_0.
Qed.

Lemma zero_classifier_scores :
  Classifier_forward zero_classifier blank_batch
  = Ok (log_softmax [map XFin (repeat 0 10)]).
Proof.
  assert (Hrelu : forall n, relu [repeat (XFin 0) n] = [repeat (XFin 0) n]).
  { intros n. unfold relu. cbn [map s_max s_of_Q Scalar_X]. f_equal.
    rewrite RMicromega.Q2R_0. induction n as [| k IH]; [reflexivity |].
    simpl. rewrite IH. f_equal. destruct (Rle_dec 0 0); reflexivity. }
  assert (Hfin : forall n v, In v (repeat (XFin 0) n) -> exists r, v = XFin r).
  { intros n v Hv. apply repeat_spec in Hv. eauto. }
  assert (Hlayer : forall n_in n_out,
             linear (zero_linear n_in n_out) [repeat (XFin 0) n_in]
             = Ok [repeat (XFin 0) n_out]).
  { intros n_in n_out. cbn [linear].
    rewrite zero_linear_row; [reflexivity | apply repeat_length | apply Hfin]. }
  unfold Classifier_forward, zero_classifier. cbn [fc1 fc2 fc3 fc4].
  replace (view_flat blank_batch) with (Ok [repeat (XFin 0) 784])
    by reflexivity.
  cbn [obind]. rewrite Hlayer. cbn [obind]. rewrite Hrelu.
  rewrite Hlayer. cbn [obind]. rewrite Hrelu.
  rewrite Hlayer. cbn [obind]. rewrite Hrelu.
  rewrite Hlayer. cbn [obind]. reflexivity.
Qed.

(** With every parameter zero the ten scores of a blank image are 0 and
    the exponentiated output is a distribution. *)
Example zero_parameters_distribution :
  exists ps,
    obind (Classifier_forward zero_classifier blank_batch)
          (fun output => Ok (torch_exp output)) = Ok [ps]
    /\ is_distribution ps.
Proof.
  rewrite zero_classifier_scores. cbn [obind].
  assert (Hle : Rsum (map exp (repeat 0 10)) <= fmax).
  { simpl. rewrite exp_0. unfold fmax.
    replace (1 + (1 + (1 + (1 + (1 + (1 + (1 + (1 + (1 + (1 + 0))))))))))
      with (IZR 10) by Lra.lra.
    apply IZR_le. vm_compute. discriminate. }
  rewrite (exp_log_softmax_finite (rs := repeat 0 10)); [| discriminate | exact Hle].
  eexists. split; [reflexivity |].
  apply softmax_is_distribution. discriminate.
Qed.

End IeeeFacts.

(* ================================================================== *)
(** * Ranges of the accuracy                                           *)
(* ================================================================== *)

Lemma count_correct_le (top_class labels : list Z) :
  (count_correct top_class labels <= length top_class)%nat.
Proof.
  unfold count_correct.
  etransitivity; [apply filter_length_le |].
  rewrite length_combine. apply Nat.le_min_l.
Qed.

Lemma fraction_in_unit (c n : nat) :
  (c <= n)%nat -> (0 < n)%nat ->
  (0 <= inject_Z (Z.of_nat c) / inject_Z (Z.of_nat n) <= 1)%Q.
Proof.
  intros Hc Hn.
  assert (Hpos : (0 < inject_Z (Z.of_nat n))%Q).
  { change 0%Q with (inject_Z 0). rewrite <- Zlt_Qlt. lia. }
  split.
  - apply Qle_shift_div_l; [exact Hpos |]. rewrite Qmult_0_l.
    change 0%Q with (inject_Z 0). rewrite <- Zle_Qle. lia.
  - apply Qle_shift_div_r; [exact Hpos |]. rewrite Qmult_1_l.
    rewrite <- Zle_Qle. lia.
Qed.

(** The accuracy of a batch with at least one label is a number
    between 0 and 1. *)
Lemma accuracy_of_classes_range (top_class labels : list Z) (a : fval) :
  accuracy_of_classes top_class labels = Ok a -> labels <> [] ->
  Obs.between_0_and 1 a.
Proof.
  intros Ha Hne.
  assert (Hlen : length labels = length top_class).
  { unfold accuracy_of_classes, equals, view_as in Ha.
    destruct (Nat.eqb_spec (length labels) (length top_class)); auto.
    discriminate. }
  assert (Htop : top_class <> []).
  { intros ->. destruct labels; [congruence | discriminate]. }
  destruct (@accuracy_of_classes_spec top_class labels Hlen Htop)
    as (a' & Ha' & Hq).
  rewrite Ha in Ha'. inversion Ha'; subst a'; clear Ha'.
  apply fl_eq_Fin_inv in Hq as (q & -> & Hq).
  exists q. split; [reflexivity |]. rewrite Hq.
  apply fraction_in_unit; [apply count_correct_le |].
  destruct top_class; [congruence | simpl; lia].
Qed.

Lemma sum_between (hi : Q) (xs : list fval) :
  Forall (Obs.between_0_and hi) xs ->
  forall q0 : Q,
  exists q,
    fold_left fl_add xs (Fin q0) = Fin q
    /\ (q0 <= q <= q0 + hi * inject_Z (Z.of_nat (length xs)))%Q.
Proof.
  induction 1 as [| x xs (qx & -> & Hx) _ IH]; intros q0.
  - exists q0. split; [reflexivity |].
    change (inject_Z (Z.of_nat (@length fval []))) with 0%Q. lra.
  - simpl fold_left. destruct (IH (q0 + qx)%Q) as (q & E & Hq).
    exists q. split; [exact E |].
    replace (Z.of_nat (length (Fin qx :: xs)))
      with (Z.of_nat (length xs) + 1)%Z by (simpl length; lia).
    rewrite inject_Z_plus. change (inject_Z 1) with 1%Q. lra.
Qed.

(** The mean of numbers between 0 and [hi] lies between 0 and [hi]. *)
Lemma mean_between (hi : Q) (xs : list fval) :
  xs <> [] -> Forall (Obs.between_0_and hi) xs ->
  Obs.between_0_and hi (mean xs).
Proof.
  intros Hne Hall. unfold mean, fl_sum.
  destruct (sum_between Hall 0) as (q & -> & Hq).
  destruct xs as [| x xs]; [congruence |].
  set (n := length (x :: xs)) in *.
  assert (Hn : (0 < inject_Z (Z.of_nat n))%Q).
  { change 0%Q with (inject_Z 0). rewrite <- Zlt_Qlt. subst n. simpl. lia. }
  unfold n at 1. simpl fl_div_count. fold n.
  exists (q / inject_Z (Z.of_nat n))%Q. split; [reflexivity |]. split.
  - apply Qle_shift_div_l; [exact Hn |]. lra.
  - apply Qle_shift_div_r; [exact Hn |]. lra.
Qed.

(* ================================================================== *)
(** * More facts about the training loops                             *)
(* ================================================================== *)

Section DriverMore.

Import Driver.

Variable Net : Type.
Variable Images : Type.
Variable forward : bool -> bool -> Images -> Net -> outcome tensor2 * Net.
Variable torch_exp : tensor2 -> tensor2.
Variables zero_grad backward optimizer_step : Net -> Net.

#[local] Abbreviation state := (Driver.state Net).
#[local] Abbreviation batch := (Driver.batch Images).
#[local] Abbreviation train_step :=
  (Driver.train_step forward zero_grad backward optimizer_step).
#[local] Abbreviation train_batch :=
  (Driver.train_batch forward zero_grad backward optimizer_step).
#[local] Abbreviation per_batch_losses :=
  (Driver.per_batch_losses forward zero_grad backward optimizer_step).
#[local] Abbreviation validation_step := (Driver.validation_step forward torch_exp).
#[local] Abbreviation validation_batch := (Driver.validation_batch forward torch_exp).
#[local] Abbreviation per_batch_metrics := (Driver.per_batch_metrics forward torch_exp).
#[local] Abbreviation epoch :=
  (Driver.epoch forward torch_exp zero_grad backward optimizer_step).
#[local] Abbreviation run_epochs :=
  (Driver.run_epochs forward torch_exp zero_grad backward optimizer_step).
#[local] Abbreviation cell17 :=
  (Driver.cell17 forward torch_exp zero_grad backward optimizer_step).


Import Obs.

#[local] Abbreviation cell13 :=
  (Driver.cell13 forward torch_exp zero_grad backward optimizer_step).

Ltac split_truediv :=
  repeat match goal with
         | |- context [py_truediv ?a ?n] => destruct (py_truediv a n)
         end.

(** ** The grad flag *)

Lemma epoch_grad (switch_mode : bool) (epochs : nat)
      (trainloader testloader : list batch) (e : nat) (s : state) :
  grad_enabled (snd (epoch switch_mode epochs trainloader testloader e s))
  = grad_enabled s.
Proof.
  rewrite epoch_cases.
  destruct (per_batch_losses_frame forward zero_grad backward optimizer_step
                                   trainloader s) as [[_ [Hg _]] _].
  destruct (per_batch_losses trainloader s) as [[items | ex] s1]; simpl in *;
    auto.
  match goal with
  | |- context [per_batch_metrics testloader ?s2] =>
      destruct (per_batch_metrics testloader s2) as [[rs | ex] s3]
  end; simpl; auto.
  rewrite epoch_report_cases.
  split_truediv; destruct switch_mode; simpl; auto.
Qed.

Lemma run_epochs_grad (switch_mode : bool) (epochs : nat)
      (trainloader testloader : loader Images) (es : list nat) :
  forall s : state,
    grad_enabled
      (snd (run_epochs switch_mode epochs trainloader testloader es s))
    = grad_enabled s.
Proof.
  induction es as [| e es IH]; intros s; [reflexivity |].
  rewrite run_epochs_cons.
  pose proof (epoch_grad switch_mode epochs (trainloader e) (testloader e) e s)
    as Hg.
  destruct (epoch switch_mode epochs (trainloader e) (testloader e) e s)
    as [[[] | ex] s1]; simpl in *; auto.
  now rewrite IH.
Qed.

(** X1.  Whatever way an epoch or the whole loop ends, by returning or by an
    exception of the training pass, the validation pass or the
    averaging, [torch.no_grad()] has put the grad flag back. *)
Theorem grad_flag_restored (switch_mode : bool) (epochs : nat)
        (trainloader testloader : loader Images) (es : list nat) (s : state)
        (n : Net) :
  grad_enabled
    (snd (run_epochs switch_mode epochs trainloader testloader es s))
  = grad_enabled s
  /\ grad_enabled (snd (cell13 trainloader testloader n)) = true
  /\ grad_enabled (snd (cell17 trainloader testloader n)) = true.
Proof.
  split; [apply run_epochs_grad |].
  unfold Driver.cell13, Driver.cell17. now rewrite !run_epochs_grad.
Qed.


(** ** The flags under which the model is called *)

Section TwoForwards.

Variable forward' : bool -> bool -> Images -> Net -> outcome tensor2 * Net.

#[local] Abbreviation agree_at g t :=
  (forall images n, forward g t images n = forward' g t images n).

Lemma train_step_ext (g t : bool) (b : batch) (s : state) :
  agree_at g t -> grad_enabled s = g -> training s = t ->
  train_step b s
  = Driver.train_step forward' zero_grad backward optimizer_step b s.
Proof.
  intros Hag Hg Ht.
  unfold Driver.train_step, bind, on_net, modify, call_model. simpl.
  rewrite Hg, Ht, Hag. reflexivity.
Qed.

Lemma per_batch_losses_ext (g t : bool) (trainloader : list batch) :
  agree_at g t ->
  forall s : state,
    grad_enabled s = g -> training s = t ->
    per_batch_losses trainloader s
    = Driver.per_batch_losses forward' zero_grad backward optimizer_step
                              trainloader s.
Proof.
  intros Hag. induction trainloader as [| b rest IH]; intros s Hg Ht; simpl;
    auto.
  unfold bind. rewrite <- (train_step_ext b s Hag Hg Ht).
  destruct (train_step_frame forward zero_grad backward optimizer_step b s)
    as (Ht1 & Hg1 & _).
  destruct (train_step b s) as [[item | ex] s1]; simpl in *; auto.
  rewrite <- IH by congruence. reflexivity.
Qed.

Lemma validation_step_ext (g t : bool) (b : batch) (s : state) :
  agree_at g t -> grad_enabled s = g -> training s = t ->
  validation_step b s = Driver.validation_step forward' torch_exp b s.
Proof.
  intros Hag Hg Ht. unfold Driver.validation_step, bind, call_model.
  rewrite Hg, Ht, Hag. reflexivity.
Qed.

Lemma per_batch_metrics_ext (g t : bool) (testloader : list batch) :
  agree_at g t ->
  forall s : state,
    grad_enabled s = g -> training s = t ->
    per_batch_metrics testloader s
    = Driver.per_batch_metrics forward' torch_exp testloader s.
Proof.
  intros Hag. induction testloader as [| b rest IH]; intros s Hg Ht; simpl;
    auto.
  unfold bind. rewrite <- (validation_step_ext b s Hag Hg Ht).
  destruct (validation_step_frame forward torch_exp b s) as (Ht1 & Hg1 & _).
  destruct (validation_step b s) as [[r | ex] s1]; simpl in *; auto.
  rewrite <- IH by congruence. reflexivity.
Qed.

(** An epoch only asks the model under the flags of the session it
    starts in and, for the validation pass, with grad off and the mode
    the cell gives it. *)
Lemma epoch_ext (switch_mode : bool) (epochs : nat)
      (trainloader testloader : list batch) (e : nat) (s : state) :
  agree_at (grad_enabled s) (training s) ->
  agree_at false (if switch_mode then false else training s) ->
  epoch switch_mode epochs trainloader testloader e s
  = Driver.epoch forward' torch_exp zero_grad backward optimizer_step
                 switch_mode epochs trainloader testloader e s.
Proof.
  intros Htrain Hval. rewrite !epoch_cases.
  rewrite <- (per_batch_losses_ext trainloader Htrain s eq_refl eq_refl).
  destruct (per_batch_losses_frame forward zero_grad backward optimizer_step
                                   trainloader s) as [(Ht & _) _].
  destruct (per_batch_losses trainloader s) as [[items | ex] s1]; simpl in *;
    auto.
  match goal with
  | |- context [per_batch_metrics testloader ?s2] =>
      rewrite <- (@per_batch_metrics_ext
                    false (if switch_mode then false else training s)
                    testloader Hval s2)
  end; try reflexivity; destruct switch_mode; simpl; auto.
Qed.

End TwoForwards.

Lemma run_epochs_matched_flags (epochs : nat)
      (trainloader testloader : loader Images) (es : list nat) :
  forall s : state,
    grad_enabled s = true -> training s = true ->
    run_epochs true epochs trainloader testloader es s
    = Driver.run_epochs (matched_flags forward) torch_exp zero_grad backward
                        optimizer_step true epochs trainloader testloader
                        es s.
Proof.
  induction es as [| e es IH]; intros s Hg Ht; [reflexivity |].
  rewrite !run_epochs_cons.
  rewrite <- (@epoch_ext (matched_flags forward) true)
    by (rewrite ?Hg, ?Ht; reflexivity).
  pose proof (epoch_grad true epochs (trainloader e) (testloader e) e s) as Hg'.
  pose proof (epoch_mode_cases forward torch_exp zero_grad backward
                               optimizer_step epochs (trainloader e)
                               (testloader e) e s) as Hm.
  destruct (epoch true epochs (trainloader e) (testloader e) e s)
    as [[[] | ex] s1]; simpl in *; auto.
  apply IH; congruence.
Qed.

Lemma run_epochs_training_only (epochs : nat)
      (trainloader testloader : loader Images) (es : list nat) :
  forall s : state,
    training s = true ->
    run_epochs false epochs trainloader testloader es s
    = Driver.run_epochs (training_only forward) torch_exp zero_grad backward
                        optimizer_step false epochs trainloader testloader
                        es s.
Proof.
  induction es as [| e es IH]; intros s Ht; [reflexivity |].
  rewrite !run_epochs_cons.
  rewrite <- (@epoch_ext (training_only forward) false)
    by (rewrite ?Ht; reflexivity).
  pose proof (epoch_mode_cell13 forward torch_exp zero_grad backward
                                optimizer_step epochs (trainloader e)
                                (testloader e) e s) as Hm.
  destruct (epoch false epochs (trainloader e) (testloader e) e s)
    as [[[] | ex] s1]; simpl in *; auto.
  apply IH; congruence.
Qed.

(** X2.  Cell 17 asks the model either with grad on in training mode (the
    training batches) or with grad off in evaluation mode (the
    validation batches), never with mixed flags: a model that refuses
    mixed flags gives the same run.  Cell 13 asks the model in training
    mode only, also for its validation batches. *)
Theorem flags_at_model_calls (trainloader testloader : loader Images)
        (n : Net) :
  cell17 trainloader testloader n
  = Driver.cell17 (matched_flags forward) torch_exp zero_grad backward
                  optimizer_step trainloader testloader n
  /\ cell13 trainloader testloader n
     = Driver.cell13 (training_only forward) torch_exp zero_grad backward
                     optimizer_step trainloader testloader n.
Proof.
  split.
  - apply run_epochs_matched_flags; reflexivity.
  - apply run_epochs_training_only; reflexivity.
Qed.


(** ** The ways an epoch ends *)

(** The session after an epoch that went through. *)
Lemma epoch_exits (switch_mode : bool) (epochs : nat)
      (trainloader testloader : list batch) (e : nat) (s : state) :
  let pl := per_batch_losses trainloader s in
  let pm := per_batch_metrics testloader
                              (validation_start switch_mode (snd pl)) in
  let s4 := set_grad_enabled (grad_enabled s) (snd pm) in
  epoch switch_mode epochs trainloader testloader e s
  = match fst pl with
    | Raise ex => (Raise ex, snd pl)
    | Ok items =>
        match fst pm with
        | Raise ex => (Raise ex, s4)
        | Ok rs =>
            let x := PyFloat (mean items) in
            let y := PyTensor (mean (map fst rs)) in
            let a := PyTensor (fl_mul_pos (mean (map snd rs)) 100) in
            match trainloader, testloader with
            | [], _ => (Raise ZeroDivisionError, s4)
            | _ :: _, [] =>
                (Raise ZeroDivisionError, append_train_losses x s4)
            | _ :: _, _ :: _ =>
                (Ok tt,
                 mkState (if switch_mode then true else training s)
                         (grad_enabled s) (net (snd pm))
                         (train_losses s ++ [x]) (test_losses s ++ [y])
                         (stdout s ++ [Fmt.report_line e epochs x y a]))
            end
        end
    end.
Proof.
  cbv zeta. rewrite epoch_cases. unfold validation_start.
  destruct (per_batch_losses_frame forward zero_grad backward optimizer_step
                                   trainloader s)
    as [(Ht & Hg & Hx & Hy & Hl) Hlen].
  destruct (per_batch_losses trainloader s) as [[items | ex] s1]; simpl in *;
    [| reflexivity].
  specialize (Hlen items eq_refl).
  match goal with
  | |- context [per_batch_metrics testloader ?s2] =>
      destruct (per_batch_metrics_frame forward torch_exp testloader s2)
        as [(Ht' & Hg' & Hx' & Hy' & Hl') Hlen'];
      assert (Hs2 : train_losses s2 = train_losses s
                    /\ test_losses s2 = test_losses s
                    /\ stdout s2 = stdout s
                    /\ training s2 = if switch_mode then false else training s)
        by (destruct switch_mode; simpl; auto);
      destruct Hs2 as (Hx2 & Hy2 & Hl2 & Ht2);
      destruct (per_batch_metrics testloader s2) as [[rs | ex] s3]
  end; simpl in *; rewrite Hg; [| reflexivity].
  specialize (Hlen' rs eq_refl).
  rewrite epoch_report_cases.
  destruct trainloader as [| b rest].
  { destruct items; [reflexivity | discriminate]. }
  assert (Hne : items <> []) by (destruct items; [discriminate | congruence]).
  rewrite (@sum_floats_from_0 items Hne). simpl length.
  rewrite py_truediv_float.
  replace (fl_div_count (fl_sum items) (S (length rest))) with (mean items)
    by (unfold mean; now rewrite Hlen).
  destruct testloader as [| b' rest'].
  { destruct rs; [reflexivity | discriminate]. }
  assert (Hrs : rs <> []) by (destruct rs; [discriminate | congruence]).
  rewrite <- (map_map fst PyTensor), <- (map_map snd PyTensor).
  rewrite !sum_tensors_from_0 by (destruct rs; [congruence | discriminate]).
  cbn [py_truediv py_mul100].
  replace (fl_div_count (fl_sum (map fst rs)) (length (b' :: rest')))
    with (mean (map fst rs))
    by (unfold mean; now rewrite length_map, Hlen').
  replace (fl_div_count (fl_sum (map snd rs)) (length (b' :: rest')))
    with (mean (map snd rs))
    by (unfold mean; now rewrite length_map, Hlen').
  destruct switch_mode; simpl in *;
    rewrite Hx', Hy', Hl', ?Ht', Hx, Hy, Hl, ?Ht; reflexivity.
Qed.


(** X3.  An epoch returns exactly when both splits have a batch and both
    passes go through all their batches. *)
Theorem epoch_returns_iff (switch_mode : bool) (epochs : nat)
        (trainloader testloader : list batch) (e : nat) (s : state) :
  let pl := per_batch_losses trainloader s in
  let pm := per_batch_metrics testloader
                              (validation_start switch_mode (snd pl)) in
  fst (epoch switch_mode epochs trainloader testloader e s) = Ok tt
  <-> (trainloader <> [] /\ testloader <> []
       /\ (exists items, fst pl = Ok items)
       /\ (exists rs, fst pm = Ok rs)).
Proof.
  cbv zeta. rewrite epoch_exits.
  destruct (fst (per_batch_losses trainloader s)) as [items | ex].
  - destruct (fst (per_batch_metrics testloader _)) as [rs | ex].
    + destruct trainloader, testloader; simpl; split;
        try discriminate; try tauto.
      intros _. repeat split; try discriminate; eauto.
    + simpl. split; [discriminate |].
      intros (_ & _ & _ & rs & H). discriminate.
  - simpl. split; [discriminate |].
    intros (_ & _ & (items & H) & _). discriminate.
Qed.

(** X4.  The validation side of the report.  When an epoch returns, the entry
    appended to [test_losses] is the mean of the per-batch validation
    losses, a tensor; the line printed shows it with the mean training
    loss and 100 times the mean of the per-batch accuracies; and the
    model is as the validation pass left it. *)
Theorem validation_report (switch_mode : bool) (epochs : nat)
        (trainloader testloader : list batch) (e : nat) (s s' : state) :
  epoch switch_mode epochs trainloader testloader e s = (Ok tt, s') ->
  exists items rs s1 s3,
    per_batch_losses trainloader s = (Ok items, s1)
    /\ per_batch_metrics testloader (validation_start switch_mode s1)
       = (Ok rs, s3)
    /\ length rs = length testloader
    /\ test_losses s' = test_losses s ++ [PyTensor (mean (map fst rs))]
    /\ stdout s'
       = stdout s
           ++ [Fmt.report_line
                 e epochs (PyFloat (mean items))
                 (PyTensor (mean (map fst rs)))
                 (PyTensor (fl_mul_pos (mean (map snd rs)) 100))]
    /\ net s' = net s3.
Proof.
  rewrite epoch_exits.
  destruct (per_batch_losses trainloader s) as [[items | ex] s1] eqn:Hpl;
    simpl; [| discriminate].
  destruct (per_batch_metrics_frame forward torch_exp testloader
                                    (validation_start switch_mode s1))
    as [_ Hlen].
  destruct (per_batch_metrics testloader (validation_start switch_mode s1))
    as [[rs | ex] s3] eqn:Hpm; simpl in *; [| discriminate].
  specialize (Hlen rs eq_refl).
  destruct trainloader as [| b rest]; [discriminate |].
  destruct testloader as [| b' rest']; [discriminate |].
  intros H; inversion H; subst s'; clear H. simpl.
  exists items, rs, s1, s3. repeat split; auto.
Qed.

(** ** The histories on every exit *)

Lemma epoch_histories (switch_mode : bool) (epochs : nat)
      (trainloader testloader : list batch) (e : nat) (s : state) :
  let out := epoch switch_mode epochs trainloader testloader e s in
  exists xs ys lines,
    train_losses (snd out) = train_losses s ++ xs
    /\ test_losses (snd out) = test_losses s ++ ys
    /\ stdout (snd out) = stdout s ++ lines
    /\ forallb is_pyfloat xs = true
    /\ forallb is_pytensor ys = true
    /\ length lines = length ys
    /\ match fst out with
       | Ok _ => length xs = 1%nat /\ length ys = 1%nat
       | Raise _ =>
           ys = [] /\ (xs = [] \/ length xs = 1%nat /\ testloader = [])
       end.
Proof.
  cbv zeta. rewrite epoch_exits.
  destruct (per_batch_losses_frame forward zero_grad backward optimizer_step
                                   trainloader s)
    as [(Ht & Hg & Hx & Hy & Hl) _].
  destruct (per_batch_losses trainloader s) as [[items | ex] s1]; simpl in *.
  2:{ exists [], [], []. rewrite !app_nil_r. auto 10. }
  destruct (per_batch_metrics_frame forward torch_exp testloader
                                    (validation_start switch_mode s1))
    as [(Ht' & Hg' & Hx' & Hy' & Hl') _].
  assert (Hs2 : train_losses (validation_start switch_mode s1) = train_losses s
                /\ test_losses (validation_start switch_mode s1)
                   = test_losses s
                /\ stdout (validation_start switch_mode s1) = stdout s)
    by (unfold validation_start; destruct switch_mode; simpl; auto).
  destruct Hs2 as (Hx2 & Hy2 & Hl2).
  destruct (per_batch_metrics testloader (validation_start switch_mode s1))
    as [[rs | ex] s3]; simpl in *.
  2:{ exists [], [], []. rewrite !app_nil_r.
      repeat split; auto; congruence. }
  destruct trainloader as [| b rest]; simpl.
  { exists [], [], []. rewrite !app_nil_r. repeat split; auto; congruence. }
  destruct testloader as [| b' rest']; simpl.
  { exists [PyFloat (mean items)], [], []. rewrite !app_nil_r.
    repeat split; auto; congruence. }
  exists [PyFloat (mean items)], [PyTensor (mean (map fst rs))].
  eexists [_]. repeat split.
Qed.

Lemma run_epochs_histories (switch_mode : bool) (epochs : nat)
      (trainloader testloader : loader Images) (es : list nat) :
  forall s : state,
    let out := run_epochs switch_mode epochs trainloader testloader es s in
    exists k xs ys lines,
      train_losses (snd out) = train_losses s ++ xs
      /\ test_losses (snd out) = test_losses s ++ ys
      /\ stdout (snd out) = stdout s ++ lines
      /\ forallb is_pyfloat xs = true
      /\ forallb is_pytensor ys = true
      /\ length ys = k /\ length lines = k
      /\ match fst out with
         | Ok _ => k = length es /\ length xs = k
         | Raise _ =>
             (k < length es)%nat
             /\ (length xs = k
                 \/ length xs = S k /\ testloader (nth k es 0%nat) = [])
         end.
Proof.
  induction es as [| e es IH]; intros s; cbv zeta.
  - exists 0%nat, [], [], []. simpl. rewrite !app_nil_r. auto 10.
  - rewrite run_epochs_cons.
    destruct (epoch_histories switch_mode epochs (trainloader e)
                              (testloader e) e s)
      as (xs & ys & lines & Hx & Hy & Hl & Fx & Fy & Ll & Hcase).
    destruct (epoch switch_mode epochs (trainloader e) (testloader e) e s)
      as [[[] | ex] s1]; simpl in *.
    + destruct Hcase as [Lx Ly].
      destruct (IH s1) as (k & xs' & ys' & lines' & Hx' & Hy' & Hl' & Fx'
                           & Fy' & Ly' & Ll' & Hcase').
      exists (S k), (xs ++ xs'), (ys ++ ys'), (lines ++ lines').
      rewrite Hx', Hy', Hl', Hx, Hy, Hl, <- !app_assoc, !forallb_app, Fx, Fy,
        Fx', Fy', !length_app, Ll, Ly, Ly', Ll', Lx.
      repeat split; auto.
      destruct (fst (run_epochs switch_mode epochs trainloader testloader es
                                s1)); simpl.
      * destruct Hcase' as [-> ->]. auto.
      * destruct Hcase' as [Hk [-> | [-> Hempty]]].
        -- split; [lia | now left].
        -- split; [lia | right]. split; [reflexivity | exact Hempty].
    + destruct Hcase as [-> Hxs]. exists 0%nat, xs, [], lines.
      destruct lines; [| discriminate].
      repeat split; auto; try lia.
      destruct Hxs as [-> | [Lx Hempty]]; [now left | right; auto].
Qed.

(** X5.  Whatever way the training loop of cell 13 or of cell 17 ends, after
    [k] completed epochs [test_losses] holds [k] tensors and [k] lines
    were printed; [train_losses] holds [k] Python floats, or [k + 1] when
    the run stopped at an epoch whose validation loader was empty, the
    training loss being appended before the division that fails.  A run
    that returns has completed every epoch; a run that raises has
    not. *)
Theorem histories_on_every_exit (switch_mode : bool)
        (trainloader testloader : loader Images) (n : Net) :
  let out := run_epochs switch_mode Driver.epochs trainloader testloader
                        (seq 0 Driver.epochs) (init_state n) in
  exists k,
    length (test_losses (snd out)) = k
    /\ length (stdout (snd out)) = k
    /\ forallb is_pyfloat (train_losses (snd out)) = true
    /\ forallb is_pytensor (test_losses (snd out)) = true
    /\ match fst out with
       | Ok _ => k = 30%nat /\ length (train_losses (snd out)) = 30%nat
       | Raise _ =>
           (k < 30)%nat
           /\ (length (train_losses (snd out)) = k
               \/ length (train_losses (snd out)) = S k
                  /\ testloader k = [])
       end.
Proof.
  cbv zeta.
  destruct (run_epochs_histories switch_mode Driver.epochs trainloader
                                 testloader (seq 0 Driver.epochs)
                                 (init_state n))
    as (k & xs & ys & lines & Hx & Hy & Hl & Fx & Fy & Ly & Ll & Hcase).
  cbn [init_state train_losses test_losses stdout app] in Hx, Hy, Hl.
  exists k. rewrite Hx, Hy, Hl. repeat split; auto.
  rewrite length_seq in Hcase.
  destruct (fst (run_epochs switch_mode Driver.epochs trainloader testloader
                            (seq 0 Driver.epochs) (init_state n))).
  { destruct Hcase as [-> Hxs]. auto. }
  destruct Hcase as [Hk Hxs]. split; [exact Hk |].
  change Driver.epochs with 30%nat in Hxs, Hk.
  rewrite seq_nth in Hxs by exact Hk. exact Hxs.
Qed.


(** ** The accuracy of the report *)

Lemma per_batch_metrics_accuracies (testloader : list batch) :
  (forall b, In b testloader -> snd b <> []) ->
  forall (s s1 : state) (rs : list (fval * fval)),
    per_batch_metrics testloader s = (Ok rs, s1) ->
    Forall (between_0_and 1) (map snd rs).
Proof.
  induction testloader as [| b rest IH]; intros Hlab s s1 rs H; simpl in H.
  - inversion H; subst. constructor.
  - unfold bind in H.
    destruct (validation_step b s) as [[r | ex] s0] eqn:Hb; [| discriminate].
    destruct (per_batch_metrics rest s0) as [[rs' | ex] s2] eqn:Hrest;
      [| discriminate].
    inversion H; subst; clear H.
    apply validation_step_scored in Hb as (log_ps & top_class & _ & Ha).
    simpl. constructor.
    + apply (@accuracy_of_classes_range _ _ _ Ha). apply Hlab. now left.
    + apply (IH (fun b' Hb' => Hlab b' (or_intror Hb')) _ _ _ Hrest).
Qed.

(** X6.  When every validation batch has at least one sample, the accuracy
    that the report line of an epoch shows is a number between 0 and
    100. *)
Theorem reported_accuracy_range (switch_mode : bool) (epochs : nat)
        (trainloader testloader : list batch) (e : nat) (s s' : state) :
  (forall b, In b testloader -> snd b <> []) ->
  epoch switch_mode epochs trainloader testloader e s = (Ok tt, s') ->
  exists x y q,
    stdout s' = stdout s ++ [Fmt.report_line e epochs x y (PyTensor (Fin q))]
    /\ (0 <= q <= 100)%Q.
Proof.
  intros Hlab. rewrite epoch_exits.
  destruct (per_batch_losses trainloader s) as [[items | ex] s1]; simpl;
    [| discriminate].
  destruct (per_batch_metrics_frame forward torch_exp testloader
                                    (validation_start switch_mode s1))
    as [_ Hlen].
  destruct (per_batch_metrics testloader (validation_start switch_mode s1))
    as [[rs | ex] s3] eqn:Hpm; simpl in *; [| discriminate].
  specialize (Hlen rs eq_refl).
  destruct trainloader as [| b rest]; [discriminate |].
  destruct testloader as [| b' rest']; [discriminate |].
  intros H; inversion H; subst s'; clear H. simpl.
  apply (@per_batch_metrics_accuracies _ Hlab) in Hpm.
  apply mean_between in Hpm as (q & Hq & Hr);
    [| destruct rs; [discriminate | discriminate]].
  rewrite Hq. simpl fl_mul_pos.
  eexists. eexists. eexists. split; [reflexivity |].
  change (inject_Z 100) with 100%Q. lra.
Qed.


(** ** The reported accuracy and the fraction of correct samples *)

(** The validation pass seen by the accuracy lines: the predicted
    classes of each batch, as many as its labels, and the accuracy of
    each batch. *)
Lemma per_batch_metrics_classes (testloader : list batch) :
  forall (s s1 : state) (rs : list (fval * fval)),
    per_batch_metrics testloader s = (Ok rs, s1) ->
    exists bs : list scored_batch,
      Forall2 (fun b sb =>
                 snd sb = snd b /\ length (fst sb) = length (snd b)
                 /\ exists log_ps, topk1 (torch_exp log_ps) = Ok (fst sb))
              testloader bs
      /\ Forall2 (fun r sb => accuracy_of_classes (fst sb) (snd sb)
                              = Ok (snd r))
                 rs bs
      /\ forall acc0,
          accumulate acc0 bs
          = Ok (fold_left py_add (map (fun r => PyTensor (snd r)) rs) acc0).
Proof.
  induction testloader as [| b rest IH]; intros s s1 rs H; simpl in H.
  - inversion H; subst. exists [].
    split; [constructor |]. split; [constructor | reflexivity].
  - unfold bind in H.
    destruct (validation_step b s) as [[r | ex] s0] eqn:Hb; [| discriminate].
    destruct (per_batch_metrics rest s0) as [[rs' | ex] s2] eqn:Hrest;
      [| discriminate].
    inversion H; subst; clear H.
    apply validation_step_scored in Hb as (log_ps & top_class & Htop & Ha).
    destruct (IH _ _ _ Hrest) as (bs & Hbs & Hrs & Hacc).
    exists ((top_class, snd b) :: bs). split; [| split].
    + constructor; [| exact Hbs]. simpl. split; [reflexivity |]. split.
      * unfold accuracy_of_classes, equals, view_as in Ha.
        destruct (Nat.eqb_spec (length (snd b)) (length top_class));
          [congruence | discriminate].
      * eauto.
    + constructor; [exact Ha | exact Hrs].
    + intros acc0. simpl. rewrite Ha. simpl. apply Hacc.
Qed.

(** The accuracy of the report line, against the two averages. *)
Lemma epoch_reported_accuracy (switch_mode : bool) (epochs : nat)
      (trainloader testloader : list batch) (e : nat) (s s' : state) :
  epoch switch_mode epochs trainloader testloader e s = (Ok tt, s') ->
  (forall b, In b testloader -> snd b <> []) ->
  exists (items : list fval) (rs : list (fval * fval)) (s1 s3 : state)
         (bs : list scored_batch) (q : Q),
    per_batch_losses trainloader s = (Ok items, s1)
    /\ per_batch_metrics testloader (validation_start switch_mode s1)
       = (Ok rs, s3)
    /\ Forall2 (fun b sb =>
                  snd sb = snd b /\ length (fst sb) = length (snd b)
                  /\ exists log_ps, topk1 (torch_exp log_ps) = Ok (fst sb))
               testloader bs
    /\ Forall2 (fun r sb => accuracy_of_classes (fst sb) (snd sb)
                            = Ok (snd r))
               rs bs
    /\ stdout s'
       = stdout s
           ++ [Fmt.report_line e epochs (PyFloat (mean items))
                               (PyTensor (mean (map fst rs)))
                               (PyTensor (Fin (q * 100)))]
    /\ mean (map snd rs) = Fin q
    /\ (q == sum_of_means bs / inject_Z (Z.of_nat (length bs)))%Q
    /\ ((forall b1 b2, In b1 testloader -> In b2 testloader ->
                       length (snd b1) = length (snd b2)) ->
        (q == overall_fraction bs)%Q).
Proof.
  rewrite epoch_exits. intros H Hlab.
  destruct (per_batch_losses trainloader s) as [[items | ex] s1];
    simpl in H; [| discriminate].
  destruct (per_batch_metrics_frame forward torch_exp testloader
                                    (validation_start switch_mode s1))
    as [_ Hlen].
  destruct (per_batch_metrics testloader (validation_start switch_mode s1))
    as [[rs | ex] s3] eqn:Hpm; simpl in *; [| discriminate].
  specialize (Hlen rs eq_refl).
  destruct trainloader as [| b0 rest0]; [discriminate |].
  destruct testloader as [| b rest] eqn:Htest; [discriminate |].
  rewrite <- Htest in *.
  inversion H; subst s'; clear H. cbn [stdout].
  destruct (per_batch_metrics_classes _ _ Hpm) as (bs & Hbs & Hrb & Hacc).
  pose proof (Forall2_length_eq Hbs) as Hl.
  set (sizes := map (fun b : batch => length (snd b)) testloader).
  assert (Hs : has_sizes bs sizes).
  { subst sizes. clear - Hbs.
    induction Hbs as [| b' sb l l' (E1 & E2 & _) _ IH]; simpl; constructor;
      auto.
    split; congruence. }
  assert (Hpos : forall n, In n sizes -> (0 < n)%nat).
  { intros n Hn. subst sizes. apply in_map_iff in Hn as (b' & <- & Hb').
    specialize (Hlab b' Hb'). destruct (snd b'); [congruence | simpl; lia]. }
  assert (Hne : sizes <> []) by (subst sizes; rewrite Htest; discriminate).
  pose proof (epoch_accuracy_spec Hne Hs Hpos) as (v & Ev & Hv).
  unfold epoch_accuracy in Ev. unfold scored_batch in *.
  rewrite Hacc in Ev. simpl obind in Ev.
  assert (Hrs : rs <> []).
  { intros ->. rewrite Htest in Hlen. discriminate. }
  rewrite <- (map_map snd PyTensor) in Ev.
  rewrite sum_tensors_from_0 in Ev by (destruct rs; [congruence | discriminate]).
  assert (Hk : length bs = length rs) by (rewrite <- Hl; symmetry; exact Hlen).
  rewrite Hk in Ev. cbn [py_truediv] in Ev.
  replace (length rs) with (length (map snd rs)) in Ev by apply length_map.
  fold (mean (map snd rs)) in Ev.
  injection Ev as Ev. subst v.
  apply fl_eq_Fin_inv in Hv as (q & Hq & Hqe).
  exists items, rs, s1, s3, bs, q.
  split; [reflexivity |]. split; [exact Hpm |].
  split; [exact Hbs |]. split; [exact Hrb |]. split.
  { rewrite Hq. cbn [fl_mul_pos]. change (inject_Z 100) with 100%Q.
    reflexivity. }
  split; [exact Hq |]. split; [exact Hqe |].
  intros Hsame. rewrite Hqe.
  set (n := length (snd b)).
  assert (Hall : forall m, In m sizes -> m = n).
  { intros m Hm. subst sizes. apply in_map_iff in Hm as (b' & <- & Hb').
    apply Hsame; [exact Hb' |]. rewrite Htest. now left. }
  assert (Hn0 : (0 < n)%nat).
  { apply Hpos. subst sizes. rewrite Htest. now left. }
  pose proof (@has_sizes_all bs _ n Hs Hall) as Hbsn.
  destruct (@equal_sizes_sums n bs Hn0 Hbsn) as [Hsum Htot].
  assert (Hkpos : (0 < length bs)%nat).
  { rewrite Hk. destruct rs; [congruence | simpl; lia]. }
  unfold overall_fraction. rewrite Hsum, Htot.
  rewrite Nat2Z.inj_mul, inject_Z_mult.
  unfold scored_batch in *.
  field. split; now apply inject_nat_nonzero.
Qed.

(** A run of cell 17 that returns leaves the model in train mode. *)
Lemma run_epochs_mode_ok (epochs : nat)
      (trainloader testloader : loader Images) (es : list nat) :
  forall s : state,
    training s = true ->
    match fst (run_epochs true epochs trainloader testloader es s) with
    | Ok _ =>
        training (snd (run_epochs true epochs trainloader testloader es s))
        = true
    | Raise _ => True
    end.
Proof.
  induction es as [| e es IH]; intros s Ht; [exact Ht |].
  rewrite run_epochs_cons.
  pose proof (epoch_mode_cases forward torch_exp zero_grad backward
                               optimizer_step epochs (trainloader e)
                               (testloader e) e s) as Hm.
  destruct (epoch true epochs (trainloader e) (testloader e) e s)
    as [[[] | ex] s1]; simpl in *; [| exact I].
  apply IH. exact Hm.
Qed.

(** ** Optimizer steps *)

Section Steps.

(** A count kept in the framework state that only [optimizer.step()]
    advances, such as the step counter of Adam. *)
Variable steps : Net -> nat.
Hypothesis forward_steps :
  forall g t images n, steps (snd (forward g t images n)) = steps n.
Hypothesis zero_grad_steps : forall n, steps (zero_grad n) = steps n.
Hypothesis backward_steps : forall n, steps (backward n) = steps n.
Hypothesis optimizer_step_steps :
  forall n, steps (optimizer_step n) = S (steps n).

Lemma train_step_steps (b : batch) (s : state) :
  steps (net (snd (train_step b s)))
  = match fst (train_step b s) with
    | Ok _ => S (steps (net s))
    | Raise _ => steps (net s)
    end.
Proof.
  unfold Driver.train_step, bind, on_net, modify, lift, ret, call_model.
  simpl.
  pose proof (forward_steps (grad_enabled s) (training s) (fst b)
                            (zero_grad (net s))) as Hf.
  destruct (forward _ _ _ _) as [[log_ps | ex] n']; simpl in *.
  - destruct (nll_loss log_ps (snd b)); simpl.
    + now rewrite optimizer_step_steps, backward_steps, Hf, zero_grad_steps.
    + now rewrite Hf, zero_grad_steps.
  - now rewrite Hf, zero_grad_steps.
Qed.

Lemma per_batch_losses_steps (trainloader : list batch) :
  forall s : state,
    let out := per_batch_losses trainloader s in
    match fst out with
    | Ok _ =>
        steps (net (snd out)) = (steps (net s) + length trainloader)%nat
    | Raise _ =>
        (steps (net s) <= steps (net (snd out))
         < steps (net s) + length trainloader)%nat
    end.
Proof.
  induction trainloader as [| b rest IH]; intros s; cbv zeta; simpl.
  - lia.
  - unfold bind. pose proof (train_step_steps b s) as Hb.
    destruct (train_step b s) as [[item | ex] s1]; simpl in *; [| lia].
    specialize (IH s1). cbv zeta in IH.
    destruct (per_batch_losses rest s1) as [[items | ex] s2]; simpl in *; lia.
Qed.

Lemma validation_step_steps (b : batch) (s : state) :
  steps (net (snd (validation_step b s))) = steps (net s).
Proof.
  unfold Driver.validation_step, bind, lift, ret, call_model.
  pose proof (forward_steps (grad_enabled s) (training s) (fst b) (net s))
    as Hf.
  destruct (forward _ _ _ _) as [[log_ps | ex] n']; simpl in *; auto.
  destruct (nll_loss log_ps (snd b)); simpl; auto.
  destruct (batch_accuracy _ _); simpl; auto.
Qed.

Lemma per_batch_metrics_steps (testloader : list batch) :
  forall s : state,
    steps (net (snd (per_batch_metrics testloader s))) = steps (net s).
Proof.
  induction testloader as [| b rest IH]; intros s; simpl; auto.
  unfold bind. pose proof (validation_step_steps b s) as Hb.
  destruct (validation_step b s) as [[r | ex] s1]; simpl in *; auto.
  specialize (IH s1).
  destruct (per_batch_metrics rest s1) as [[rs | ex] s2]; simpl in *;
    congruence.
Qed.

Lemma epoch_steps (switch_mode : bool) (epochs : nat)
      (trainloader testloader : list batch) (e : nat) (s : state) :
  let out := epoch switch_mode epochs trainloader testloader e s in
  match fst out with
  | Ok _ => steps (net (snd out)) = (steps (net s) + length trainloader)%nat
  | Raise _ =>
      (steps (net s) <= steps (net (snd out))
       <= steps (net s) + length trainloader)%nat
  end.
Proof.
  cbv zeta. rewrite epoch_exits.
  pose proof (per_batch_losses_steps trainloader s) as Hl. cbv zeta in Hl.
  destruct (per_batch_losses trainloader s) as [[items | ex] s1]; simpl in *;
    [| lia].
  pose proof (per_batch_metrics_steps testloader
                                      (validation_start switch_mode s1)) as Hv.
  assert (Hn : net (validation_start switch_mode s1) = net s1)
    by (unfold validation_start; destruct switch_mode; reflexivity).
  rewrite Hn in Hv.
  destruct (per_batch_metrics testloader (validation_start switch_mode s1))
    as [[rs | ex] s3]; simpl in *; [| lia].
  destruct trainloader, testloader; simpl in *; lia.
Qed.

(** X7.  The optimizer takes one step for every training batch that goes
    through and none anywhere else: a validation pass takes none, a run
    that returns has taken as many steps as its epochs had training
    batches, and a run that raises has taken at most as many. *)
Theorem one_step_per_training_batch (switch_mode : bool) (epochs : nat)
        (trainloader testloader : loader Images) (es : list nat) (s : state) :
  let out := run_epochs switch_mode epochs trainloader testloader es s in
  let batches := list_sum (map (fun e => length (trainloader e)) es) in
  (forall test s0,
      steps (net (snd (per_batch_metrics test s0))) = steps (net s0))
  /\ (steps (net s) <= steps (net (snd out)) <= steps (net s) + batches)%nat
  /\ match fst out with
     | Ok _ => steps (net (snd out)) = (steps (net s) + batches)%nat
     | Raise _ => True
     end.
Proof.
  cbv zeta. split; [intros; apply per_batch_metrics_steps |].
  revert s. induction es as [| e es IH]; intros s.
  - simpl. lia.
  - rewrite run_epochs_cons. simpl list_sum.
    pose proof (epoch_steps switch_mode epochs (trainloader e) (testloader e)
                            e s) as He. cbv zeta in He.
    destruct (epoch switch_mode epochs (trainloader e) (testloader e) e s)
      as [[[] | ex] s1]; simpl in *; [| lia].
    destruct (IH s1) as [Hr Hok]. rewrite He in Hr, Hok. split; [lia |].
    destruct (fst (run_epochs switch_mode epochs trainloader testloader es
                              s1)); auto. lia.
Qed.

End Steps.

(** ** A model without dropout *)

Section ModeBlind.

(** The forward pass does not look at [model.training]: no dropout, no
    batch norm, as in [Classifier]. *)
Hypothesis mode_blind :
  forall g t images n, forward g t images n = forward g true images n.

Lemma validation_step_mode (t : bool) (b : batch) (s : state) :
  validation_step b (set_training t s)
  = (fst (validation_step b s), set_training t (snd (validation_step b s))).
Proof.
  unfold Driver.validation_step, bind, lift, ret, call_model. simpl.
  rewrite (mode_blind _ t), (mode_blind _ (training s)).
  destruct (forward _ _ _ _) as [[log_ps | ex] n']; simpl; auto.
  destruct (nll_loss log_ps (snd b)); simpl; auto.
  destruct (batch_accuracy _ _); simpl; auto.
Qed.

Lemma per_batch_metrics_mode (t : bool) (testloader : list batch) :
  forall s : state,
    per_batch_metrics testloader (set_training t s)
    = (fst (per_batch_metrics testloader s),
       set_training t (snd (per_batch_metrics testloader s))).
Proof.
  induction testloader as [| b rest IH]; intros s; simpl; auto.
  unfold bind. rewrite validation_step_mode.
  destruct (validation_step b s) as [[r | ex] s1]; simpl; auto.
  rewrite IH.
  destruct (per_batch_metrics rest s1) as [[rs | ex] s2]; simpl; auto.
Qed.

Lemma set_training_same (t : bool) (s : state) :
  training s = t -> set_training t s = s.
Proof. intros <-. destruct s; reflexivity. Qed.

Lemma epoch_mode_blind (epochs : nat) (trainloader testloader : list batch)
      (e : nat) (s : state) :
  training s = true ->
  epoch false epochs trainloader testloader e s
  = (fst (epoch true epochs trainloader testloader e s),
     set_training true (snd (epoch true epochs trainloader testloader e s))).
Proof.
  intros Ht. rewrite !epoch_exits.
  destruct (per_batch_losses_frame forward zero_grad backward optimizer_step
                                   trainloader s) as [(Ht1 & _) _].
  destruct (per_batch_losses trainloader s) as [[items | ex] s1]; simpl in *.
  2:{ rewrite set_training_same by congruence. reflexivity. }
  unfold validation_start. rewrite per_batch_metrics_mode.
  destruct (per_batch_metrics_frame forward torch_exp testloader
                                    (set_grad_enabled false s1))
    as [(Ht3 & _) _].
  destruct (per_batch_metrics testloader (set_grad_enabled false s1))
    as [[rs | ex] s3]; simpl in *.
  2:{ f_equal. destruct s3; simpl in *. unfold set_grad_enabled, set_training.
      simpl. congruence. }
  destruct trainloader, testloader; simpl; rewrite ?Ht; f_equal;
    destruct s3; simpl in *; unfold set_grad_enabled, set_training,
    append_train_losses; simpl; congruence.
Qed.

Lemma run_epochs_mode_blind (epochs : nat)
      (trainloader testloader : loader Images) (es : list nat) :
  forall s : state,
    training s = true ->
    run_epochs false epochs trainloader testloader es s
    = (fst (run_epochs true epochs trainloader testloader es s),
       set_training true
         (snd (run_epochs true epochs trainloader testloader es s))).
Proof.
  induction es as [| e es IH]; intros s Ht.
  - simpl. rewrite set_training_same by exact Ht. reflexivity.
  - rewrite !run_epochs_cons, epoch_mode_blind by exact Ht.
    pose proof (epoch_mode_cases forward torch_exp zero_grad backward
                                 optimizer_step epochs (trainloader e)
                                 (testloader e) e s) as Hm.
    destruct (epoch true epochs (trainloader e) (testloader e) e s)
      as [[[] | ex] s1]; simpl in *; [| reflexivity].
    rewrite set_training_same by exact Hm. apply IH. exact Hm.
Qed.

(** X8.  For a model whose forward pass does not look at the mode, the
    [model.eval()] and [model.train()] of cell 17 change nothing but the
    mode flag itself: the run of cell 13 on the same batches ends the
    same way, with the same histories, the same output and the same
    model, and in the same session when the run returns. *)
Theorem mode_switch_irrelevant_without_dropout
        (trainloader testloader : loader Images) (n : Net) :
  let o13 := cell13 trainloader testloader n in
  let o17 := cell17 trainloader testloader n in
  fst o13 = fst o17
  /\ snd o13 = set_training true (snd o17)
  /\ match fst o17 with
     | Ok _ => snd o13 = snd o17
     | Raise _ => True
     end.
Proof.
  cbv zeta. unfold Driver.cell13, Driver.cell17.
  rewrite run_epochs_mode_blind by reflexivity. cbn [fst snd].
  split; [reflexivity |]. split; [reflexivity |].
  pose proof (@run_epochs_mode_ok Driver.epochs trainloader testloader
                                  (seq 0 Driver.epochs) (init_state n)
                                  eq_refl) as Hm.
  destruct (fst (run_epochs true Driver.epochs trainloader testloader
                            (seq 0 Driver.epochs) (init_state n)));
    [| exact I].
  apply set_training_same. exact Hm.
Qed.

End ModeBlind.


(** ** When the run returns *)

Section Returns.

(** The data fit the model: on every batch the loaders yield, the model
    returns one row of [C] log-probabilities per label, and the labels
    are classes.  [torch.exp] keeps the shape. *)
Variable C : nat.
Variables trainloader testloader : loader Images.
Hypothesis classes : (0 < C)%nat.
Hypothesis train_batches : forall e, trainloader e <> [].
Hypothesis test_batches : forall e, testloader e <> [].
Hypothesis forward_returns :
  forall g t e b n,
    In b (trainloader e ++ testloader e) ->
    exists log_ps n',
      forward g t (fst b) n = (Ok log_ps, n')
      /\ length log_ps = length (snd b)
      /\ (forall row, In row log_ps -> length row = C).
Hypothesis labels_in_range :
  forall e b, In b (trainloader e ++ testloader e) ->
              Forall (in_range C) (snd b).
Hypothesis torch_exp_shape :
  forall t, length (torch_exp t) = length t
            /\ ((forall row, In row t -> length row = C) ->
                forall row, In row (torch_exp t) -> length row = C).

Lemma nll_loss_returns (log_ps : tensor2) (labels : list Z) :
  length log_ps = length labels ->
  (forall row, In row log_ps -> length row = C) ->
  Forall (in_range C) labels ->
  exists v, nll_loss log_ps labels = Ok v.
Proof.
  intros Hlen Hrows Hin. unfold nll_loss.
  rewrite Hlen, Nat.eqb_refl, (@nll_sum_in_range C); auto.
  simpl. eauto.
Qed.

Lemma batch_accuracy_returns (ps : tensor2) (labels : list Z) :
  length ps = length labels ->
  (forall row, In row ps -> length row = C) ->
  exists a, batch_accuracy ps labels = Ok a.
Proof.
  intros Hlen Hrows. unfold batch_accuracy.
  destruct (@topk1_spec ps) as (top_class & -> & Harg).
  { intros row Hrow ->. apply Hrows in Hrow. simpl in Hrow. lia. }
  apply Forall2_length_eq in Harg. simpl.
  unfold accuracy_of_classes, equals, view_as.
  replace (length labels) with (length top_class) by congruence.
  rewrite Nat.eqb_refl. simpl. eauto.
Qed.

Lemma train_step_returns (e : nat) (b : batch) (s : state) :
  In b (trainloader e) -> exists item, fst (train_step b s) = Ok item.
Proof.
  intros Hb. unfold Driver.train_step, bind, on_net, modify, lift, ret,
    call_model. simpl.
  destruct (@forward_returns (grad_enabled s) (training s) e b
                             (zero_grad (net s)))
    as (log_ps & n' & -> & Hlen & Hrows); [apply in_or_app; now left |].
  destruct (@nll_loss_returns log_ps (snd b) Hlen Hrows) as [v ->].
  { apply (labels_in_range e). apply in_or_app. now left. }
  simpl. eauto.
Qed.

Lemma validation_step_returns (e : nat) (b : batch) (s : state) :
  In b (testloader e) -> exists r, fst (validation_step b s) = Ok r.
Proof.
  intros Hb. unfold Driver.validation_step, bind, lift, ret, call_model.
  destruct (@forward_returns (grad_enabled s) (training s) e b (net s))
    as (log_ps & n' & -> & Hlen & Hrows); [apply in_or_app; now right |].
  destruct (@nll_loss_returns log_ps (snd b) Hlen Hrows) as [v ->].
  { apply (labels_in_range e). apply in_or_app. now right. }
  destruct (torch_exp_shape log_ps) as [Hl Hr].
  destruct (@batch_accuracy_returns (torch_exp log_ps) (snd b)) as [a ->];
    [congruence | auto |].
  simpl. eauto.
Qed.

Lemma per_batch_losses_returns (e : nat) (bs : list batch) :
  incl bs (trainloader e) ->
  forall s : state, exists items, fst (per_batch_losses bs s) = Ok items.
Proof.
  induction bs as [| b rest IH]; intros Hin s; simpl; [eauto |].
  unfold bind.
  destruct (@train_step_returns e b s) as [item Hb]; [apply Hin; now left |].
  destruct (train_step b s) as [[item' | ex] s1]; simpl in Hb;
    [| discriminate].
  destruct (IH (fun x Hx => Hin x (or_intror Hx)) s1) as [items Hrest].
  destruct (per_batch_losses rest s1) as [[items' | ex] s2]; simpl in *;
    [eauto | discriminate].
Qed.

Lemma per_batch_metrics_returns (e : nat) (bs : list batch) :
  incl bs (testloader e) ->
  forall s : state, exists rs, fst (per_batch_metrics bs s) = Ok rs.
Proof.
  induction bs as [| b rest IH]; intros Hin s; simpl; [eauto |].
  unfold bind.
  destruct (@validation_step_returns e b s) as [r Hb];
    [apply Hin; now left |].
  destruct (validation_step b s) as [[r' | ex] s1]; simpl in Hb;
    [| discriminate].
  destruct (IH (fun x Hx => Hin x (or_intror Hx)) s1) as [rs Hrest].
  destruct (per_batch_metrics rest s1) as [[rs' | ex] s2]; simpl in *;
    [eauto | discriminate].
Qed.

Lemma epoch_returns (switch_mode : bool) (epochs e : nat) (s : state) :
  fst (epoch switch_mode epochs (trainloader e) (testloader e) e s) = Ok tt.
Proof.
  rewrite epoch_exits.
  destruct (@per_batch_losses_returns e (trainloader e) (incl_refl _) s)
    as [items ->].
  destruct (@per_batch_metrics_returns
              e (testloader e) (incl_refl _)
              (validation_start switch_mode
                                (snd (per_batch_losses (trainloader e) s))))
    as [rs ->].
  pose proof (@train_batches e). pose proof (@test_batches e).
  destruct (trainloader e), (testloader e); simpl; congruence.
Qed.

Lemma run_epochs_returns (switch_mode : bool) (epochs : nat) (es : list nat) :
  forall s : state,
    fst (run_epochs switch_mode epochs trainloader testloader es s) = Ok tt.
Proof.
  induction es as [| e es IH]; intros s; [reflexivity |].
  rewrite run_epochs_cons. pose proof (epoch_returns switch_mode epochs e s).
  destruct (epoch switch_mode epochs (trainloader e) (testloader e) e s)
    as [[[] | ex] s1]; simpl in *; [apply IH | discriminate].
Qed.

(** X10.  When the data fit the model and both loaders yield a batch in every
    epoch, the training loops of cell 13 and of cell 17 return: nothing
    raises, all 30 epochs are reported, and cell 17 leaves the model in
    train mode. *)
Theorem run_returns_on_fitting_data (n : Net) :
  let o13 := cell13 trainloader testloader n in
  let o17 := cell17 trainloader testloader n in
  fst o13 = Ok tt /\ fst o17 = Ok tt
  /\ length (stdout (snd o13)) = 30%nat
  /\ length (stdout (snd o17)) = 30%nat
  /\ training (snd o17) = true.
Proof.
  cbv zeta. unfold Driver.cell13, Driver.cell17.
  pose proof (run_epochs_returns false Driver.epochs (seq 0 Driver.epochs)
                                 (init_state n)) as H13.
  pose proof (run_epochs_returns true Driver.epochs (seq 0 Driver.epochs)
                                 (init_state n)) as H17.
  pose proof (@run_epochs_mode_ok Driver.epochs trainloader testloader
                                  (seq 0 Driver.epochs) (init_state n)
                                  eq_refl) as Hm.
  destruct (run_epochs_histories false Driver.epochs trainloader testloader
                                 (seq 0 Driver.epochs) (init_state n))
    as (k & xs & ys & l13 & _ & _ & Hl13 & _ & _ & Ly & Lk & Hc13).
  destruct (run_epochs_histories true Driver.epochs trainloader testloader
                                 (seq 0 Driver.epochs) (init_state n))
    as (k' & xs' & ys' & l17 & _ & _ & Hl17 & _ & _ & Ly' & Lk' & Hc17).
  rewrite H13 in Hc13. rewrite H17 in Hc17, Hm.
  rewrite Hl13, Hl17. cbn [init_state stdout app].
  rewrite length_seq in Hc13, Hc17.
  destruct Hc13 as [Hk _]. destruct Hc17 as [Hk' _].
  repeat split; auto.
  - rewrite Lk, Hk. reflexivity.
  - rewrite Lk', Hk'. reflexivity.
Qed.

End Returns.

(** ** The validation data and the model *)

Section NoLeak.

(** Under [torch.no_grad()] a forward pass leaves the framework state
    as it is: no graph is recorded, and the model has no layer that
    keeps running statistics. *)
Hypothesis no_grad_pure :
  forall t images n, snd (forward false t images n) = n.

Lemma validation_step_net (b : batch) (s : state) :
  grad_enabled s = false -> net (snd (validation_step b s)) = net s.
Proof.
  intros Hg. unfold Driver.validation_step, bind, lift, ret, call_model.
  rewrite Hg.
  pose proof (no_grad_pure (training s) (fst b) (net s)) as Hn.
  destruct (forward false (training s) (fst b) (net s))
    as [[log_ps | ex] n']; simpl in *; auto.
  destruct (nll_loss log_ps (snd b)); simpl; auto.
  destruct (batch_accuracy _ _); simpl; auto.
Qed.

Lemma per_batch_metrics_net (testloader : list batch) :
  forall s : state,
    grad_enabled s = false ->
    net (snd (per_batch_metrics testloader s)) = net s.
Proof.
  induction testloader as [| b rest IH]; intros s Hg; simpl; auto.
  unfold bind. pose proof (@validation_step_net b s Hg) as Hb.
  destruct (validation_step_frame forward torch_exp b s) as (_ & Hg1 & _).
  destruct (validation_step b s) as [[r | ex] s1]; simpl in *; auto.
  specialize (IH s1 ltac:(congruence)).
  destruct (per_batch_metrics rest s1) as [[rs | ex] s2]; simpl in *;
    congruence.
Qed.

(** What the next training pass reads of a session. *)
#[local] Abbreviation same_model s s' :=
  (training s = training s' /\ grad_enabled s = grad_enabled s'
   /\ net s = net s' /\ train_losses s = train_losses s').

Lemma train_step_same_model (b : batch) (s s' : state) :
  same_model s s' ->
  fst (train_step b s) = fst (train_step b s')
  /\ same_model (snd (train_step b s)) (snd (train_step b s')).
Proof.
  intros (Ht & Hg & Hn & Hx).
  unfold Driver.train_step, bind, on_net, modify, lift, ret, call_model.
  simpl. rewrite Ht, Hg, Hn.
  destruct (forward _ _ _ _) as [[log_ps | ex] n']; simpl; auto.
  destruct (nll_loss log_ps (snd b)); simpl; auto.
Qed.

Lemma per_batch_losses_same_model (trainloader : list batch) :
  forall s s' : state,
    same_model s s' ->
    fst (per_batch_losses trainloader s) = fst (per_batch_losses trainloader s')
    /\ same_model (snd (per_batch_losses trainloader s))
                  (snd (per_batch_losses trainloader s')).
Proof.
  induction trainloader as [| b rest IH]; intros s s' Hs; simpl; auto.
  unfold bind. destruct (@train_step_same_model b s s' Hs) as [Hf Hs1].
  destruct (train_step b s) as [[item | ex] s1],
           (train_step b s') as [[item' | ex'] s1']; simpl in *;
    try discriminate; [| split; [congruence | exact Hs1]].
  destruct (IH s1 s1' Hs1) as [Hf' Hs2].
  destruct (per_batch_losses rest s1) as [[items | ex] s2],
           (per_batch_losses rest s1') as [[items' | ex'] s2']; simpl in *;
    try discriminate; (split; [congruence | exact Hs2]).
Qed.

Lemma epoch_same_model (switch_mode : bool) (epochs : nat)
      (trainloader testloader testloader' : list batch) (e : nat)
      (s s' s1 s1' : state) :
  same_model s s' ->
  epoch switch_mode epochs trainloader testloader e s = (Ok tt, s1) ->
  epoch switch_mode epochs trainloader testloader' e s' = (Ok tt, s1') ->
  same_model s1 s1'.
Proof.
  intros Hs. rewrite !epoch_exits.
  destruct (@per_batch_losses_same_model trainloader s s' Hs)
    as (Hf & Ht & Hg & Hn & Hx).
  destruct (per_batch_losses trainloader s) as [[items | ex] s0],
           (per_batch_losses trainloader s') as [[items' | ex'] s0'];
    simpl in *; try discriminate.
  inversion Hf; subst items'; clear Hf.
  pose proof (@per_batch_metrics_net testloader
                                     (validation_start switch_mode s0)) as N.
  pose proof (@per_batch_metrics_net testloader'
                                     (validation_start switch_mode s0')) as N'.
  destruct (per_batch_metrics testloader _) as [[rs | ex] s3]; simpl in *;
    [| discriminate].
  destruct (per_batch_metrics testloader' _) as [[rs' | ex] s3']; simpl in *;
    [| discriminate].
  destruct trainloader; [discriminate |].
  destruct testloader; [discriminate |].
  destruct testloader'; [discriminate |].
  intros E E'; inversion E; inversion E'; subst; clear E E'. simpl.
  destruct Hs as (Hts & Hgs & Hns & Hxs).
  rewrite N, N' by (unfold validation_start; destruct switch_mode;
                    reflexivity).
  unfold validation_start. rewrite Hts, Hgs, Hxs.
  repeat split; auto. destruct switch_mode; simpl; congruence.
Qed.

Lemma run_epochs_same_model (switch_mode : bool) (epochs : nat)
      (trainloader testloader testloader' : loader Images) (es : list nat) :
  forall s s' s1 s1' : state,
    same_model s s' ->
    run_epochs switch_mode epochs trainloader testloader es s = (Ok tt, s1) ->
    run_epochs switch_mode epochs trainloader testloader' es s'
    = (Ok tt, s1') ->
    same_model s1 s1'.
Proof.
  induction es as [| e es IH]; intros s s' s1 s1' Hs.
  - simpl. intros E E'; inversion E; inversion E'; subst. exact Hs.
  - rewrite !run_epochs_cons.
    destruct (epoch switch_mode epochs (trainloader e) (testloader e) e s)
      as [[[] | ex] s0] eqn:E0; [| discriminate].
    destruct (epoch switch_mode epochs (trainloader e) (testloader' e) e s')
      as [[[] | ex] s0'] eqn:E0'; [| discriminate].
    apply (IH s0 s0').
    exact (@epoch_same_model switch_mode epochs (trainloader e) (testloader e)
                             (testloader' e) e s s' s0 s0' Hs E0 E0').
Qed.

(** X11.  The validation data do not reach the model.  When a forward pass
    under [torch.no_grad()] leaves the framework state alone, two runs
    of a cell that differ in the validation batches only, and both
    return, end with the same model and the same training losses. *)
Theorem validation_data_do_not_train (switch_mode : bool)
        (trainloader testloader testloader' : loader Images) (n : Net)
        (s1 s1' : state) :
  run_epochs switch_mode Driver.epochs trainloader testloader
             (seq 0 Driver.epochs) (init_state n) = (Ok tt, s1) ->
  run_epochs switch_mode Driver.epochs trainloader testloader'
             (seq 0 Driver.epochs) (init_state n) = (Ok tt, s1') ->
  net s1 = net s1' /\ train_losses s1 = train_losses s1'.
Proof.
  intros E E'.
  destruct (@run_epochs_same_model
              switch_mode Driver.epochs trainloader testloader testloader'
              (seq 0 Driver.epochs) (init_state n) (init_state n) s1 s1')
    as (_ & _ & Hn & Hx); auto.
Qed.

End NoLeak.

End DriverMore.

(* ================================================================== *)
(** * The reported accuracy against the overall fraction               *)
(* ================================================================== *)

Section AccuracyRuns.

Import String.

(** C3 fails on the code as an "exactly when".  The two validation
    batches have two samples and one, and every sample is classified
    right: the epoch reports 100%, which is the overall fraction 3/3,
    though the batches differ in size. *)
Lemma unequal_batches_report_overall_fraction :
  map (fun b => List.length (snd b)) Synthetic.testloader_uneven_right
  = [2; 1]%nat
  /\ map (fun b => topk1 (Synthetic.torch_exp (fst b)))
         Synthetic.testloader_uneven_right
     = [Ok [0; 1]%Z; Ok [0]%Z]
  /\ map snd Synthetic.testloader_uneven_right = [[0; 1]%Z; [0]%Z]
  /\ (overall_fraction [([0; 1]%Z, [0; 1]%Z); ([0]%Z, [0]%Z)] == 1)%Q
  /\ exists s',
      Synthetic.epoch true 30 Synthetic.trainloader
                      Synthetic.testloader_uneven_right 0
                      (Driver.init_state 0%nat) = (Ok tt, s')
      /\ Driver.stdout s'
         = ["Epoch 1 of 30  |  Train Loss: 0.500  |  Test Loss: 0.225  |  Accuracy: 100.000%"%string].
Proof.
  repeat split; try reflexivity.
  eexists. split; vm_compute; reflexivity.
Qed.

(** C3, as the code has it.  When an epoch returns and no validation
    batch is empty, the accuracy of its report line is 100 times the
    unweighted mean of the per-batch accuracies of its validation pass,
    each the share of samples whose predicted class is the label, over
    the number of validation batches; when all validation
    batches have the same size it is 100 times the fraction of
    correctly classified validation samples.  For given batch sizes the
    two averages agree on all predictions and labels exactly when the
    sizes are all equal; they can agree on unequal batches.  With two
    samples right in a first batch and one wrong in a last, the epoch
    reports 50% against the fraction 2/3. *)
Theorem mean_of_batch_means_vs_overall_fraction :
  (forall (Net Images : Type)
          (forward : bool -> bool -> Images -> Net -> outcome tensor2 * Net)
          (torch_exp : tensor2 -> tensor2)
          (zero_grad backward optimizer_step : Net -> Net)
          (switch_mode : bool) (epochs : nat)
          (trainloader testloader : list (Driver.batch Images)) (e : nat)
          (s s' : Driver.state Net),
      Driver.epoch forward torch_exp zero_grad backward optimizer_step
                   switch_mode epochs trainloader testloader e s = (Ok tt, s') ->
      (forall b, In b testloader -> snd b <> []) ->
      exists (items : list fval) (rs : list (fval * fval))
             (s1 s3 : Driver.state Net) (bs : list scored_batch) (q : Q),
        Driver.per_batch_losses forward zero_grad backward optimizer_step
                                trainloader s = (Ok items, s1)
        /\ Driver.per_batch_metrics forward torch_exp testloader
                                    (Obs.validation_start switch_mode s1)
           = (Ok rs, s3)
        /\ Forall2 (fun b sb =>
                      snd sb = snd b
                      /\ List.length (fst sb) = List.length (snd b)
                      /\ exists log_ps,
                          topk1 (torch_exp log_ps) = Ok (fst sb))
                   testloader bs
        /\ Forall2 (fun r sb => accuracy_of_classes (fst sb) (snd sb)
                                = Ok (snd r))
                   rs bs
        /\ Driver.stdout s'
           = Driver.stdout s
               ++ [Fmt.report_line e epochs (PyFloat (mean items))
                                   (PyTensor (mean (map fst rs)))
                                   (PyTensor (Fin (q * 100)))]
        /\ mean (map snd rs) = Fin q
        /\ (q == sum_of_means bs / inject_Z (Z.of_nat (List.length bs)))%Q
        /\ ((forall b1 b2, In b1 testloader -> In b2 testloader ->
                           List.length (snd b1) = List.length (snd b2)) ->
            (q == overall_fraction bs)%Q))
  /\ (forall sizes : list nat,
         sizes <> [] -> (forall n, In n sizes -> (0 < n)%nat) ->
         (forall bs, has_sizes bs sizes ->
                     (sum_of_means bs / inject_Z (Z.of_nat (List.length bs))
                      == overall_fraction bs)%Q)
         <-> (forall n m, In n sizes -> In m sizes -> n = m))
  /\ (map (fun b => List.length (snd b)) Synthetic.testloader_uneven_mixed
      = [2; 1]%nat
      /\ map (fun b => topk1 (Synthetic.torch_exp (fst b)))
             Synthetic.testloader_uneven_mixed
         = [Ok [0; 1]%Z; Ok [0]%Z]
      /\ map snd Synthetic.testloader_uneven_mixed = [[0; 1]%Z; [1]%Z]
      /\ (overall_fraction [([0; 1]%Z, [0; 1]%Z); ([0]%Z, [1]%Z)] == 2 # 3)%Q
      /\ exists s',
          Synthetic.epoch true 30 Synthetic.trainloader
                          Synthetic.testloader_uneven_mixed 0
                          (Driver.init_state 0%nat) = (Ok tt, s')
          /\ Driver.stdout s'
             = ["Epoch 1 of 30  |  Train Loss: 0.500  |  Test Loss: 0.975  |  Accuracy: 50.000%"%string]).
Proof.
  split; [| split].
  - intros Net Images forward torch_exp zero_grad backward optimizer_step
           switch_mode epochs trainloader testloader e s s' H Hlab.
    exact (epoch_reported_accuracy _ _ _ _ _ _ _ _ _ _ _ H Hlab).
  - intros sizes Hne Hpos.
    assert (Hmean : forall bs, has_sizes bs sizes ->
                is_tensor_of (epoch_accuracy bs)
                             (sum_of_means bs
                              / inject_Z (Z.of_nat (List.length bs))))
      by (intros bs Hs; exact (@epoch_accuracy_spec bs _ Hne Hs Hpos)).
    split.
    + intros Hagree n m Hn Hm.
      assert (Hagree' : forall bs, has_sizes bs sizes ->
                  is_tensor_of (epoch_accuracy bs) (overall_fraction bs)).
      { intros bs Hs. eapply is_tensor_of_Qeq; [| exact (Hmean bs Hs)].
        now apply Hagree. }
      pose proof (@agreement_forces_size sizes n Hpos Hagree' Hn) as En.
      pose proof (@agreement_forces_size sizes m Hpos Hagree' Hm) as Em.
      assert (Hk : (0 < List.length sizes)%nat)
        by (destruct sizes; [congruence | simpl; lia]).
      nia.
    + intros Hall bs Hs.
      destruct sizes as [| n sizes']; [congruence |].
      assert (Hn : (0 < n)%nat) by (apply Hpos; now left).
      assert (Hsame : forall m, In m (n :: sizes') -> m = n)
        by (intros m Hm; apply Hall; simpl; auto).
      pose proof (@has_sizes_all bs _ n Hs Hsame) as Hbs.
      destruct (@equal_sizes_sums n bs Hn Hbs) as [Hsum Htot].
      pose proof (@has_sizes_length bs _ Hs) as Hlen.
      unfold overall_fraction. rewrite Hsum, Htot.
      rewrite Nat2Z.inj_mul, inject_Z_mult.
      assert (Hk : (0 < List.length bs)%nat) by (rewrite Hlen; simpl; lia).
      unfold scored_batch in *.
      field. split; now apply inject_nat_nonzero.
  - repeat split; try reflexivity.
    eexists. split; vm_compute; reflexivity.
Qed.

Lemma mean_of_batch_means_vs_overall_fraction_witness :
  exists (items : list fval) (rs : list (fval * fval))
         (s1 s3 : Driver.state Synthetic.Net) (bs : list scored_batch)
         (q : Q),
    Synthetic.per_batch_losses Synthetic.trainloader (Driver.init_state 0%nat)
    = (Ok items, s1)
    /\ Driver.per_batch_metrics Synthetic.forward Synthetic.torch_exp
                                Synthetic.testloader_uneven_mixed
                                (Obs.validation_start true s1)
       = (Ok rs, s3)
    /\ Forall2 (fun b sb =>
                  snd sb = snd b
                  /\ List.length (fst sb) = List.length (snd b)
                  /\ exists log_ps,
                      topk1 (Synthetic.torch_exp log_ps) = Ok (fst sb))
               Synthetic.testloader_uneven_mixed bs
    /\ Forall2 (fun r sb => accuracy_of_classes (fst sb) (snd sb)
                            = Ok (snd r))
               rs bs
    /\ Driver.stdout
         (snd (Synthetic.epoch true 30 Synthetic.trainloader
                               Synthetic.testloader_uneven_mixed 0
                               (Driver.init_state 0%nat)))
       = Driver.stdout (Driver.init_state 0%nat)
           ++ [Fmt.report_line 0 30 (PyFloat (mean items))
                               (PyTensor (mean (map fst rs)))
                               (PyTensor (Fin (q * 100)))]
    /\ mean (map snd rs) = Fin q
    /\ (q == sum_of_means bs / inject_Z (Z.of_nat (List.length bs)))%Q
    /\ ((forall b1 b2,
            In b1 Synthetic.testloader_uneven_mixed ->
            In b2 Synthetic.testloader_uneven_mixed ->
            List.length (snd b1) = List.length (snd b2)) ->
        (q == overall_fraction bs)%Q).
Proof.
  apply (proj1 mean_of_batch_means_vs_overall_fraction
               Synthetic.Net Synthetic.Images Synthetic.forward
               Synthetic.torch_exp Synthetic.zero_grad Synthetic.backward
               Synthetic.optimizer_step true 30%nat Synthetic.trainloader
               Synthetic.testloader_uneven_mixed 0%nat
               (Driver.init_state 0%nat)).
  - vm_compute. reflexivity.
  - intros b [<- | [<- | []]]; discriminate.
Defined.

End AccuracyRuns.

(* ================================================================== *)
(** * The forward pass and cell 19: shapes and errors                  *)
(* ================================================================== *)

Section ModelMore.

Import Model.

Context {S : Type} `{Scalar S}.
Variable RNG : Type.
Variable bernoulli : Q -> RNG -> bool * RNG.
Variable testloader_iter : RNG -> list (image_batch (S := S)) * RNG.

Lemma linear_row_raises (l : Linear) (x : list S) (e : exn) :
  linear_row l x = Raise e -> e = RuntimeError.
Proof.
  unfold linear_row. destruct (Nat.eqb _ _); [discriminate |]. congruence.
Qed.

Lemma linear_raises (l : Linear) (x : tensor) (e : exn) :
  linear l x = Raise e -> e = RuntimeError.
Proof.
  induction x as [| row rows IH]; simpl; [discriminate |].
  destruct (linear_row l row) as [r | e0] eqn:Hr; simpl.
  - destruct (linear l rows) as [rs | e1]; simpl; [discriminate |].
    intros E; inversion E; subst. now apply IH.
  - intros E; inversion E; subst. exact (linear_row_raises _ _ Hr).
Qed.

(** A layer goes through only on rows of [in_features] elements. *)
Lemma linear_rows (l : Linear) (x y : tensor) :
  linear l x = Ok y ->
  forallb (fun r => Nat.eqb (length r) (in_features l)) x = true.
Proof.
  revert y. induction x as [| row rows IH]; intros y; simpl; [reflexivity |].
  unfold linear_row.
  destruct (Nat.eqb (length row) (in_features l)); simpl; [| discriminate].
  destruct (linear l rows) as [rs |]; simpl; [| discriminate].
  intros _. exact (IH rs eq_refl).
Qed.

Lemma forallb_of_map {A B : Type} (f : B -> bool) (g : A -> B) (l : list A) :
  forallb f (map g l) = forallb (fun a => f (g a)) l.
Proof. induction l as [| a l IH]; simpl; congruence. Qed.

Lemma view_flat_raises (x : input (S := S)) (e : exn) :
  view_flat x = Raise e -> e = RuntimeError.
Proof.
  unfold view_flat. destruct (shape0 x); [congruence |].
  destruct x; discriminate.
Qed.

(** The first layer goes through only on a batch of the right shape. *)
Lemma first_layer_needs_shape (self : Classifier) (x : input)
      (x0 x1 : tensor) :
  classifier_shape self = true ->
  view_flat x = Ok x0 -> linear (fc1 self) x0 = Ok x1 ->
  input_shape x = true.
Proof.
  unfold classifier_shape, linear_shape. rewrite !andb_true_iff, !Nat.eqb_eq.
  intros [[[[[[[Hin _] _] _] _] _] _] _].
  unfold view_flat, input_shape.
  destruct (shape0 x) as [| k] eqn:Hk; simpl; [discriminate |].
  intros E0 E1. apply linear_rows in E1. rewrite Hin in E1.
  destruct x as [images | rows]; inversion E0; subst; clear E0.
  - now rewrite forallb_of_map in E1.
  - exact E1.
Qed.

(** ** Dropout keeps the shape *)

Lemma map_M_returns {A B : Type} (f : A -> M RNG B) :
  (forall a g, exists b g', f a g = (Ok b, g')) ->
  forall xs g, exists ys g',
      map_M f xs g = (Ok ys, g') /\ length ys = length xs.
Proof.
  intros Hf. induction xs as [| x rest IH]; intros g; simpl.
  - exists [], g. auto.
  - unfold bind, ret. destruct (Hf x g) as (y & g1 & ->).
    destruct (IH g1) as (ys & g2 & -> & L). exists (y :: ys), g2.
    simpl. auto.
Qed.

Lemma dropout_row_returns (p : Q) (row : list S) (g : RNG) :
  exists ys g',
    map_M (dropout_unit bernoulli p) row g = (Ok ys, g')
    /\ length ys = length row.
Proof.
  apply map_M_returns. intros a g0. unfold dropout_unit.
  destruct (bernoulli p g0) as [d g1]. eauto.
Qed.

Lemma dropout_shape (p : Q) (training : bool) (n : nat) (x : tensor)
      (g : RNG) :
  rows_of n x ->
  exists y g',
    dropout bernoulli p training x g = (Ok y, g')
    /\ length y = length x /\ rows_of n y.
Proof.
  unfold dropout. destruct training; [| intros Hx; exists x, g; auto].
  revert g. induction x as [| row rows IH]; intros g Hx; simpl.
  - exists [], g. repeat split; auto.
  - unfold bind, ret.
    destruct (dropout_row_returns p row g) as (r & g1 & -> & Lr).
    destruct (IH g1) as (rs & g2 & -> & L & R);
      [intros r0 Hr0; apply Hx; now right |].
    exists (r :: rs), g2. repeat split; simpl; auto.
    intros r0 [<- | Hr0]; [| now apply R].
    rewrite Lr. apply Hx. now left.
Qed.

(** X12.  With the layers shaped as [__init__] shapes them, the forward pass
    of either classifier, in either mode and whatever the dropout draws,
    returns one row of ten values per sample when the batch is not empty
    and every sample has 784 elements, and raises [RuntimeError]
    without drawing anything otherwise. *)
Theorem forward_shape_contract (self : Classifier) (x : input)
        (training : bool) (g : RNG) :
  classifier_shape self = true ->
  let plain := Classifier_forward self x in
  let out := DropoutClassifier_forward bernoulli self training x g in
  if input_shape x
  then (exists y : tensor (S := S),
           plain = Ok y /\ length y = shape0 x /\ rows_of 10 y)
       /\ (exists y : tensor (S := S),
              fst out = Ok y /\ length y = shape0 x /\ rows_of 10 y)
  else plain = Raise RuntimeError /\ out = (Raise RuntimeError, g).
Proof.
  intros Hself. cbv zeta.
  destruct (input_shape x) eqn:Hx.
  - split.
    + destruct (Classifier_forward_ok self x Hself Hx) as (sc & E & L & R).
      exists (log_softmax sc). split; [exact E |].
      unfold log_softmax. rewrite length_map. split; [exact L |].
      intros row Hrow. apply in_map_iff in Hrow as [r [<- Hr]].
      rewrite length_map. now apply R.
    + revert Hself. unfold classifier_shape. rewrite !andb_true_iff.
      intros [[[H1 H2] H3] H4].
      unfold DropoutClassifier_forward, bind, lift, ret.
      destruct (view_flat_ok x Hx) as (x0 & E0 & L0 & R0). rewrite E0.
      destruct (@linear_ok _ _ _ _ _ x0 H1 R0) as (x1 & E1 & L1 & R1).
      rewrite E1. destruct (@relu_shape _ _ _ x1 R1) as [L1' R1'].
      destruct (@dropout_shape dropout_p training _ (relu x1) g R1')
        as (d1 & g1 & -> & Ld1 & Rd1).
      destruct (@linear_ok _ _ _ _ _ d1 H2 Rd1) as (x2 & E2 & L2 & R2).
      rewrite E2. destruct (@relu_shape _ _ _ x2 R2) as [L2' R2'].
      destruct (@dropout_shape dropout_p training _ (relu x2) g1 R2')
        as (d2 & g2 & -> & Ld2 & Rd2).
      destruct (@linear_ok _ _ _ _ _ d2 H3 Rd2) as (x3 & E3 & L3 & R3).
      rewrite E3. destruct (@relu_shape _ _ _ x3 R3) as [L3' R3'].
      destruct (@dropout_shape dropout_p training _ (relu x3) g2 R3')
        as (d3 & g3 & -> & Ld3 & Rd3).
      destruct (@linear_ok _ _ _ _ _ d3 H4 Rd3) as (x4 & E4 & L4 & R4).
      rewrite E4. simpl. exists (log_softmax x4). split; [reflexivity |].
      unfold log_softmax. rewrite length_map. split; [congruence |].
      intros row Hrow. apply in_map_iff in Hrow as [r [<- Hr]].
      rewrite length_map. now apply R4.
  - unfold Classifier_forward, DropoutClassifier_forward, bind, lift.
    destruct (view_flat x) as [x0 | e] eqn:E0; simpl.
    2:{ apply view_flat_raises in E0. subst. auto. }
    destruct (linear (fc1 self) x0) as [x1 | e] eqn:E1; simpl.
    2:{ apply linear_raises in E1. subst. auto. }
    pose proof (first_layer_needs_shape _ _ Hself E0 E1). congruence.
Qed.


(** ** The outcomes of cell 19 *)

(** X14.  Cell 19 with a model shaped as [__init__] shapes it.  The cell
    leaves the parameters as they are, the model in evaluation mode and
    the generator as the draw of the shuffled loader left it: the forward
    pass draws nothing.  It raises [StopIteration] when the loader
    yields no batch, [IndexError] when the first batch has no image and
    [RuntimeError] when the first image has not 784 elements; otherwise
    [ps] is one row of ten values.  In each case the outcome is that of
    the single-sample path on the first image of the first batch. *)
Theorem inference_outcomes (s : session RNG) :
  classifier_shape (model s) = true ->
  let out := inference bernoulli testloader_iter s in
  let drawn := testloader_iter (rng s) in
  snd out = mkSession (model s) false (snd drawn)
  /\ match fst drawn with
     | [] => fst out = Raise StopIteration
     | ([], _) :: _ => fst out = Raise IndexError
     | (img :: _, _) :: _ =>
         fst out = fst (single_sample bernoulli img s)
         /\ if Nat.eqb (length (concat (concat img))) 784
            then exists ps : list S, fst out = Ok [ps] /\ length ps = 10%nat
            else fst out = Raise RuntimeError
     end.
Proof.
  intros Hself. cbv zeta. rewrite inference_eval. cbn [fst snd].
  split; [reflexivity |].
  destruct (fst (testloader_iter (rng s))) as [| [[| img imgs] labels] rest];
    cbn [dataiter_next obind first_image fst]; try reflexivity.
  split; [reflexivity |].
  rewrite single_sample_eval. cbn [fst]. unfold view_1_784.
  destruct (Nat.eqb (length (concat (concat img))) 784) eqn:Hlen;
    cbn [obind]; [| reflexivity].
  assert (Hx : input_shape (Batch2 [concat (concat img)]) = true).
  { unfold input_shape. cbn [shape0 length forallb]. rewrite Hlen.
    reflexivity. }
  destruct (Classifier_forward_ok (model s) _ Hself Hx)
    as (scores & E & L & Rw).
  rewrite E. cbn [obind shape0 length] in *.
  destruct scores as [| row [| row' more]]; try discriminate.
  eexists. split; [reflexivity |].
  rewrite !length_map. apply Rw. now left.
Qed.

End ModelMore.

(* ================================================================== *)
(** * The further properties on the synthetic session                  *)
(* ================================================================== *)

(** The synthetic data fit the synthetic model, with two classes. *)
Lemma synthetic_forward_returns (g t : bool) (b : Synthetic.batch)
      (n : Synthetic.Net) :
  In b (Synthetic.trainloader ++ Synthetic.testloader) ->
  exists log_ps n',
    Synthetic.forward g t (fst b) n = (Ok log_ps, n')
    /\ length log_ps = length (snd b)
    /\ (forall row, In row log_ps -> length row = 2%nat).
Proof.
  intros Hb. exists (fst b), n. split; [reflexivity |].
  simpl in Hb. destruct Hb as [<- | [<- | [<- | []]]]; simpl;
    (split; [reflexivity |]); intros row Hrow;
    repeat (destruct Hrow as [<- | Hrow]; [reflexivity |]); destruct Hrow.
Qed.

Lemma synthetic_labels_in_range (b : Synthetic.batch) :
  In b (Synthetic.trainloader ++ Synthetic.testloader) ->
  Forall (in_range 2) (snd b).
Proof.
  simpl. intros [<- | [<- | [<- | []]]]; simpl;
    repeat constructor; unfold in_range; simpl; lia.
Qed.

Lemma synthetic_torch_exp_shape (t : tensor2) :
  length (Synthetic.torch_exp t) = length t
  /\ ((forall row, In row t -> length row = 2%nat) ->
      forall row, In row (Synthetic.torch_exp t) -> length row = 2%nat).
Proof.
  unfold Synthetic.torch_exp. split; [apply length_map |].
  intros Hrows row Hrow. apply in_map_iff in Hrow as (r & <- & Hr).
  rewrite length_map. now apply Hrows.
Qed.

Section MoreRuns.

Import Ieee.

Lemma validation_report_witness :
  exists items rs s1 s3,
    Synthetic.per_batch_losses Synthetic.trainloader (Driver.init_state 0%nat)
    = (Ok items, s1)
    /\ Driver.per_batch_metrics Synthetic.forward Synthetic.torch_exp
                                Synthetic.testloader
                                (Obs.validation_start true s1)
       = (Ok rs, s3)
    /\ length rs = length Synthetic.testloader
    /\ Driver.test_losses
         (snd (Synthetic.epoch true 30 Synthetic.trainloader
                               Synthetic.testloader 0
                               (Driver.init_state 0%nat)))
       = Driver.test_losses (Driver.init_state 0%nat)
           ++ [PyTensor (mean (map fst rs))]
    /\ Driver.stdout
         (snd (Synthetic.epoch true 30 Synthetic.trainloader
                               Synthetic.testloader 0
                               (Driver.init_state 0%nat)))
       = Driver.stdout (Driver.init_state 0%nat)
           ++ [Fmt.report_line
                 0 30 (PyFloat (mean items)) (PyTensor (mean (map fst rs)))
                 (PyTensor (fl_mul_pos (mean (map snd rs)) 100))]
    /\ Driver.net
         (snd (Synthetic.epoch true 30 Synthetic.trainloader
                               Synthetic.testloader 0
                               (Driver.init_state 0%nat)))
       = Driver.net s3.
Proof.
  apply (@validation_report
           Synthetic.Net Synthetic.Images Synthetic.forward
           Synthetic.torch_exp Synthetic.zero_grad Synthetic.backward
           Synthetic.optimizer_step true 30%nat Synthetic.trainloader
           Synthetic.testloader 0%nat (Driver.init_state 0%nat)).
  vm_compute. reflexivity.
Defined.

Lemma reported_accuracy_range_witness :
  exists x y q,
    Driver.stdout
      (snd (Synthetic.epoch true 30 Synthetic.trainloader
                            Synthetic.testloader 0 (Driver.init_state 0%nat)))
    = Driver.stdout (Driver.init_state 0%nat)
        ++ [Fmt.report_line 0 30 x y (PyTensor (Fin q))]
    /\ (0 <= q <= 100)%Q.
Proof.
  apply (@reported_accuracy_range
           Synthetic.Net Synthetic.Images Synthetic.forward
           Synthetic.torch_exp Synthetic.zero_grad Synthetic.backward
           Synthetic.optimizer_step true 30%nat Synthetic.trainloader
           Synthetic.testloader 0%nat (Driver.init_state 0%nat)).
  - intros b [<- | []]. discriminate.
  - vm_compute. reflexivity.
Defined.

Lemma one_step_per_training_batch_witness :
  let out :=
    Driver.run_epochs Synthetic.forward Synthetic.torch_exp
                      Synthetic.zero_grad Synthetic.backward
                      Synthetic.optimizer_step true 30
                      (fun _ => Synthetic.trainloader)
                      (fun _ => Synthetic.testloader) [0; 1]%nat
                      (Driver.init_state 0%nat) in
  (forall test s0,
      Driver.net (snd (Driver.per_batch_metrics Synthetic.forward
                                                Synthetic.torch_exp test s0))
      = Driver.net s0)
  /\ (0 <= Driver.net (snd out) <= 0 + 4)%nat
  /\ match fst out with
     | Ok _ => Driver.net (snd out) = (0 + 4)%nat
     | Raise _ => True
     end.
Proof.
  exact (@one_step_per_training_batch
           Synthetic.Net Synthetic.Images Synthetic.forward
           Synthetic.torch_exp Synthetic.zero_grad Synthetic.backward
           Synthetic.optimizer_step (fun n : nat => n)
           (fun _ _ _ _ => eq_refl) (fun _ => eq_refl) (fun _ => eq_refl)
           (fun _ => eq_refl) true 30%nat (fun _ => Synthetic.trainloader)
           (fun _ => Synthetic.testloader) [0; 1]%nat
           (Driver.init_state 0%nat)).
Defined.

Lemma mode_switch_irrelevant_without_dropout_witness :
  let o13 := Synthetic.cell13 Synthetic.trainloader Synthetic.testloader
                              0%nat in
  let o17 := Synthetic.cell17 Synthetic.trainloader Synthetic.testloader
                              0%nat in
  fst o13 = fst o17
  /\ snd o13 = Driver.set_training true (snd o17)
  /\ match fst o17 with
     | Ok _ => snd o13 = snd o17
     | Raise _ => True
     end.
Proof.
  exact (@mode_switch_irrelevant_without_dropout
           Synthetic.Net Synthetic.Images Synthetic.forward
           Synthetic.torch_exp Synthetic.zero_grad Synthetic.backward
           Synthetic.optimizer_step (fun _ _ _ _ => eq_refl)
           (fun _ => Synthetic.trainloader) (fun _ => Synthetic.testloader)
           0%nat).
Defined.

Lemma forward_shape_contract_witness :
  let plain :=
    Model.Classifier_forward Ieee.zero_classifier Ieee.blank_batch in
  let out :=
    Model.DropoutClassifier_forward
      (fun (_ : Q) (g : unit) => (false, g)) Ieee.zero_classifier true
      Ieee.blank_batch tt in
  if Model.input_shape Ieee.blank_batch
  then (exists y : Model.tensor (S := xreal),
           plain = Ok y /\ length y = Model.shape0 Ieee.blank_batch
           /\ Model.rows_of 10 y)
       /\ (exists y : Model.tensor (S := xreal),
              fst out = Ok y /\ length y = Model.shape0 Ieee.blank_batch
              /\ Model.rows_of 10 y)
  else plain = Raise RuntimeError /\ out = (Raise RuntimeError, tt).
Proof.
  apply (@forward_shape_contract
           xreal Ieee.Scalar_X unit (fun (_ : Q) (g : unit) => (false, g))
           Ieee.zero_classifier Ieee.blank_batch true tt).
  vm_compute. reflexivity.
Defined.

Lemma inference_outcomes_witness :
  let bernoulli := fun (_ : Q) (g : nat) => (false, g) in
  let testloader_iter :=
    fun g : nat => ([([Ieee.blank_image], [0%Z])], S g) in
  let s := Model.mkSession Ieee.zero_classifier true 0%nat in
  let out := Model.inference bernoulli testloader_iter s in
  snd out = Model.mkSession Ieee.zero_classifier false 1%nat
  /\ fst out = fst (Model.single_sample bernoulli Ieee.blank_image s)
  /\ if Nat.eqb (length (concat (concat Ieee.blank_image))) 784
     then exists ps : list xreal, fst out = Ok [ps] /\ length ps = 10%nat
     else fst out = Raise RuntimeError.
Proof.
  apply (@inference_outcomes
           xreal Ieee.Scalar_X nat (fun (_ : Q) (g : nat) => (false, g))
           (fun g : nat => ([([Ieee.blank_image], [0%Z])], S g))
           (Model.mkSession Ieee.zero_classifier true 0%nat)).
  vm_compute. reflexivity.
Defined.

Lemma run_returns_on_fitting_data_witness :
  let o13 := Synthetic.cell13 Synthetic.trainloader Synthetic.testloader
                              0%nat in
  let o17 := Synthetic.cell17 Synthetic.trainloader Synthetic.testloader
                              0%nat in
  fst o13 = Ok tt /\ fst o17 = Ok tt
  /\ length (Driver.stdout (snd o13)) = 30%nat
  /\ length (Driver.stdout (snd o17)) = 30%nat
  /\ Driver.training (snd o17) = true.
Proof.
  refine (@run_returns_on_fitting_data
            Synthetic.Net Synthetic.Images Synthetic.forward
            Synthetic.torch_exp Synthetic.zero_grad Synthetic.backward
            Synthetic.optimizer_step 2%nat (fun _ => Synthetic.trainloader)
            (fun _ => Synthetic.testloader) _ _ _ _ _ _ 0%nat).
  - lia.
  - discriminate.
  - discriminate.
  - intros g t _ b n. apply synthetic_forward_returns.
  - intros _ b. apply synthetic_labels_in_range.
  - apply synthetic_torch_exp_shape.
Defined.

Lemma validation_data_do_not_train_witness :
  Driver.net
    (snd (Synthetic.cell17 Synthetic.trainloader Synthetic.testloader 0%nat))
  = Driver.net
      (snd (Synthetic.cell17 Synthetic.trainloader Synthetic.trainloader
                             0%nat))
  /\ Driver.train_losses
       (snd (Synthetic.cell17 Synthetic.trainloader Synthetic.testloader
                              0%nat))
     = Driver.train_losses
         (snd (Synthetic.cell17 Synthetic.trainloader Synthetic.trainloader
                                0%nat)).
Proof.
  apply (@validation_data_do_not_train
           Synthetic.Net Synthetic.Images Synthetic.forward
           Synthetic.torch_exp Synthetic.zero_grad Synthetic.backward
           Synthetic.optimizer_step (fun _ _ _ => eq_refl) true
           (fun _ => Synthetic.trainloader) (fun _ => Synthetic.testloader)
           (fun _ => Synthetic.trainloader) 0%nat);
    vm_compute; reflexivity.
Defined.

End MoreRuns.
